(** * Gateway chat pipeline: chat-run registry, tool-event recipients,
      agent-event multiplexer and inbound channel handler

    A shallow embedding of the gateway's [server-chat] module.  JavaScript
    maps become [gmap]s, sets become [gset]s, arrays become lists, and the
    closures' captured mutable state becomes an explicit world that is
    threaded through a small state monad.  Every call of [Date.now()] is a
    separate reading of a clock oracle. *)

From stdpp Require Import gmap strings list fin_maps.
From Stdlib Require Import ZArith Ascii.

(** ** JavaScript built-ins used by the module *)

Module Js.

(** Truthiness of a string: only the empty string is falsy. *)
Definition truthy (s : string) : bool := negb (bool_decide (s = "")).

(** Truthiness of an optional string ([undefined] is falsy). *)
Definition truthy_opt (s : option string) : option string :=
  match s with
  | Some v => if truthy v then Some v else None
  | None => None
  end.

(** Strings are sequences of code units below 256; the white space and
    line terminators of [String.prototype.trim] in that range. *)
Definition isWhiteSpace (c : ascii) : bool :=
  let n := nat_of_ascii c in
  (n =? 9)%nat || (n =? 10)%nat || (n =? 11)%nat || (n =? 12)%nat
  || (n =? 13)%nat || (n =? 32)%nat || (n =? 160)%nat.

Fixpoint trimStart (s : string) : string :=
  match s with
  | EmptyString => EmptyString
  | String c rest => if isWhiteSpace c then trimStart rest else s
  end.

Definition trimEnd (s : string) : string :=
  String.rev (trimStart (String.rev s)).

Definition trim (s : string) : string := trimEnd (trimStart s).

(** [Array.prototype.findIndex]; [None] stands for the result [-1]. *)
Fixpoint findIndex {A : Type} (p : A → bool) (l : list A) : option nat :=
  match l with
  | [] => None
  | x :: rest => if p x then Some 0%nat else S <$> findIndex p rest
  end.

(** [queue.splice(idx, 1)]: the array without position [idx]. *)
Definition splice1 {A : Type} (idx : nat) (l : list A) : list A :=
  take idx l ++ drop (S idx) l.

Definition newline : string := String (ascii_of_nat 10) EmptyString.

(** [parts.join(sep)]. *)
Definition join (sep : string) (parts : list string) : string :=
  String.concat sep parts.

(** The values an event's [data] record can hold; objects are opaque. *)
Inductive Val :=
| VStr (s : string)
| VNum (n : Z)
| VBool (b : bool)
| VNull
| VObj (tag : string).

Definition truthy_val (v : option Val) : bool :=
  match v with
  | Some (VStr s) => truthy s
  | Some (VNum n) => negb (bool_decide (n = 0%Z))
  | Some (VBool b) => b
  | Some VNull => false
  | Some (VObj _) => true
  | None => false
  end.

End Js.

(** ** Chat-run registry *)

Record ChatRunEntry := mkChatRunEntry {
  sessionKey : string;
  clientRunId : string;
}.

Global Instance ChatRunEntry_eq_dec : EqDecision ChatRunEntry.
Proof. solve_decision. Defined.

Module ChatRunRegistry.

(** The captured [chatRunSessions] map. *)
Abbreviation Sessions := (gmap string (list ChatRunEntry)).

Definition add (sessionId : string) (entry : ChatRunEntry)
    (chatRunSessions : Sessions) : Sessions :=
  match chatRunSessions !! sessionId with
  | Some queue => <[sessionId := queue ++ [entry]]> chatRunSessions
  | None => <[sessionId := [entry]]> chatRunSessions
  end.

Definition peek (sessionId : string) (chatRunSessions : Sessions)
    : option ChatRunEntry :=
  chatRunSessions !! sessionId ≫= head.

(** After an in-place removal the queue is dropped from the map when it
    has become empty. *)
Definition store (sessionId : string) (queue : list ChatRunEntry)
    (chatRunSessions : Sessions) : Sessions :=
  match queue with
  | [] => delete sessionId chatRunSessions
  | _ :: _ => <[sessionId := queue]> chatRunSessions
  end.

Definition shift (sessionId : string) (chatRunSessions : Sessions)
    : option ChatRunEntry * Sessions :=
  match chatRunSessions !! sessionId with
  | None | Some [] => (None, chatRunSessions)
  | Some (entry :: queue) => (Some entry, store sessionId queue chatRunSessions)
  end.

(** The predicate handed to [findIndex]; an absent or empty [sessionKey]
    argument is falsy and matches every session key. *)
Definition matches (clientRunId : string) (sessionKey : option string)
    (entry : ChatRunEntry) : bool :=
  let '(mkChatRunEntry entrySessionKey entryClientRunId) := entry in
  bool_decide (entryClientRunId = clientRunId)
  && match Js.truthy_opt sessionKey with
     | Some sk => bool_decide (entrySessionKey = sk)
     | None => true
     end.

Definition remove (sessionId clientRunId : string) (sessionKey : option string)
    (chatRunSessions : Sessions) : option ChatRunEntry * Sessions :=
  match chatRunSessions !! sessionId with
  | None | Some [] => (None, chatRunSessions)
  | Some queue =>
      match Js.findIndex (matches clientRunId sessionKey) queue with
      | None => (None, chatRunSessions)
      | Some idx =>
          (queue !! idx, store sessionId (Js.splice1 idx queue) chatRunSessions)
      end
  end.

Definition clear (chatRunSessions : Sessions) : Sessions := ∅.

End ChatRunRegistry.

(** ** Shared state and observable effects *)

Record ChatRunState := mkChatRunState {
  registry : gmap string (list ChatRunEntry);
  buffers : gmap string string;
  deltaSentAt : gmap string Z;
  abortedRuns : gmap string Z;
}.

Record ToolRecipientEntry := mkToolRecipientEntry {
  connIds : gset string;
  updatedAt : Z;
  finalizedAt : option Z;
}.

Definition TOOL_EVENT_RECIPIENT_TTL_MS : Z := 10 * 60 * 1000.
Definition TOOL_EVENT_RECIPIENT_FINAL_GRACE_MS : Z := 30 * 1000.

(** Modelled from the spec: the agent event type [AgentEventPayload] is
    declared outside the module; its shape is the one of the external
    interfaces section, [{ runId, seq, stream, data? }]. *)
Record AgentEventPayload := mkAgentEvent {
  runId : string;
  seq : Z;
  stream : string;
  data : option (gmap string Js.Val);
}.

(** Modelled from the spec: the per-run context returned by
    [getAgentRunContext], reduced to the two fields the module reads. *)
Record AgentRunContext := mkAgentRunContext {
  isHeartbeat : bool;
  verboseLevel : option string;
}.

Inductive JobState := Done | Error.

(** Payload objects handed to the three delivery functions. *)
Inductive Payload :=
| AgentPayload (evt : AgentEventPayload) (withSessionKey : option string)
| SeqGapPayload (run : string) (ts : Z) (session : option string)
    (expected received : Z)
| ChatDelta (run session : string) (sq : Z) (text : string) (timestamp : Z)
| ChatFinal (run session : string) (sq : Z) (message : option (string * Z))
| ChatError (run session : string) (sq : Z) (errorMessage : option string).

(** Calls of the injected functions, in the order they are made;
    [dropIfSlow] is false when the call passes no options. *)
Inductive Effect :=
| broadcast (event : string) (payload : Payload) (dropIfSlow : bool)
| broadcastToConnIds (event : string) (payload : Payload) (conns : gset string)
| nodeSendToSession (session : string) (event : string) (payload : Payload)
| clearAgentRunContext (run : string).

Global Instance Val_eq_dec : EqDecision Js.Val.
Proof. solve_decision. Defined.
Global Instance AgentEventPayload_eq_dec : EqDecision AgentEventPayload.
Proof. solve_decision. Defined.
Global Instance Payload_eq_dec : EqDecision Payload.
Proof. solve_decision. Defined.
Global Instance Effect_eq_dec : EqDecision Effect.
Proof. solve_decision. Defined.

(** The objects shared by the handler's closures, the number of clock
    readings taken so far, and the calls made so far. *)
Record World := mkWorld {
  ticks : nat;
  chatRunState : ChatRunState;
  agentRunSeq : gmap string Z;
  toolEventRecipients : gmap string ToolRecipientEntry;
  out : list Effect;
}.

Definition set_ticks (f : nat → nat) (w : World) : World :=
  mkWorld (f (ticks w)) (chatRunState w) (agentRunSeq w)
    (toolEventRecipients w) (out w).
Definition set_chatRunState (f : ChatRunState → ChatRunState) (w : World) : World :=
  mkWorld (ticks w) (f (chatRunState w)) (agentRunSeq w)
    (toolEventRecipients w) (out w).
Definition set_agentRunSeq (f : gmap string Z → gmap string Z) (w : World) : World :=
  mkWorld (ticks w) (chatRunState w) (f (agentRunSeq w))
    (toolEventRecipients w) (out w).
Definition set_toolEventRecipients
    (f : gmap string ToolRecipientEntry → gmap string ToolRecipientEntry)
    (w : World) : World :=
  mkWorld (ticks w) (chatRunState w) (agentRunSeq w)
    (f (toolEventRecipients w)) (out w).
Definition set_out (f : list Effect → list Effect) (w : World) : World :=
  mkWorld (ticks w) (chatRunState w) (agentRunSeq w)
    (toolEventRecipients w) (f (out w)).

Definition set_registry f (s : ChatRunState) : ChatRunState :=
  mkChatRunState (f (registry s)) (buffers s) (deltaSentAt s) (abortedRuns s).
Definition set_buffers f (s : ChatRunState) : ChatRunState :=
  mkChatRunState (registry s) (f (buffers s)) (deltaSentAt s) (abortedRuns s).
Definition set_deltaSentAt f (s : ChatRunState) : ChatRunState :=
  mkChatRunState (registry s) (buffers s) (f (deltaSentAt s)) (abortedRuns s).
Definition set_abortedRuns f (s : ChatRunState) : ChatRunState :=
  mkChatRunState (registry s) (buffers s) (deltaSentAt s) (f (abortedRuns s)).

(** The collaborators that live outside the module. *)
Record Env := mkEnv {
  clock : nat → Z;
  resolveSessionKeyForRun : string → option string;
  getAgentRunContext : string → option AgentRunContext;
  normalizeVerboseLevel : option string → option string;
  (** [loadSessionEntry]: [None] when it throws, else the entry's
      [verboseLevel] and the configured [verboseDefault]. *)
  loadSessionEntry : string → option (option string * option string);
  (** [loadConfig] followed by [resolveHeartbeatVisibility]: [None] when
      either throws, else [showOk]. *)
  heartbeatShowOk : option bool;
  formatForLog : Js.Val → string;
}.

(** ** The state monad of the closures *)

Definition State (S A : Type) : Type := S → A * S.

Global Instance State_ret {S : Type} : MRet (State S) := λ A a w, (a, w).
Global Instance State_bind {S : Type} : MBind (State S) :=
  λ A B k m w, let '(a, w') := m w in k a w'.

Definition gets {S A : Type} (f : S → A) : State S A := λ w, (f w, w).
Definition modify {S : Type} (f : S → S) : State S unit := λ w, (tt, f w).
Definition when {S : Type} (b : bool) (m : State S unit) : State S unit :=
  if b then m else mret tt.
Definition exec {S A : Type} (m : State S A) (w : S) : S := (m w).2.
Definition eval {S A : Type} (m : State S A) (w : S) : A := (m w).1.

Abbreviation M := (State World).

Definition emit (e : Effect) : M unit := modify (set_out (λ o, o ++ [e])).

(** [Date.now()]: the next reading of the clock. *)
Definition Date_now (env : Env) : M Z :=
  λ w, (clock env (ticks w), set_ticks S w).

(** ** Tool-event recipient registry *)

Module ToolEventRecipientRegistry.
Section WithEnv.

Context (env : Env).

Definition cutoff (entry : ToolRecipientEntry) : Z :=
  match finalizedAt entry with
  | Some f =>
      if bool_decide (f = 0%Z) then (updatedAt entry + TOOL_EVENT_RECIPIENT_TTL_MS)%Z
      else (f + TOOL_EVENT_RECIPIENT_FINAL_GRACE_MS)%Z
  | None => (updatedAt entry + TOOL_EVENT_RECIPIENT_TTL_MS)%Z
  end.

(** What the sweep at time [now] keeps. *)
Definition sweep (now : Z) (recipients : gmap string ToolRecipientEntry)
    : gmap string ToolRecipientEntry :=
  filter (λ kv, ¬ (cutoff kv.2 ≤ now)%Z) recipients.

Definition prune : M unit :=
  n ← gets (λ w, size (toolEventRecipients w));
  if bool_decide (n = 0%nat) then mret tt
  else
    now ← Date_now env;
    modify (set_toolEventRecipients (sweep now)).

Definition add (runId connId : string) : M unit :=
  if negb (Js.truthy runId) || negb (Js.truthy connId) then mret tt
  else
    now ← Date_now env;
    existing ← gets (λ w, toolEventRecipients w !! runId);
    match existing with
    | Some e =>
        modify (set_toolEventRecipients
          <[runId := mkToolRecipientEntry (connIds e ∪ {[connId]}) now (finalizedAt e)]>)
    | None =>
        modify (set_toolEventRecipients
          <[runId := mkToolRecipientEntry {[connId]} now None]>)
    end;;
    prune.

Definition get (runId : string) : M (option (gset string)) :=
  entry ← gets (λ w, toolEventRecipients w !! runId);
  match entry with
  | None => mret None
  | Some e =>
      now ← Date_now env;
      modify (set_toolEventRecipients
        <[runId := mkToolRecipientEntry (connIds e) now (finalizedAt e)]>);;
      prune;;
      mret (Some (connIds e))
  end.

Definition markFinal (runId : string) : M unit :=
  entry ← gets (λ w, toolEventRecipients w !! runId);
  match entry with
  | None => mret tt
  | Some e =>
      now ← Date_now env;
      modify (set_toolEventRecipients
        <[runId := mkToolRecipientEntry (connIds e) (updatedAt e) (Some now)]>);;
      prune
  end.

End WithEnv.
End ToolEventRecipientRegistry.

(** ** Agent event handler *)

Module AgentEventHandler.
Section WithEnv.

Context (env : Env).

Definition shouldSuppressHeartbeatBroadcast (runId : string) : bool :=
  match getAgentRunContext env runId with
  | Some runContext =>
      if isHeartbeat runContext then
        match heartbeatShowOk env with
        | Some showOk => negb showOk
        | None => true
        end
      else false
  | None => false
  end.

Definition emitChatDelta (sessionKey clientRunId : string) (seq : Z)
    (text : string) : M unit :=
  modify (set_chatRunState (set_buffers <[clientRunId := text]>));;
  now ← Date_now env;
  last ← gets (λ w, default 0%Z (deltaSentAt (chatRunState w) !! clientRunId));
  if bool_decide (now - last < 150)%Z then mret tt
  else
    modify (set_chatRunState (set_deltaSentAt <[clientRunId := now]>));;
    let payload := ChatDelta clientRunId sessionKey seq text now in
    when (negb (shouldSuppressHeartbeatBroadcast clientRunId))
      (emit (broadcast "chat" payload true));;
    emit (nodeSendToSession sessionKey "chat" payload).

Definition emitChatFinal (sessionKey clientRunId : string) (seq : Z)
    (jobState : JobState) (error : option Js.Val) : M unit :=
  text ← gets (λ w,
    default "" (Js.trim <$> buffers (chatRunState w) !! clientRunId));
  modify (set_chatRunState (set_buffers (delete clientRunId)));;
  modify (set_chatRunState (set_deltaSentAt (delete clientRunId)));;
  match jobState with
  | Done =>
      message ← (if Js.truthy text
                 then now ← Date_now env; mret (Some (text, now))
                 else mret None);
      let payload := ChatFinal clientRunId sessionKey seq message in
      when (negb (shouldSuppressHeartbeatBroadcast clientRunId))
        (emit (broadcast "chat" payload false));;
      emit (nodeSendToSession sessionKey "chat" payload)
  | Error =>
      let payload :=
        ChatError clientRunId sessionKey seq
          (if Js.truthy_val error
           then formatForLog env <$> error else None) in
      emit (broadcast "chat" payload false);;
      emit (nodeSendToSession sessionKey "chat" payload)
  end.

Definition resolveToolVerboseLevel (runId : string)
    (sessionKey : option string) : string :=
  let runContext := getAgentRunContext env runId in
  let runVerbose := normalizeVerboseLevel env (runContext ≫= verboseLevel) in
  match Js.truthy_opt runVerbose with
  | Some v => v
  | None =>
      match Js.truthy_opt sessionKey with
      | None => "off"
      | Some sk =>
          match loadSessionEntry env sk with
          | None => "off"
          | Some (entryVerbose, verboseDefault) =>
              match Js.truthy_opt (normalizeVerboseLevel env entryVerbose) with
              | Some v => v
              | None => default "off" (normalizeVerboseLevel env verboseDefault)
              end
          end
      end
  end.

(** The handler's constants, computed from the event and the state at
    entry. *)
Definition chatLink (evt : AgentEventPayload) (w : World) : option ChatRunEntry :=
  ChatRunRegistry.peek (runId evt) (registry (chatRunState w)).

Definition sessionKeyOf (evt : AgentEventPayload) (w : World) : option string :=
  match chatLink evt w with
  | Some link => Some (sessionKey link)
  | None => resolveSessionKeyForRun env (runId evt)
  end.

Definition clientRunIdOf (evt : AgentEventPayload) (w : World) : string :=
  match chatLink evt w with
  | Some link => clientRunId link
  | None => runId evt
  end.

Definition isAborted (evt : AgentEventPayload) (w : World) : bool :=
  bool_decide (is_Some (abortedRuns (chatRunState w) !! clientRunIdOf evt w))
  || bool_decide (is_Some (abortedRuns (chatRunState w) !! runId evt)).

Definition agentPayload (evt : AgentEventPayload) (w : World) : Payload :=
  AgentPayload evt (Js.truthy_opt (sessionKeyOf evt w)).

Definition lastSeq (evt : AgentEventPayload) (w : World) : Z :=
  default 0%Z (agentRunSeq w !! runId evt).

Definition isToolEvent (evt : AgentEventPayload) : bool :=
  bool_decide (stream evt = "tool").

Definition toolVerbose (evt : AgentEventPayload) (w : World) : string :=
  if isToolEvent evt
  then resolveToolVerboseLevel (runId evt) (sessionKeyOf evt w)
  else "off".

Definition strippedData (evt : AgentEventPayload) : gmap string Js.Val :=
  delete "partialResult" (delete "result" (default ∅ (data evt))).

Definition toolPayload (evt : AgentEventPayload) (w : World) : Payload :=
  if isToolEvent evt && negb (bool_decide (toolVerbose evt w = "full"))
  then AgentPayload
         (mkAgentEvent (runId evt) (seq evt) (stream evt) (Some (strippedData evt)))
         (Js.truthy_opt (sessionKeyOf evt w))
  else agentPayload evt w.

Definition dataField (evt : AgentEventPayload) (k : string) : option Js.Val :=
  data evt ≫= (λ d, d !! k).

Definition stringField (evt : AgentEventPayload) (k : string) : option string :=
  match dataField evt k with
  | Some (Js.VStr s) => Some s
  | _ => None
  end.

Definition lifecyclePhase (evt : AgentEventPayload) : option string :=
  if bool_decide (stream evt = "lifecycle") then stringField evt "phase" else None.

Definition isEndOrError (phase : option string) : bool :=
  bool_decide (phase = Some "end") || bool_decide (phase = Some "error").

Definition jobStateOf (phase : option string) : JobState :=
  if bool_decide (phase = Some "error") then Error else Done.

Definition seqGap (evt : AgentEventPayload) (sessionKey : option string)
    (last : Z) : M unit :=
  ts ← Date_now env;
  emit (broadcast "agent"
    (SeqGapPayload (runId evt) ts sessionKey (last + 1) (seq evt)) false).

(** [chatRunState.registry.shift] and [remove] on the shared state. *)
Definition registryShift (sessionId : string) : M (option ChatRunEntry) :=
  λ w,
    let '(entry, sessions) :=
      ChatRunRegistry.shift sessionId (registry (chatRunState w)) in
    (entry, set_chatRunState (set_registry (λ _, sessions)) w).

Definition registryRemove (sessionId clientRunId : string)
    (sessionKey : option string) : M (option ChatRunEntry) :=
  λ w,
    let '(entry, sessions) :=
      ChatRunRegistry.remove sessionId clientRunId sessionKey
        (registry (chatRunState w)) in
    (entry, set_chatRunState (set_registry (λ _, sessions)) w).

Definition purgeAborted (evt : AgentEventPayload) (sessionKey : string)
    (link : option ChatRunEntry) (clientRunId : string) : M unit :=
  modify (set_chatRunState (set_abortedRuns (delete clientRunId)));;
  modify (set_chatRunState (set_abortedRuns (delete (runId evt))));;
  modify (set_chatRunState (set_buffers (delete clientRunId)));;
  modify (set_chatRunState (set_deltaSentAt (delete clientRunId)));;
  match link with
  | Some _ => registryRemove (runId evt) clientRunId (Some sessionKey);; mret tt
  | None => mret tt
  end.

(** The non-aborted end/error branch; the result tells whether the
    handler returned from inside it. *)
Definition finalize (evt : AgentEventPayload) (sessionKey : string)
    (link : option ChatRunEntry) : M bool :=
  let jobState := jobStateOf (lifecyclePhase evt) in
  match link with
  | Some _ =>
      finished ← registryShift (runId evt);
      match finished with
      | None => emit (clearAgentRunContext (runId evt));; mret true
      | Some (mkChatRunEntry finishedSessionKey finishedClientRunId) =>
          emitChatFinal finishedSessionKey finishedClientRunId (seq evt)
            jobState (dataField evt "error");;
          mret false
      end
  | None =>
      emitChatFinal sessionKey (runId evt) (seq evt)
        jobState (dataField evt "error");;
      mret false
  end.

(** The body of [if (sessionKey) { ... }]. *)
Definition sessionDelivery (evt : AgentEventPayload) (sessionKey : string)
    (link : option ChatRunEntry) (clientRunId : string) (aborted : bool)
    (payload : Payload) : M bool :=
  emit (nodeSendToSession sessionKey "agent" payload);;
  match (if negb aborted && bool_decide (stream evt = "assistant")
         then stringField evt "text" else None) with
  | Some text =>
      emitChatDelta sessionKey clientRunId (seq evt) text;; mret false
  | None =>
      if negb aborted && isEndOrError (lifecyclePhase evt) then
        finalize evt sessionKey link
      else if aborted && isEndOrError (lifecyclePhase evt) then
        purgeAborted evt sessionKey link clientRunId;; mret false
      else mret false
  end.

Definition fanOut (evt : AgentEventPayload) (toolPayload agentPayload : Payload)
    : M unit :=
  if isToolEvent evt then
    recipients ← ToolEventRecipientRegistry.get env (runId evt);
    match recipients with
    | Some conns =>
        when (bool_decide (0 < size conns)%nat)
          (emit (broadcastToConnIds "agent" toolPayload conns))
    | None => mret tt
    end
  else emit (broadcast "agent" agentPayload false).

Definition cleanup (evt : AgentEventPayload) : M unit :=
  when (isEndOrError (lifecyclePhase evt))
    (ToolEventRecipientRegistry.markFinal env (runId evt);;
     emit (clearAgentRunContext (runId evt))).

Definition recordSeq (evt : AgentEventPayload) (sessionKey : option string)
    (last : Z) : M unit :=
  when (bool_decide (seq evt ≠ last + 1)%Z) (seqGap evt sessionKey last);;
  modify (set_agentRunSeq <[runId evt := seq evt]>).

(** Everything after the sequence number has been recorded. *)
Definition deliver (evt : AgentEventPayload) (link : option ChatRunEntry)
    (sessionKey : option string) (clientRunId : string) (aborted : bool)
    (toolPayload agentPayload : Payload) : M unit :=
  fanOut evt toolPayload agentPayload;;
  returned ← match Js.truthy_opt sessionKey with
             | Some sk =>
                 sessionDelivery evt sk link clientRunId aborted
                   (if isToolEvent evt then toolPayload else agentPayload)
             | None => mret false
             end;
  if returned : bool then mret tt else cleanup evt.

(** The handler returned by [createAgentEventHandler]. *)
Definition createAgentEventHandler (evt : AgentEventPayload) : M unit :=
  λ w,
    let link := chatLink evt w in
    let sessionKey := sessionKeyOf evt w in
    let clientRunId := clientRunIdOf evt w in
    let aborted := isAborted evt w in
    let agentPayload := agentPayload evt w in
    let last := lastSeq evt w in
    let toolVerbose := toolVerbose evt w in
    if isToolEvent evt && bool_decide (toolVerbose = "off") then
      modify (set_agentRunSeq <[runId evt := seq evt]>) w
    else
      let toolPayload := toolPayload evt w in
      (recordSeq evt sessionKey last;;
       deliver evt link sessionKey clientRunId aborted toolPayload agentPayload) w.

End WithEnv.
End AgentEventHandler.

(** ** Inbound channel message handler

    The store files and the transcript files are maps from paths to their
    contents, transcript lines are kept as records rather than as JSON
    text, and the calls of [deps.log] are left out. *)

Module ChannelMessageHandler.

(** Modelled from the spec: the inbound message shape of the channel
    transports, [{ id?, from, text, timestamp?, raw? }]; the handler
    reads the first three fields only. *)
Record ChannelMessage := mkChannelMessage {
  id : option string;
  from : string;
  text : string;
}.

(** Modelled from the spec: the session-store entry fields the handler
    consumes and produces. *)
Record SessionEntry := mkSessionEntry {
  sessionId : string;
  updatedAt : Z;
  systemSent : bool;
  abortedLastRun : bool;
  inputTokens : Z;
  outputTokens : Z;
  totalTokens : Z;
  label : option string;
  origin : option string;
  lastChannel : option string;
  lastTo : option string;
  sendPolicy : option string;
  contextTokens : option Z;
  model : option string;
  modelProvider : option string;
  sessionFile : option string;
}.

Record SessionDefaults := mkSessionDefaults {
  defaultContextTokens : option Z;
  defaultModel : option string;
  defaultModelProvider : option string;
}.

(** One line of a transcript file, before [JSON.stringify]. *)
Inductive TranscriptLine :=
| SessionHeader (version : Z) (session : string) (timestamp : Z) (cwd : string)
| MessageLine (messageId : string) (timestamp : Z) (role : string)
    (content : string) (stopReason : option string).

Record MsgContext := mkMsgContext {
  Body : string;
  BodyForAgent : string;
  BodyForCommands : string;
  RawBody : string;
  CommandBody : string;
  SessionKey : string;
  Provider : string;
  Surface : string;
  OriginatingChannel : string;
  ChatType : string;
  CommandAuthorized : bool;
  MessageSid : string;
  SenderId : string;
  SenderName : string;
  SenderUsername : string;
}.

(** What one run of the dispatch pipeline does to the handler: the calls
    of the dispatcher's [deliver(payload, info)], as pairs of [info.kind]
    and [payload.text], and whether the awaited promise resolves. *)
Record DispatchOutcome := mkDispatchOutcome {
  deliveries : list (string * option string);
  resolves : bool;
}.

(** The injected dependencies and the collaborators outside the module,
    all taken at the configuration returned by [deps.loadConfig()]. *)
Record Deps := mkDeps {
  clock : nat → Z;
  randomUUID : nat → string;
  resolveSessionKey : string → string → string;
  resolveGatewaySessionStoreTarget : string → string * list string;
  getSessionDefaults : SessionDefaults;
  path_dirname : string → string;
  path_join : string → string → string;
  mkdirSucceeds : string → bool;
  writeSucceeds : string → bool;
  appendSucceeds : string → bool;
  CURRENT_SESSION_VERSION : Z;
  cwd : string;
  fallbackRunId : Z → string;
  injectTimestamp : string → string;
  dispatchInboundMessage : MsgContext → string → DispatchOutcome;
  onReply : bool;
}.

(** A call of [deps.onReply(channelId, accountId, to, text)]. *)
Record Reply := mkReply {
  replyChannelId : string;
  replyAccountId : string;
  replyTo : string;
  replyText : string;
}.

Record World := mkWorld {
  ticks : nat;
  uuids : nat;
  stores : gmap string (gmap string SessionEntry);
  files : gmap string (list TranscriptLine);
  replies : list Reply;
}.

Definition set_ticks f (w : World) : World :=
  mkWorld (f (ticks w)) (uuids w) (stores w) (files w) (replies w).
Definition set_uuids f (w : World) : World :=
  mkWorld (ticks w) (f (uuids w)) (stores w) (files w) (replies w).
Definition set_stores f (w : World) : World :=
  mkWorld (ticks w) (uuids w) (f (stores w)) (files w) (replies w).
Definition set_files f (w : World) : World :=
  mkWorld (ticks w) (uuids w) (stores w) (f (files w)) (replies w).
Definition set_replies f (w : World) : World :=
  mkWorld (ticks w) (uuids w) (stores w) (files w) (f (replies w)).

Section WithDeps.

Context (deps : Deps).

Definition Date_now : State World Z :=
  λ w, (clock deps (ticks w), set_ticks S w).

Definition crypto_randomUUID : State World string :=
  λ w, (randomUUID deps (uuids w), set_uuids S w).

Definition ensureTranscriptFile (transcriptPath sessionId : string)
    : State World bool :=
  exists_ ← gets (λ w, bool_decide (is_Some (files w !! transcriptPath)));
  if exists_ : bool then mret true
  else if negb (mkdirSucceeds deps (path_dirname deps transcriptPath)) then mret false
  else
    timestamp ← Date_now;
    let header :=
      SessionHeader (CURRENT_SESSION_VERSION deps) sessionId timestamp (cwd deps) in
    if writeSucceeds deps transcriptPath then
      modify (set_files <[transcriptPath := [header]]>);; mret true
    else mret false.

Definition appendTranscriptMessage (role message sessionId storePath : string)
    (sessionFile : option string) : State World bool :=
  if negb (Js.truthy storePath) then mret false
  else
    let transcriptPath :=
      match Js.truthy_opt sessionFile with
      | Some file => file
      | None => path_join deps (path_dirname deps storePath) (sessionId +:+ ".jsonl")
      end in
    exists_ ← gets (λ w, bool_decide (is_Some (files w !! transcriptPath)));
    ensured ← (if exists_ : bool then mret true
               else ensureTranscriptFile transcriptPath sessionId);
    if negb ensured then mret false
    else
      now ← Date_now;
      uuid ← crypto_randomUUID;
      let messageId := String.substring 0 8 uuid in
      let line :=
        MessageLine messageId now role message
          (if bool_decide (role = "assistant") then Some "injected" else None) in
      if appendSucceeds deps transcriptPath then
        modify (set_files (λ fs,
          <[transcriptPath := default [] (fs !! transcriptPath) ++ [line]]> fs));;
        mret true
      else mret false.

(** The entry created for a session key that has none. *)
Definition newEntry (channelId : string) (msg : ChannelMessage)
    (uuid : string) (now : Z) : SessionEntry :=
  let defaults := getSessionDefaults deps in
  mkSessionEntry uuid now false false 0 0 0
    (Some ("Channel " +:+ from msg)) (Some "user")
    (Some channelId) (Some (from msg)) (Some "allow")
    (defaultContextTokens defaults) (defaultModel defaults)
    (defaultModelProvider defaults) None.

(** The callback handed to [updateSessionStore], run on the store kept at
    [storePath]; it reports the session id and session file of the entry
    it created or refreshed.  [updateSessionStore] lives outside the
    module and is taken to be the atomic read-modify-write of the store
    file that the spec describes. *)
Definition ensureSession (channelId sessionKey : string) (msg : ChannelMessage)
    (storePath : string) (storeKeys : list string)
    : State World (string * option string) :=
  store ← gets (λ w, default ∅ (stores w !! storePath));
  let primaryKey := default sessionKey (head storeKeys) in
  let existingKey :=
    list_find (λ candidate, is_Some (store !! candidate)) storeKeys in
  let existing :=
    match existingKey with
    | Some (_, key) => if Js.truthy key then store !! key else None
    | None => None
    end in
  match existing, existingKey with
  | Some entry, Some (_, key) =>
      now ← Date_now;
      let entry' :=
        mkSessionEntry (sessionId entry) now (systemSent entry)
          (abortedLastRun entry) (inputTokens entry) (outputTokens entry)
          (totalTokens entry) (label entry) (origin entry)
          (Some channelId) (Some (from msg))
          (match Js.truthy_opt (sendPolicy entry) with
           | Some policy =>
               if bool_decide (policy = "auto") then Some "allow" else Some policy
           | None => Some "allow"
           end)
          (contextTokens entry) (model entry) (modelProvider entry)
          (sessionFile entry) in
      modify (set_stores <[storePath := <[key := entry']> store]>);;
      mret (sessionId entry', sessionFile entry')
  | _, _ =>
      uuid ← crypto_randomUUID;
      now ← Date_now;
      let entry := newEntry channelId msg uuid now in
      modify (set_stores <[storePath := <[primaryKey := entry]> store]>);;
      mret (sessionId entry, sessionFile entry)
  end.

(** The dispatcher's [deliver] callback, folded over the deliveries. *)
Definition deliver (finalReplyParts : list string)
    (delivery : string * option string) : list string :=
  if negb (bool_decide (delivery.1 = "final")) then finalReplyParts
  else
    let text := default "" (Js.trim <$> delivery.2) in
    if Js.truthy text then finalReplyParts ++ [text] else finalReplyParts.

Definition collectFinalReplyParts (ds : list (string * option string))
    : list string :=
  foldl deliver [] ds.

Definition blankLine : string := Js.newline +:+ Js.newline.

(** The [MsgContext] handed to the dispatch pipeline. *)
Definition buildContext (channelId sessionKey clientRunId : string)
    (msg : ChannelMessage) : MsgContext :=
  let stampedMessage := injectTimestamp deps (text msg) in
  mkMsgContext (text msg) stampedMessage (text msg) (text msg) (text msg)
    sessionKey channelId channelId channelId "direct" true clientRunId
    (from msg) (from msg) (from msg).

(** The handler returned by [createChannelMessageHandler]. *)
Definition createChannelMessageHandler (channelId accountId : string)
    (msg : ChannelMessage) : State World unit :=
  let sessionKey := resolveSessionKey deps channelId (from msg) in
  let '(storePath, storeKeys) :=
    resolveGatewaySessionStoreTarget deps sessionKey in
  '(sessionId, sessionFile) ←
    ensureSession channelId sessionKey msg storePath storeKeys;
  if negb (Js.truthy sessionId) then mret tt
  else
    appendTranscriptMessage "user" (text msg) sessionId storePath sessionFile;;
    clientRunId ← match Js.truthy_opt (id msg) with
                  | Some given => mret given
                  | None => stamp ← Date_now; mret (fallbackRunId deps stamp)
                  end;
    Date_now;;
    let ctx := buildContext channelId sessionKey clientRunId msg in
    let outcome := dispatchInboundMessage deps ctx clientRunId in
    let finalReplyParts := collectFinalReplyParts (deliveries outcome) in
    if resolves outcome && bool_decide (0 < length finalReplyParts)%nat
       && onReply deps then
      modify (set_replies (λ rs,
        rs ++ [mkReply channelId accountId (from msg)
                 (Js.join blankLine finalReplyParts)]))
    else mret tt.

End WithDeps.
End ChannelMessageHandler.

(** ** Histories of registry operations on one session *)

Module RegistryTrace.

Inductive Op :=
| Add (entry : ChatRunEntry)
| Shift.

(** Runs the operations on the queue of [sessionId]; the results of the
    shifts are collected in call order. *)
Fixpoint run (sessionId : string) (ops : list Op)
    (chatRunSessions : gmap string (list ChatRunEntry))
    : list (option ChatRunEntry) * gmap string (list ChatRunEntry) :=
  match ops with
  | [] => ([], chatRunSessions)
  | Add entry :: rest =>
      run sessionId rest (ChatRunRegistry.add sessionId entry chatRunSessions)
  | Shift :: rest =>
      let '(result, sessions) := ChatRunRegistry.shift sessionId chatRunSessions in
      let '(results, final) := run sessionId rest sessions in
      (result :: results, final)
  end.

(** The entries handed to [add], in call order. *)
Definition added (ops : list Op) : list ChatRunEntry :=
  omap (λ op, match op with Add entry => Some entry | Shift => None end) ops.

(** The entries handed back by the shifts, in call order. *)
Definition shifted (results : list (option ChatRunEntry)) : list ChatRunEntry :=
  omap (λ result, result) results.

(** The map stores [queue] for the session, and no queue when it is empty. *)
Definition holds (sessionId : string) (queue : list ChatRunEntry)
    (chatRunSessions : gmap string (list ChatRunEntry)) : Prop :=
  chatRunSessions !! sessionId =
    match queue with [] => None | _ :: _ => Some queue end.

(** What [remove] looks for: the client run id, and the session key when
    one is given (an empty string counts as not given). *)
Definition wanted (id : string) (sk : option string) (e : ChatRunEntry) : Prop :=
  clientRunId e = id ∧ ∀ s, sk = Some s → s ≠ "" → sessionKey e = s.

End RegistryTrace.

(** ** Calls of the tool-event recipient registry *)

Module RecipientCalls.

Inductive Call :=
| CallAdd (run conn : string)
| CallGet (run : string)
| CallMarkFinal (run : string).

Definition callRun (c : Call) : string :=
  match c with
  | CallAdd run _ | CallGet run | CallMarkFinal run => run
  end.

Definition call (env : Env) (c : Call) : M unit :=
  match c with
  | CallAdd run conn => ToolEventRecipientRegistry.add env run conn
  | CallGet run => ToolEventRecipientRegistry.get env run;; mret tt
  | CallMarkFinal run => ToolEventRecipientRegistry.markFinal env run
  end.

(** The calls that reach [prune()]: an [add] with two non-empty ids, and
    a [get] or [markFinal] of a run that has an entry. *)
Definition performsSweep (c : Call) (w : World) : bool :=
  match c with
  | CallAdd run conn => Js.truthy run && Js.truthy conn
  | CallGet run | CallMarkFinal run =>
      bool_decide (is_Some (toolEventRecipients w !! run))
  end.

(** The entry after [get], after [add] and after [markFinal] wrote to it. *)
Definition refreshed (e : ToolRecipientEntry) (now : Z) : ToolRecipientEntry :=
  mkToolRecipientEntry (connIds e) now (finalizedAt e).
Definition joined (e : ToolRecipientEntry) (conn : string) (now : Z)
    : ToolRecipientEntry :=
  mkToolRecipientEntry (connIds e ∪ {[conn]}) now (finalizedAt e).
Definition finalized (e : ToolRecipientEntry) (now : Z) : ToolRecipientEntry :=
  mkToolRecipientEntry (connIds e) (updatedAt e) (Some now).

(** [n] successive calls of [get(runId)], with their results. *)
Fixpoint reads (env : Env) (run : string) (n : nat)
    : M (list (option (gset string))) :=
  match n with
  | O => mret []
  | S k =>
      result ← ToolEventRecipientRegistry.get env run;
      results ← reads env run k;
      mret (result :: results)
  end.

(** A sequence of calls, in order. *)
Fixpoint calls (env : Env) (cs : list Call) : M unit :=
  match cs with
  | [] => mret tt
  | c :: rest => call env c;; calls env rest
  end.

(** The reads of [run] are frequent enough for a sequence of calls: the run
    is never marked final, a call for the run itself takes its two clock
    readings less than one TTL apart, and the sweep of a call for another
    run comes less than one TTL after the entry's last update. *)
Fixpoint keptFresh (env : Env) (run : string) (cs : list Call) (w : World) : Prop :=
  match cs with
  | [] => True
  | c :: rest =>
      c ≠ CallMarkFinal run
      ∧ (∀ e, toolEventRecipients w !! run = Some e →
           if decide (callRun c = run) then
             (clock env (S (ticks w))
                < clock env (ticks w) + TOOL_EVENT_RECIPIENT_TTL_MS)%Z
           else
             (clock env (S (ticks w))
                < updatedAt e + TOOL_EVENT_RECIPIENT_TTL_MS)%Z)
      ∧ keptFresh env run rest (exec (call env c) w)
  end.

(** The reading in the claim that a read at or after the cutoff finds
    nothing: an entry never marked final, a [get] whose clock reading is
    at or past last update plus TTL. *)
Definition get_expires_on_read : Prop :=
  ∀ (env : Env) (w : World) (run : string) (e : ToolRecipientEntry),
    toolEventRecipients w !! run = Some e →
    finalizedAt e = None →
    (updatedAt e + TOOL_EVENT_RECIPIENT_TTL_MS ≤ clock env (ticks w))%Z →
    eval (ToolEventRecipientRegistry.get env run) w = None.

End RecipientCalls.

(** ** Sample collaborators and states *)

Module Sample.

(** A clock that yields the given readings, then zero. *)
Definition clockOf (readings : list Z) : nat → Z :=
  λ n, default 0%Z (readings !! n).

(** No run context, no session entries, verbosity passed through. *)
Definition env (readings : list Z) (sessionOf : string → option string) : Env :=
  mkEnv (clockOf readings) sessionOf (λ _, None) (λ v, v) (λ _, None)
    (Some true) (λ _, "error").

(** The same, with every run a heartbeat whose broadcasts are not shown. *)
Definition heartbeatEnv (readings : list Z) (sessionOf : string → option string)
    : Env :=
  mkEnv (clockOf readings) sessionOf (λ _, Some (mkAgentRunContext true None))
    (λ v, v) (λ _, None) (Some false) (λ _, "error").

Definition noSession : string → option string := λ _, None.
Definition mainSession : string → option string := λ _, Some "main".

Definition emptyState : ChatRunState := mkChatRunState ∅ ∅ ∅ ∅.
Definition start : World := mkWorld 0 emptyState ∅ ∅ [].

End Sample.

(** ** Reading the calls made by the handler *)

Module Calls.

(** The event name of a delivery call. *)
Definition eventOf (e : Effect) : option string :=
  match e with
  | broadcast event _ _ | broadcastToConnIds event _ _
  | nodeSendToSession _ event _ => Some event
  | clearAgentRunContext _ => None
  end.

Definition payloadOf (e : Effect) : option Payload :=
  match e with
  | broadcast _ payload _ | broadcastToConnIds _ payload _
  | nodeSendToSession _ _ payload => Some payload
  | clearAgentRunContext _ => None
  end.

(** The calls a handler run added to the log. *)
Definition emitted (before after : World) : list Effect :=
  drop (length (out before)) (out after).

(** The deliveries on the chat event among some calls. *)
Definition chat (effects : list Effect) : list Effect :=
  filter (λ e, eventOf e = Some "chat") effects.

Definition isSeqGap (e : Effect) : Prop :=
  match payloadOf e with
  | Some (SeqGapPayload _ _ _ _ _) => True
  | _ => False
  end.

Global Instance isSeqGap_dec e : Decision (isSeqGap e).
Proof. unfold isSeqGap. destruct (payloadOf e) as [[]|]; apply _. Defined.

(** The seq-gap reports among some calls. *)
Definition seqGaps (effects : list Effect) : list Effect :=
  filter isSeqGap effects.

(** A computation that leaves the recorded sequence numbers alone and
    only appends to the log, and no seq-gap report. *)
Definition quiet {A : Type} (m : M A) : Prop :=
  ∀ w, agentRunSeq (m w).2 = agentRunSeq w
       ∧ ∃ l, out (m w).2 = out w ++ l ∧ seqGaps l = [].

End Calls.

(** ** Stages of one handler run *)

Module Stages.

Import AgentEventHandler.

(** The seq-gap report of an event, if it is out of sequence. *)
Definition gapReport (env : Env) (evt : AgentEventPayload) (w : World)
    : list Effect :=
  if bool_decide (seq evt ≠ lastSeq evt w + 1)%Z then
    [broadcast "agent"
       (SeqGapPayload (runId evt) (clock env (ticks w)) (sessionKeyOf env evt w)
          (lastSeq evt w + 1) (seq evt)) false]
  else [].

(** The world once the sequence number has been recorded. *)
Definition afterGap (env : Env) (evt : AgentEventPayload) (w : World) : World :=
  mkWorld (ticks w + length (gapReport env evt w)) (chatRunState w)
    (<[runId evt := seq evt]> (agentRunSeq w)) (toolEventRecipients w)
    (out w ++ gapReport env evt w).

(** The world in which the report has been made and the event is the
    next in sequence. *)
Definition inSequence (env : Env) (evt : AgentEventPayload) (w : World) : World :=
  mkWorld (ticks w + length (gapReport env evt w)) (chatRunState w)
    (<[runId evt := (seq evt - 1)%Z]> (agentRunSeq w)) (toolEventRecipients w)
    (out w ++ gapReport env evt w).

(** Tool events whose verbosity resolves to off are dropped. *)
Definition suppressed (env : Env) (evt : AgentEventPayload) (w : World) : bool :=
  isToolEvent evt && bool_decide (toolVerbose env evt w = "off").

(** Some queue of the registry holds an entry with this client run id. *)
Definition mentions (sessions : gmap string (list ChatRunEntry)) (id : string)
    : Prop :=
  ∃ sid queue e, sessions !! sid = Some queue ∧ e ∈ queue ∧ clientRunId e = id.

(** The only entry with this client run id, if any, heads the queue of
    [sid]. *)
Definition onlyAtHead (sessions : gmap string (list ChatRunEntry))
    (sid id : string) : Prop :=
  ∀ k queue i e,
    sessions !! k = Some queue → queue !! i = Some e → clientRunId e = id →
    k = sid ∧ i = 0%nat.

(** The reading in the claim that every out-of-sequence event is
    reported: one seq-gap broadcast among the calls of the run. *)
Definition every_gap_reported : Prop :=
  ∀ (env : Env) (evt : AgentEventPayload) (w : World),
    seq evt ≠ (lastSeq evt w + 1)%Z →
    Calls.seqGaps (Calls.emitted w (exec (createAgentEventHandler env evt) w))
      = [broadcast "agent"
           (SeqGapPayload (runId evt) (clock env (ticks w)) (sessionKeyOf env evt w)
              (lastSeq evt w + 1) (seq evt)) false].

(** The reading in the claim that once an aborted run has ended none of
    the four maps of the chat run state contains its client run id. *)
Definition aborted_run_leaves_no_trace : Prop :=
  ∀ (env : Env) (evt : AgentEventPayload) (w : World) (phase sk : string),
    stream evt = "lifecycle" →
    stringField evt "phase" = Some phase →
    phase = "end" ∨ phase = "error" →
    Js.truthy_opt (sessionKeyOf env evt w) = Some sk →
    isAborted evt w = true →
    let id := clientRunIdOf evt w in
    let state := chatRunState (exec (createAgentEventHandler env evt) w) in
    abortedRuns state !! id = None
    ∧ buffers state !! id = None
    ∧ deltaSentAt state !! id = None
    ∧ ¬ mentions (registry state) id.

(** The reading in the claim that the delta of an assistant text is on
    the general broadcast exactly when 150 ms have passed since the last
    recorded delta, and always when none is recorded. *)
Definition delta_broadcast_iff_elapsed : Prop :=
  ∀ (env : Env) (evt : AgentEventPayload) (w : World) (text sk : string),
    stream evt = "assistant" →
    stringField evt "text" = Some text →
    Js.truthy_opt (sessionKeyOf env evt w) = Some sk →
    isAborted evt w = false →
    let id := clientRunIdOf evt w in
    let now := clock env (ticks w + length (gapReport env evt w)) in
    let elapsed :=
      match deltaSentAt (chatRunState w) !! id with
      | Some last => (150 ≤ now - last)%Z
      | None => True
      end in
    (∃ stamp dropIfSlow,
       broadcast "chat" (ChatDelta id sk (seq evt) text stamp) dropIfSlow
         ∈ Calls.emitted w (exec (createAgentEventHandler env evt) w))
    ↔ elapsed.

End Stages.

(** ** Sample events *)

Module HandlerSamples.

Import AgentEventHandler Calls.

Definition assistant (sq : Z) (text : string) : AgentEventPayload :=
  mkAgentEvent "run-1" sq "assistant" (Some {[ "text" := Js.VStr text ]}).

Definition lifecycle (sq : Z) (phase : string) : AgentEventPayload :=
  mkAgentEvent "run-1" sq "lifecycle" (Some {[ "phase" := Js.VStr phase ]}).

Definition tool (sq : Z) : AgentEventPayload :=
  mkAgentEvent "run-1" sq "tool" (Some {[ "result" := Js.VStr "output" ]}).

(** A run that is correlated with the client run "client-1". *)
Definition linked (buffered : gmap string string) (aborted : gmap string Z)
    : World :=
  mkWorld 0
    (mkChatRunState {[ "run-1" := [mkChatRunEntry "main" "client-1"] ]}
       buffered ∅ aborted)
    ∅ ∅ [].

End HandlerSamples.

(** ** Sample channel dependencies *)

Module ChannelSamples.

Import ChannelMessageHandler.

(** One store file, session keys of the form [channel:sender], a file
    system on which every write succeeds, a dispatch pipeline that makes
    the given deliveries and resolves, and a reply callback. *)
Definition deps (made : list (string * option string)) : Deps :=
  mkDeps (λ n, 1000 + Z.of_nat n)%Z
    (λ n, match n with O => "11111111-aaaa" | S _ => "22222222-bbbb" end)
    (λ channel sender, channel +:+ ":" +:+ sender)
    (λ key, ("/store/sessions.json", [key]))
    (mkSessionDefaults None None None)
    (λ _, "/store") (λ dir file, dir +:+ "/" +:+ file)
    (λ _, true) (λ _, true) (λ _, true)
    1%Z "/home" (λ _, "msg-1000") (λ body, body)
    (λ _ _, mkDispatchOutcome made true) true.


Definition start : World := mkWorld 0 0 ∅ ∅ [].

Definition hi : ChannelMessage := mkChannelMessage None "wallet-abc" "hi".

End ChannelSamples.

(** ** The reply as the claims word it *)

Module Claimed.

Import ChannelMessageHandler.

(** The final reply fragments with non-empty text: the texts of the
    deliveries of kind final, trimmed, without the empty ones, in order. *)
Definition finalTexts (made : list (string * option string)) : list string :=
  omap (λ delivery : string * option string,
          if bool_decide (delivery.1 = "final") then
            match delivery.2 with
            | Some text =>
                if bool_decide (Js.trim text = "") then None
                else Some (Js.trim text)
            | None => None
            end
          else None) made.

(** The fragments joined by a blank line, that is by two line feeds. *)
Definition blankLineJoined (texts : list string) : string :=
  String.concat (String "010" (String "010" "")) texts.


End Claimed.

(** ** Spixi accounts *)

Module SpixiAccounts.

(** [SpixiAccountConfig]: every field is optional. *)
Record SpixiAccountConfig := mkSpixiAccountConfig {
  enabled : option bool;
  name : option string;
  quixiApiUrl : option string;
  mqttHost : option string;
  mqttPort : option Z;
  myWalletAddress : option string;
  dmPolicy : option string;
  allowFrom : option (list string);
  groupPolicy : option string;
}.

(** [SpixiConfig]: the channel-level settings and the per-account ones. *)
Record SpixiConfig := mkSpixiConfig {
  settings : SpixiAccountConfig;
  accounts : option (gmap string SpixiAccountConfig);
}.

(** The empty object [{}]. *)
Definition emptyConfig : SpixiAccountConfig :=
  mkSpixiAccountConfig None None None None None None None None None.

(** One key of [{ ...base, ...over }]. *)
Definition spreadKey {A : Type} (base over : option A) : option A :=
  match over with
  | Some value => Some value
  | None => base
  end.

(** [{ ...baseConfig, ...accountConfig }] on the keys of an account. *)
Definition spread (baseConfig accountConfig : SpixiAccountConfig)
    : SpixiAccountConfig :=
  mkSpixiAccountConfig
    (spreadKey (enabled baseConfig) (enabled accountConfig))
    (spreadKey (name baseConfig) (name accountConfig))
    (spreadKey (quixiApiUrl baseConfig) (quixiApiUrl accountConfig))
    (spreadKey (mqttHost baseConfig) (mqttHost accountConfig))
    (spreadKey (mqttPort baseConfig) (mqttPort accountConfig))
    (spreadKey (myWalletAddress baseConfig) (myWalletAddress accountConfig))
    (spreadKey (dmPolicy baseConfig) (dmPolicy accountConfig))
    (spreadKey (allowFrom baseConfig) (allowFrom accountConfig))
    (spreadKey (groupPolicy baseConfig) (groupPolicy accountConfig)).

(** [ResolvedSpixiAccount]; [config] keeps the [accounts] key that the
    spread copies from the channel-level object. *)
Record ResolvedSpixiAccount := mkResolvedSpixiAccount {
  accountId : string;
  resolvedEnabled : bool;
  resolvedName : option string;
  config : SpixiConfig;
}.

Section WithRouting.

(** [normalizeAccountId] of the routing module. *)
Context (normalizeAccountId : option string → string).

(** [cfg] is given by [cfg.channels?.spixi]. *)
Definition resolveSpixiAccount (cfg : option SpixiConfig)
    (requested : option string) : ResolvedSpixiAccount :=
  let accountId := normalizeAccountId requested in
  let accounts := default ∅ (cfg ≫= accounts) in
  let accountConfig := default emptyConfig (accounts !! accountId) in
  let baseConfig := default emptyConfig (settings <$> cfg) in
  let merged := spread baseConfig accountConfig in
  mkResolvedSpixiAccount accountId
    (negb (bool_decide (enabled merged = Some false)))
    (name merged)
    (mkSpixiConfig merged (cfg ≫= SpixiAccounts.accounts)).

End WithRouting.

End SpixiAccounts.

(** ** Well-formed registries and call sequences *)

Module Extras.

(** No session of the registry stores an empty queue. *)
Definition noEmptyQueue (sessions : gmap string (list ChatRunEntry)) : Prop :=
  ∀ sid, sessions !! sid ≠ Some [].

(** The handler run on a list of events, in order of arrival. *)
Fixpoint handleAll (env : Env) (evts : list AgentEventPayload) : M unit :=
  match evts with
  | [] => mret tt
  | evt :: rest =>
      AgentEventHandler.createAgentEventHandler env evt;; handleAll env rest
  end.

(** Events of one run whose sequence numbers count up from [last + 1]. *)
Fixpoint consecutive (run : string) (last : Z) (evts : list AgentEventPayload)
    : Prop :=
  match evts with
  | [] => True
  | evt :: rest =>
      runId evt = run ∧ seq evt = (last + 1)%Z ∧ consecutive run (seq evt) rest
  end.

(** The ways in which one event of run [run], with client run id [id],
    changes the chat run state: not at all, by buffering a text (throttled
    or delivered), or by closing the run (finalized or purged). *)
Definition chatStep (run id : string) (s s' : ChatRunState) : Prop :=
  s' = s
  ∨ (∃ text, s' = set_buffers <[id := text]> s)
  ∨ (∃ text now,
       s' = set_deltaSentAt <[id := now]> (set_buffers <[id := text]> s))
  ∨ (∃ aborted,
       (aborted = abortedRuns s
        ∨ aborted = delete run (delete id (abortedRuns s)))
       ∧ s' = mkChatRunState (ChatRunRegistry.shift run (registry s)).2
                (delete id (buffers s)) (delete id (deltaSentAt s)) aborted).

(** Every chat payload on the general broadcast is also sent to a session. *)
Definition mirrored (effects : list Effect) : Prop :=
  ∀ payload dropIfSlow,
    broadcast "chat" payload dropIfSlow ∈ effects →
    ∃ sk, nodeSendToSession sk "chat" payload ∈ effects.

(** Every chat payload sent to a session is also on the general broadcast. *)
Definition covered (effects : list Effect) : Prop :=
  ∀ sk payload,
    nodeSendToSession sk "chat" payload ∈ effects →
    ∃ dropIfSlow, broadcast "chat" payload dropIfSlow ∈ effects.

(** A computation that only appends mirrored calls to the log. *)
Definition orderly {A : Type} (m : M A) : Prop :=
  ∀ w, ∃ l, out (m w).2 = out w ++ l ∧ mirrored l.

(** An environment in which every run has the given verbosity of its own. *)
Definition verboseEnv (readings : list Z) (sessionOf : string → option string)
    (level : string) : Env :=
  mkEnv (Sample.clockOf readings) sessionOf
    (λ _, Some (mkAgentRunContext false (Some level)))
    (λ v, v) (λ _, None) (Some true) (λ _, "error").

(** A session entry as an earlier conversation leaves it. *)
Definition knownEntry (session : string) (policy file : option string)
    : ChannelMessageHandler.SessionEntry :=
  ChannelMessageHandler.mkSessionEntry session 500 true false 10 20 30
    (Some "Channel wallet-abc") (Some "user") (Some "telegram") (Some "someone")
    policy (Some 4096%Z) (Some "model-a") (Some "provider-a") file.

(** The world in which the sample store holds [entry] for the sample sender. *)
Definition knownSession (entry : ChannelMessageHandler.SessionEntry)
    (transcripts : gmap string (list ChannelMessageHandler.TranscriptLine))
    : ChannelMessageHandler.World :=
  ChannelMessageHandler.mkWorld 0 0
    {[ "/store/sessions.json" := {[ "spixi:wallet-abc" := entry ]} ]}
    transcripts [].

End Extras.

(** * Verification *)

(** ** Chat-run registry *)

Section ChatRunRegistryFacts.

Import ChatRunRegistry RegistryTrace.

Implicit Types (m : gmap string (list ChatRunEntry)) (q : list ChatRunEntry).

Lemma holds_store sid q m : holds sid q (store sid q m).
Proof.
  unfold holds, store. destruct q; [apply lookup_delete_eq | apply lookup_insert_eq].
Qed.

Lemma store_other sid sid' q m : sid ≠ sid' → store sid q m !! sid' = m !! sid'.
Proof.
  intros Hne. unfold store.
  destruct q; [by rewrite lookup_delete_ne | by rewrite lookup_insert_ne].
Qed.

Lemma holds_add sid q e m : holds sid q m → holds sid (q ++ [e]) (add sid e m).
Proof.
  unfold holds, add. intros ->. destruct q as [|x q]; cbn.
  - apply lookup_insert_eq.
  - rewrite lookup_insert_eq. done.
Qed.

Lemma add_other sid sid' e m : sid ≠ sid' → add sid e m !! sid' = m !! sid'.
Proof.
  intros Hne. unfold add. destruct (m !! sid); by rewrite lookup_insert_ne.
Qed.

Lemma shift_holds sid q m :
  holds sid q m → shift sid m = (head q, store sid (tail q) m).
Proof.
  unfold holds, shift. intros Hq. rewrite Hq. destruct q as [|x q]; cbn; [|done].
  f_equal. apply map_eq. intros k. destruct (decide (sid = k)) as [<-|Hne].
  - by rewrite lookup_delete_eq.
  - by rewrite lookup_delete_ne.
Qed.

Lemma peek_holds sid q m : holds sid q m → peek sid m = head q.
Proof. unfold holds, peek. intros ->. by destruct q. Qed.

(** The invariant of a history: what was queued or added is what was
    shifted followed by what is still pending. *)
Lemma run_holds sid ops : ∀ q m,
  holds sid q m →
  ∃ pending,
    q ++ added ops = shifted (run sid ops m).1 ++ pending
    ∧ holds sid pending (run sid ops m).2
    ∧ ∀ sid', sid ≠ sid' → (run sid ops m).2 !! sid' = m !! sid'.
Proof.
  induction ops as [|[e|] ops IH]; intros q m Hq; cbn.
  - exists q. by rewrite app_nil_r.
  - destruct (IH _ _ (holds_add sid q e m Hq)) as (p & Heq & Hp & Hfr).
    exists p. rewrite <- Heq, <- app_assoc. split_and!; [done..|].
    intros k Hk. rewrite Hfr by done. by apply add_other.
  - rewrite (shift_holds _ _ _ Hq).
    destruct (IH _ _ (holds_store sid (tail q) m)) as (p & Heq & Hp & Hfr).
    destruct (run sid ops (store sid (tail q) m)) as [rs m'] eqn:Hrun.
    cbn in *. exists p. split_and!; [|done|].
    + destruct q as [|x q]; cbn in *; [done|].
      change (x :: q ++ added ops = x :: (shifted rs ++ p)). by f_equal.
    + intros k Hk. rewrite Hfr by done. by apply store_other.
Qed.

(** C8. On one session of the chat-run registry, starting without a
    queue for it, every history of [add] and [shift] hands the entries
    back in the order they were added: the shifted entries are an
    initial segment of the added ones and the rest is the stored queue.
    A further [shift] returns the oldest pending entry and nothing when
    none is pending; the queue is deleted from the map as soon as it is
    empty, so [peek] then returns nothing.  Other sessions are not
    touched. *)
Theorem chat_run_registry_fifo sid ops m :
  m !! sid = None →
  ∃ pending,
    added ops = shifted (run sid ops m).1 ++ pending
    ∧ (run sid ops m).2 !! sid
        = match pending with [] => None | _ :: _ => Some pending end
    ∧ peek sid (run sid ops m).2 = head pending
    ∧ (shift sid (run sid ops m).2).1 = head pending
    ∧ (pending = [] →
         (run sid ops m).2 !! sid = None
         ∧ peek sid (run sid ops m).2 = None
         ∧ shift sid (run sid ops m).2 = (None, (run sid ops m).2))
    ∧ ∀ sid', sid ≠ sid' → (run sid ops m).2 !! sid' = m !! sid'.
Proof.
  intros Hnone.
  destruct (run_holds sid ops [] m Hnone) as (p & Heq & Hp & Hfr).
  exists p. cbn in Heq. split_and!; try done.
  - by apply peek_holds.
  - by rewrite (shift_holds _ _ _ Hp).
  - intros ->. split_and!; [done | by rewrite (peek_holds _ _ _ Hp) |].
    unfold shift. by rewrite Hp.
Qed.

Lemma matches_wanted id sk e : matches id sk e = true ↔ wanted id sk e.
Proof.
  destruct e as [k c]. unfold matches, wanted, Js.truthy_opt, Js.truthy. cbn.
  rewrite andb_true_iff, bool_decide_eq_true.
  destruct sk as [s|]; [case_bool_decide as Hs; cbn|].
  - subst s. split; [intros [-> _]; split; [done|] | intros [-> _]; done].
    by intros s [= <-].
  - rewrite bool_decide_eq_true. split.
    + intros [-> ->]. split; [done|]. by intros ? [= <-].
    + intros [-> Hk]. split; [done|]. by apply Hk.
  - split; [intros [-> _]; split; [done|]; by intros ? [=] | by intros [-> _]].
Qed.

Lemma matches_not_wanted id sk e : matches id sk e = false ↔ ¬ wanted id sk e.
Proof. rewrite <- matches_wanted. by destruct (matches id sk e). Qed.

Lemma findIndex_Some {A} (p : A → bool) l i :
  Js.findIndex p l = Some i →
  ∃ before x after,
    l = before ++ x :: after ∧ length before = i
    ∧ p x = true ∧ Forall (λ y, p y = false) before.
Proof.
  revert i. induction l as [|y l IH]; intros i; cbn; [done|].
  destruct (p y) eqn:Hy.
  - intros [= <-]. by exists [], y, l.
  - destruct (Js.findIndex p l) as [j|]; cbn; [|done].
    intros [= <-]. destruct (IH j eq_refl) as (b & x & a & -> & <- & Hx & Hb).
    exists (y :: b), x, a. split_and!; try done. by constructor.
Qed.

Lemma findIndex_None {A} (p : A → bool) l :
  Js.findIndex p l = None → Forall (λ y, p y = false) l.
Proof.
  induction l as [|y l IH]; cbn; [by constructor|].
  destruct (p y) eqn:Hy; [done|].
  destruct (Js.findIndex p l); cbn; [done|]. intros _. constructor; auto.
Qed.

Lemma splice1_middle {A} (before after : list A) x :
  Js.splice1 (length before) (before ++ x :: after) = before ++ after.
Proof.
  unfold Js.splice1. induction before as [|y before IH]; cbn; [by rewrite drop_0|].
  by f_equal.
Qed.

(** C9. [remove(sessionId, clientRunId, sessionKey?)] takes out the first
    entry of the session's queue whose client run id matches, and whose
    session key matches when one is given, wherever it stands: the
    entries before it do not match, it is returned, and the queue keeps
    the entries before and after it in their order; the queue is deleted
    from the map when nothing is left.  When no entry matches (or the
    session has no queue) nothing is returned and nothing changes. *)
Theorem chat_run_registry_remove sid id sk m :
  let queue := default [] (m !! sid) in
  (∃ before e after,
      queue = before ++ e :: after
      ∧ Forall (λ x, ¬ wanted id sk x) before
      ∧ wanted id sk e
      ∧ remove sid id sk m =
          (Some e,
           match before ++ after with
           | [] => delete sid m
           | rest => <[sid := rest]> m
           end))
  ∨ (Forall (λ x, ¬ wanted id sk x) queue ∧ remove sid id sk m = (None, m)).
Proof.
  unfold remove. destruct (m !! sid) as [[|x q]|] eqn:Hm; cbn -[Js.findIndex].
  1,3: right; split; [constructor | done].
  destruct (Js.findIndex (matches id sk) (x :: q)) as [i|] eqn:Hfind.
  - left. destruct (findIndex_Some _ _ _ Hfind) as (b & e & a & Hq & <- & He & Hb).
    exists b, e, a. rewrite Hq. split_and!; [done| | |].
    + eapply Forall_impl; [exact Hb|]. intros y. by rewrite matches_not_wanted.
    + by apply matches_wanted.
    + rewrite splice1_middle. rewrite list_lookup_middle by done.
      unfold store. by destruct (b ++ a).
  - right. split; [|done]. apply findIndex_None in Hfind.
    eapply Forall_impl; [exact Hfind|]. intros y. by rewrite matches_not_wanted.
Qed.

End ChatRunRegistryFacts.

(** A history on the empty registry: two adds, then three shifts. *)
Lemma chat_run_registry_fifo_example :
  let a := mkChatRunEntry "main" "run-a" in
  let b := mkChatRunEntry "main" "run-b" in
  let ops := [RegistryTrace.Add a; RegistryTrace.Add b; RegistryTrace.Shift;
              RegistryTrace.Shift; RegistryTrace.Shift] in
  let m : gmap string (list ChatRunEntry) := ∅ in
  let m' := (RegistryTrace.run "s1" ops m).2 in
  m !! "s1" = None
  ∧ ∃ pending,
      RegistryTrace.added ops
        = RegistryTrace.shifted (RegistryTrace.run "s1" ops m).1 ++ pending
      ∧ m' !! "s1" = match pending with [] => None | _ :: _ => Some pending end
      ∧ ChatRunRegistry.peek "s1" m' = head pending
      ∧ (ChatRunRegistry.shift "s1" m').1 = head pending
      ∧ (pending = [] →
           m' !! "s1" = None
           ∧ ChatRunRegistry.peek "s1" m' = None
           ∧ ChatRunRegistry.shift "s1" m' = (None, m'))
      ∧ ∀ sid', "s1" ≠ sid' → m' !! sid' = m !! sid'.
Proof.
  intros a b ops m m'. split; [reflexivity|].
  apply (chat_run_registry_fifo "s1" ops m). reflexivity.
Defined.

Example chat_run_registry_fifo_run :
  RegistryTrace.run "s1"
    [RegistryTrace.Add (mkChatRunEntry "main" "run-a");
     RegistryTrace.Add (mkChatRunEntry "main" "run-b");
     RegistryTrace.Shift; RegistryTrace.Shift; RegistryTrace.Shift] ∅
  = ([Some (mkChatRunEntry "main" "run-a"); Some (mkChatRunEntry "main" "run-b"); None], ∅).
Proof. vm_compute. reflexivity. Qed.

Example chat_run_registry_remove_middle :
  ChatRunRegistry.remove "s1" "run-b" None
    {[ "s1" := [mkChatRunEntry "main" "run-a"; mkChatRunEntry "main" "run-b";
                mkChatRunEntry "main" "run-c"] ]}
  = (Some (mkChatRunEntry "main" "run-b"),
     {[ "s1" := [mkChatRunEntry "main" "run-a"; mkChatRunEntry "main" "run-c"] ]}).
Proof. vm_compute. reflexivity. Qed.

(** ** Tool-event recipient registry *)

Section ToolEventRecipientFacts.

Import ToolEventRecipientRegistry RecipientCalls.

Context (env : Env).

Implicit Types (w : World) (e : ToolRecipientEntry)
  (m : gmap string ToolRecipientEntry).

Lemma sweep_lookup now m k :
  sweep now m !! k =
    match m !! k with
    | Some e => if decide (cutoff e ≤ now)%Z then None else Some e
    | None => None
    end.
Proof.
  unfold sweep. destruct (m !! k) as [e|] eqn:Hk.
  - destruct (decide (cutoff e ≤ now)%Z) as [Hc|Hc].
    + apply map_lookup_filter_None. right. intros e' He'. cbn.
      assert (e' = e) as -> by congruence. by intros [].
    + apply map_lookup_filter_Some. by split.
  - apply map_lookup_filter_None. by left.
Qed.

Lemma size_insert_nonzero m k e : size (<[k := e]> m) ≠ 0%nat.
Proof.
  intros Hs. apply map_size_empty_iff in Hs.
  by apply (insert_non_empty m k e).
Qed.

(** [prune] after an update of the map that leaves it non-empty. *)
Lemma prune_nonempty w :
  size (toolEventRecipients w) ≠ 0%nat →
  prune env w =
    (tt, set_toolEventRecipients (sweep (clock env (ticks w))) (set_ticks S w)).
Proof.
  intros Hs. unfold prune, mbind, State_bind, gets. cbn.
  by rewrite bool_decide_eq_false_2.
Qed.

Lemma get_present w run e :
  toolEventRecipients w !! run = Some e →
  get env run w =
    (Some (connIds e),
     mkWorld (S (S (ticks w))) (chatRunState w) (agentRunSeq w)
       (sweep (clock env (S (ticks w)))
          (<[run := refreshed e (clock env (ticks w))]> (toolEventRecipients w)))
       (out w)).
Proof.
  intros He. unfold get, mbind, State_bind, gets. cbn. rewrite He. cbn.
  rewrite prune_nonempty by apply size_insert_nonzero. done.
Qed.

Lemma get_absent w run :
  toolEventRecipients w !! run = None → get env run w = (None, w).
Proof. intros He. unfold get, mbind, State_bind, gets. cbn. by rewrite He. Qed.

Lemma add_effective w run conn :
  Js.truthy run = true → Js.truthy conn = true →
  add env run conn w =
    (tt,
     mkWorld (S (S (ticks w))) (chatRunState w) (agentRunSeq w)
       (sweep (clock env (S (ticks w)))
          (<[run := match toolEventRecipients w !! run with
                    | Some e => joined e conn (clock env (ticks w))
                    | None => mkToolRecipientEntry {[conn]} (clock env (ticks w)) None
                    end]> (toolEventRecipients w)))
       (out w)).
Proof.
  intros Hr Hc. unfold add, mbind, State_bind, gets. rewrite Hr, Hc. cbn.
  destruct (toolEventRecipients w !! run) as [e|]; cbn;
    by rewrite prune_nonempty by apply size_insert_nonzero.
Qed.

Lemma add_ignored w run conn :
  Js.truthy run && Js.truthy conn = false → add env run conn w = (tt, w).
Proof.
  intros H. unfold add.
  by destruct (Js.truthy run), (Js.truthy conn).
Qed.

Lemma markFinal_present w run e :
  toolEventRecipients w !! run = Some e →
  markFinal env run w =
    (tt,
     mkWorld (S (S (ticks w))) (chatRunState w) (agentRunSeq w)
       (sweep (clock env (S (ticks w)))
          (<[run := finalized e (clock env (ticks w))]> (toolEventRecipients w)))
       (out w)).
Proof.
  intros He. unfold markFinal, mbind, State_bind, gets. cbn. rewrite He. cbn.
  by rewrite prune_nonempty by apply size_insert_nonzero.
Qed.

Lemma markFinal_absent w run :
  toolEventRecipients w !! run = None → markFinal env run w = (tt, w).
Proof. intros He. unfold markFinal, mbind, State_bind, gets. cbn. by rewrite He. Qed.

(** A call made for another run leaves the entry alone unless its sweep
    runs at or after the entry's cutoff. *)
Lemma call_other_run w c run e :
  callRun c ≠ run →
  toolEventRecipients w !! run = Some e →
  toolEventRecipients (exec (call env c) w) !! run =
    if performsSweep c w
    then if decide (cutoff e ≤ clock env (S (ticks w)))%Z then None else Some e
    else Some e.
Proof.
  intros Hne He. unfold exec. destruct c as [r conn|r|r]; cbn in *.
  - destruct (Js.truthy r && Js.truthy conn) eqn:Ht.
    + apply andb_prop in Ht as [Hr Hc]. rewrite add_effective by done. cbn.
      rewrite sweep_lookup, lookup_insert_ne by done. by rewrite He.
    + by rewrite add_ignored.
  - unfold mbind, State_bind. destruct (toolEventRecipients w !! r) as [x|] eqn:Hr.
    + rewrite (get_present _ _ _ Hr). cbn.
      rewrite sweep_lookup, lookup_insert_ne by done. by rewrite He.
    + rewrite (get_absent _ _ Hr). cbn.
      done.
  - destruct (toolEventRecipients w !! r) as [x|] eqn:Hr.
    + rewrite (markFinal_present _ _ _ Hr). cbn.
      rewrite sweep_lookup, lookup_insert_ne by done. by rewrite He.
    + rewrite (markFinal_absent _ _ Hr). cbn.
      done.
Qed.

(** A call made for the entry's own run, with the two clock readings of
    the call less than the grace period apart, never deletes an entry
    that has not been marked final. *)
Lemma call_own_run w c e :
  toolEventRecipients w !! callRun c = Some e →
  finalizedAt e = None →
  clock env (ticks w) ≠ 0%Z →
  (clock env (S (ticks w))
     < clock env (ticks w) + TOOL_EVENT_RECIPIENT_FINAL_GRACE_MS)%Z →
  is_Some (toolEventRecipients (exec (call env c) w) !! callRun c).
Proof.
  intros He Hfin Hnz Hclk. unfold exec.
  assert (TOOL_EVENT_RECIPIENT_FINAL_GRACE_MS < TOOL_EVENT_RECIPIENT_TTL_MS)%Z
    as Hlt by done.
  destruct c as [r conn|r|r]; cbn in *.
  - destruct (Js.truthy r && Js.truthy conn) eqn:Ht.
    + apply andb_prop in Ht as [Hr Hc]. rewrite add_effective by done. cbn.
      rewrite sweep_lookup, lookup_insert_eq, He.
      unfold cutoff, joined. cbn. rewrite Hfin.
      rewrite decide_False by lia. eauto.
    + rewrite add_ignored by done. cbn. eauto.
  - unfold mbind, State_bind. rewrite (get_present _ _ _ He). cbn.
    rewrite sweep_lookup, lookup_insert_eq.
    unfold cutoff, refreshed. cbn. rewrite Hfin.
    rewrite decide_False by lia. eauto.
  - rewrite (markFinal_present _ _ _ He). cbn.
    rewrite sweep_lookup, lookup_insert_eq.
    unfold cutoff, finalized. cbn. rewrite bool_decide_eq_false_2 by done.
    rewrite decide_False by lia. eauto.
Qed.

Lemma reads_alive n : ∀ w run e,
  toolEventRecipients w !! run = Some e →
  finalizedAt e = None →
  (∀ k, (k < n)%nat →
     (clock env (S (ticks w + 2 * k))
        < clock env (ticks w + 2 * k) + TOOL_EVENT_RECIPIENT_TTL_MS)%Z) →
  eval (reads env run n) w = replicate n (Some (connIds e))
  ∧ ∃ e', toolEventRecipients (exec (reads env run n) w) !! run = Some e'
          ∧ connIds e' = connIds e ∧ finalizedAt e' = None.
Proof.
  induction n as [|n IH]; intros w run e He Hfin Hclk.
  - split; [done|]. exists e. by cbn.
  - unfold eval, exec. cbn [reads]. unfold mbind, State_bind.
    rewrite (get_present _ _ _ He).
    set (w1 := mkWorld _ _ _ _ _).
    assert (toolEventRecipients w1 !! run = Some (refreshed e (clock env (ticks w))))
      as He1.
    { cbn. rewrite sweep_lookup, lookup_insert_eq. unfold cutoff. cbn.
      rewrite Hfin. rewrite decide_False; [done|].
      specialize (Hclk 0%nat ltac:(lia)).
      replace (ticks w + 2 * 0)%nat with (ticks w) in Hclk by lia. lia. }
    destruct (IH w1 run _ He1 Hfin) as (Hres & e' & He' & Hc & Hf).
    { intros k Hk. specialize (Hclk (S k) ltac:(lia)). cbn [ticks w1].
      replace (ticks w + 2 * S k)%nat with (S (S (ticks w)) + 2 * k)%nat
        in Hclk by lia. done. }
    unfold eval, exec in Hres, He'.
    destruct (reads env run n w1) as [rs w2]. cbn in *. subst rs.
    split; [done|]. by exists e'.
Qed.

(** One call of a schedule that keeps the reads frequent enough. *)
Lemma call_keeps_fresh w c run e :
  toolEventRecipients w !! run = Some e →
  finalizedAt e = None →
  c ≠ CallMarkFinal run →
  (if decide (callRun c = run) then
     (clock env (S (ticks w)) < clock env (ticks w) + TOOL_EVENT_RECIPIENT_TTL_MS)%Z
   else
     (clock env (S (ticks w)) < updatedAt e + TOOL_EVENT_RECIPIENT_TTL_MS)%Z) →
  ∃ e', toolEventRecipients (exec (call env c) w) !! run = Some e'
        ∧ finalizedAt e' = None.
Proof.
  intros He Hfin Hnf Hclk. destruct (decide (callRun c = run)) as [<-|Hne].
  - unfold exec. destruct c as [r conn|r|r]; cbn in *.
    + destruct (Js.truthy r && Js.truthy conn) eqn:Ht.
      * apply andb_prop in Ht as [Hr Hc]. rewrite add_effective by done. cbn.
        rewrite sweep_lookup, lookup_insert_eq, He.
        unfold cutoff, joined. cbn. rewrite Hfin.
        rewrite decide_False by lia. eauto.
      * rewrite add_ignored by done. cbn. eauto.
    + unfold mbind, State_bind. rewrite (get_present _ _ _ He). cbn.
      rewrite sweep_lookup, lookup_insert_eq.
      unfold cutoff, refreshed. cbn. rewrite Hfin.
      rewrite decide_False by lia. eauto.
    + done.
  - rewrite (call_other_run w c run e Hne He). exists e. split; [|done].
    destruct (performsSweep c w); [|done].
    rewrite decide_False; [done|]. unfold cutoff. rewrite Hfin. lia.
Qed.

Lemma calls_keep_fresh cs : ∀ w run e,
  toolEventRecipients w !! run = Some e →
  finalizedAt e = None →
  keptFresh env run cs w →
  ∃ e', toolEventRecipients (exec (calls env cs) w) !! run = Some e'
        ∧ finalizedAt e' = None.
Proof.
  induction cs as [|c cs IH]; intros w run e He Hfin Hfresh.
  - exists e. by cbn.
  - destruct Hfresh as (Hnf & Hclk & Hrest).
    destruct (call_keeps_fresh w c run e He Hfin Hnf (Hclk e He))
      as (e1 & He1 & Hfin1).
    destruct (IH _ run e1 He1 Hfin1 Hrest) as (e' & He' & Hfin').
    exists e'. split; [|done]. revert He'. unfold exec. cbn [calls].
    unfold mbind, State_bind. by destruct (call env c w) as [[] w1].
Qed.

(** C10. A [get(runId)] that finds an entry in the map returns that
    entry's connection-id set whatever its cutoff, since the set is taken
    before the sweep; the entry's [updatedAt] is set to the time of the
    call before the sweep runs, so an entry never marked final survives
    its own [get], any number of successive reads all return the set and
    keep it, it survives every sequence of calls in which the reads are
    frequent enough, and a call after which such an entry is gone was made
    for another run.  The two clock readings of one call are taken to be
    less than the grace period apart, and the clock not to read zero. *)
Theorem recipients_get_refreshes_before_sweep w run e :
  toolEventRecipients w !! run = Some e →
  let now := clock env (ticks w) in
  let later := clock env (S (ticks w)) in
  eval (get env run) w = Some (connIds e)
  ∧ toolEventRecipients (exec (get env run) w)
      = sweep later (<[run := refreshed e now]> (toolEventRecipients w))
  ∧ (finalizedAt e = None →
     (later < now + TOOL_EVENT_RECIPIENT_TTL_MS)%Z →
     toolEventRecipients (exec (get env run) w) !! run = Some (refreshed e now))
  ∧ (∀ n, finalizedAt e = None →
       (∀ k, (k < n)%nat →
          (clock env (S (ticks w + 2 * k))
             < clock env (ticks w + 2 * k) + TOOL_EVENT_RECIPIENT_TTL_MS)%Z) →
       eval (reads env run n) w = replicate n (Some (connIds e))
       ∧ is_Some (toolEventRecipients (exec (reads env run n) w) !! run))
  ∧ (∀ cs, finalizedAt e = None → keptFresh env run cs w →
       is_Some (toolEventRecipients (exec (calls env cs) w) !! run))
  ∧ (∀ c, finalizedAt e = None →
       now ≠ 0%Z →
       (later < now + TOOL_EVENT_RECIPIENT_FINAL_GRACE_MS)%Z →
       toolEventRecipients (exec (call env c) w) !! run = None →
       callRun c ≠ run).
Proof.
  intros He now later. unfold eval, exec.
  rewrite (get_present _ _ _ He). cbn. split_and!; [done|done| | | |].
  - intros Hfin Hclk. rewrite sweep_lookup, lookup_insert_eq.
    unfold cutoff. cbn. rewrite Hfin. by rewrite decide_False by (subst now later; lia).
  - intros n Hfin Hclk.
    destruct (reads_alive n w run e He Hfin Hclk) as (Hres & e' & He' & _).
    split; [done | by exists e'].
  - intros cs Hfin Hfresh.
    destruct (calls_keep_fresh cs w run e He Hfin Hfresh) as (e' & He' & _).
    by exists e'.
  - intros c Hfin Hnz Hclk Hgone Hc. subst run.
    destruct (call_own_run w c e He Hfin Hnz Hclk) as [x Hx].
    unfold exec in Hx. congruence.
Qed.

Lemma call_final_run w c run e f :
  toolEventRecipients w !! run = Some e →
  finalizedAt e = Some f →
  f ≠ 0%Z →
  c ≠ CallMarkFinal run →
  performsSweep c w = true →
  (f + TOOL_EVENT_RECIPIENT_FINAL_GRACE_MS ≤ clock env (S (ticks w)))%Z →
  toolEventRecipients (exec (call env c) w) !! run = None.
Proof.
  intros He Hfin Hnz Hc Hsw Hclk.
  assert (∀ e1, finalizedAt e1 = Some f →
            (if decide (cutoff e1 ≤ clock env (S (ticks w)))%Z
             then None else Some e1) = None) as Hcut.
  { intros e1 Hf1. rewrite decide_True; [done|]. unfold cutoff. rewrite Hf1.
    by rewrite bool_decide_eq_false_2. }
  destruct (decide (callRun c = run)) as [<-|Hne].
  - unfold exec. destruct c as [r conn|r|r]; cbn in *; [| |done].
    + apply andb_prop in Hsw as [Hr Hcn]. rewrite add_effective by done. cbn.
      rewrite sweep_lookup, lookup_insert_eq, He. by apply Hcut.
    + unfold mbind, State_bind. rewrite (get_present _ _ _ He). cbn.
      rewrite sweep_lookup, lookup_insert_eq. by apply Hcut.
  - rewrite (call_other_run w c run e Hne He), Hsw. by apply Hcut.
Qed.

(** C6, as amended. For an entry never marked final, [get(runId)] returns
    its connection-id set, in particular when called less than the TTL
    after the last update, and then keeps the entry with a refreshed
    [updatedAt]; a call made for another run leaves the entry in place
    when its sweep runs before last update plus TTL and deletes it when
    the sweep runs at or after that time, and [get(runId)] then returns
    nothing.  [markFinal(runId)] stamps the entry, and once an entry is
    stamped, the sweep of any call other than a further [markFinal(runId)],
    an [add] or [get] of the run itself included, deletes it when it runs
    at or after the stamp plus the grace period, whatever its last update,
    and [get(runId)] then returns nothing. *)
Theorem recipients_expire_by_sweep w run e :
  toolEventRecipients w !! run = Some e →
  let now := clock env (ticks w) in
  let later := clock env (S (ticks w)) in
  (finalizedAt e = None →
     eval (get env run) w = Some (connIds e)
     ∧ ((now < updatedAt e + TOOL_EVENT_RECIPIENT_TTL_MS)%Z →
        (later < now + TOOL_EVENT_RECIPIENT_TTL_MS)%Z →
        toolEventRecipients (exec (get env run) w) !! run
          = Some (refreshed e now)))
  ∧ (∀ c, callRun c ≠ run → finalizedAt e = None →
       (later < updatedAt e + TOOL_EVENT_RECIPIENT_TTL_MS)%Z →
       toolEventRecipients (exec (call env c) w) !! run = Some e)
  ∧ (∀ c, callRun c ≠ run → performsSweep c w = true →
       finalizedAt e = None →
       (updatedAt e + TOOL_EVENT_RECIPIENT_TTL_MS ≤ later)%Z →
       toolEventRecipients (exec (call env c) w) !! run = None
       ∧ get env run (exec (call env c) w) = (None, exec (call env c) w))
  ∧ (now ≠ 0%Z →
     (later < now + TOOL_EVENT_RECIPIENT_FINAL_GRACE_MS)%Z →
     toolEventRecipients (exec (markFinal env run) w) !! run
       = Some (finalized e now))
  ∧ (∀ c f, c ≠ CallMarkFinal run → performsSweep c w = true →
       finalizedAt e = Some f → f ≠ 0%Z →
       (f + TOOL_EVENT_RECIPIENT_FINAL_GRACE_MS ≤ later)%Z →
       toolEventRecipients (exec (call env c) w) !! run = None
       ∧ get env run (exec (call env c) w) = (None, exec (call env c) w)).
Proof.
  intros He now later. split_and!.
  - intros Hfin. unfold eval, exec. rewrite (get_present _ _ _ He). cbn.
    split; [done|]. intros _ Hclk. rewrite sweep_lookup, lookup_insert_eq.
    unfold cutoff. cbn. rewrite Hfin.
    by rewrite decide_False by (subst now later; lia).
  - intros c Hc Hfin Hclk. rewrite (call_other_run w c run e Hc He).
    destruct (performsSweep c w); [|done].
    rewrite decide_False; [done|]. unfold cutoff. rewrite Hfin. subst later. lia.
  - intros c Hc Hsw Hfin Hclk.
    assert (toolEventRecipients (exec (call env c) w) !! run = None) as Hgone.
    { rewrite (call_other_run w c run e Hc He), Hsw.
      rewrite decide_True; [done|]. unfold cutoff. by rewrite Hfin. }
    split; [done | by apply get_absent].
  - intros Hnz Hclk. unfold exec. rewrite (markFinal_present _ _ _ He). cbn.
    rewrite sweep_lookup, lookup_insert_eq. unfold cutoff. cbn.
    rewrite bool_decide_eq_false_2 by done.
    by rewrite decide_False by (subst now later; lia).
  - intros c f Hc Hsw Hfin Hnz Hclk.
    pose proof (call_final_run w c run e f He Hfin Hnz Hc Hsw Hclk) as Hgone.
    split; [done | by apply get_absent].
Qed.

End ToolEventRecipientFacts.

(** A connection registered at time 1000 and read again exactly one TTL
    later: the read refreshes the entry and returns its set. *)
Example recipients_read_at_cutoff :
  let env := Sample.env [1000; 1000; 601000; 601000]%Z Sample.noSession in
  let w := exec (ToolEventRecipientRegistry.add env "run-1" "conn-1") Sample.start in
  toolEventRecipients w = {[ "run-1" := mkToolRecipientEntry {["conn-1"]} 1000 None ]}
  ∧ clock env (ticks w) = (1000 + TOOL_EVENT_RECIPIENT_TTL_MS)%Z
  ∧ ToolEventRecipientRegistry.get env "run-1" w
    = (Some {["conn-1"]},
       mkWorld 4 Sample.emptyState ∅
         {[ "run-1" := mkToolRecipientEntry {["conn-1"]} 601000 None ]} []).
Proof. vm_compute. done. Qed.

(** C6 as stated fails: the entry was never marked final and the read comes
    one full TTL after its last update, yet [get] returns the set. *)
Lemma recipients_get_after_ttl_counterexample :
  ¬ RecipientCalls.get_expires_on_read.
Proof.
  intros claim.
  pose (env := Sample.env [1000; 1000; 601000; 601000]%Z Sample.noSession).
  pose (w := exec (ToolEventRecipientRegistry.add env "run-1" "conn-1") Sample.start).
  specialize (claim env w "run-1" (mkToolRecipientEntry {["conn-1"]} 1000 None)
                eq_refl eq_refl).
  assert (eval (ToolEventRecipientRegistry.get env "run-1") w = Some {["conn-1"]})
    as Hget by (vm_compute; done).
  rewrite claim in Hget; [discriminate|]. vm_compute. discriminate.
Qed.

(** The amended statement at work: the sweep of an [add] for another run,
    one TTL after the last update, deletes an entry never marked final, and
    the next read finds nothing; an [add] for the run itself, 38 s after
    the stamp and long before the TTL, deletes a stamped entry. *)
Lemma recipients_expire_by_sweep_example :
  let env := Sample.env [1000; 1000; 601000; 601000]%Z Sample.noSession in
  let w := exec (ToolEventRecipientRegistry.add env "run-1" "conn-1") Sample.start in
  let e := mkToolRecipientEntry {["conn-1"]} 1000 None in
  let c := RecipientCalls.CallAdd "run-2" "conn-2" in
  let env' := Sample.env [40000; 40000]%Z Sample.noSession in
  let stamped := mkToolRecipientEntry {["conn-1"]} 1000 (Some 2000%Z) in
  let w' := mkWorld 0 Sample.emptyState ∅ {[ "run-1" := stamped ]} [] in
  let own := RecipientCalls.CallAdd "run-1" "conn-2" in
  toolEventRecipients w !! "run-1" = Some e
  ∧ toolEventRecipients (exec (RecipientCalls.call env c) w) !! "run-1" = None
  ∧ ToolEventRecipientRegistry.get env "run-1" (exec (RecipientCalls.call env c) w)
    = (None, exec (RecipientCalls.call env c) w)
  ∧ toolEventRecipients w' !! "run-1" = Some stamped
  ∧ toolEventRecipients (exec (RecipientCalls.call env' own) w') !! "run-1" = None.
Proof.
  intros env w e c env' stamped w' own. split; [reflexivity|].
  destruct (recipients_expire_by_sweep env w "run-1" e eq_refl)
    as (_ & _ & Hsweep & _).
  destruct (recipients_expire_by_sweep env' w' "run-1" stamped eq_refl)
    as (_ & _ & _ & _ & Hfinal).
  destruct (Hsweep c) as [Hgone Hget];
    [discriminate | reflexivity | reflexivity | vm_compute; discriminate |].
  destruct (Hfinal own 2000%Z) as [Hown _];
    [discriminate | reflexivity | reflexivity | discriminate
    | vm_compute; discriminate |].
  split_and!; [exact Hgone | exact Hget | reflexivity | exact Hown].
Defined.

(** An entry stamped final at time 2000 and read at time 100000, long past
    its grace period: the read still returns the set, and only afterwards
    is the entry gone. *)
Lemma recipients_get_refreshes_before_sweep_example :
  let env := Sample.env [100000; 100000; 100001]%Z Sample.noSession in
  let e := mkToolRecipientEntry {["conn-1"]} 1000 (Some 2000%Z) in
  let w := mkWorld 0 Sample.emptyState ∅ {[ "run-1" := e ]} [] in
  toolEventRecipients w !! "run-1" = Some e
  ∧ (ToolEventRecipientRegistry.cutoff e ≤ clock env (ticks w))%Z
  ∧ eval (ToolEventRecipientRegistry.get env "run-1") w = Some {["conn-1"]}
  ∧ toolEventRecipients (exec (ToolEventRecipientRegistry.get env "run-1") w) = ∅.
Proof.
  intros env e w. split; [reflexivity|]. split; [vm_compute; discriminate|].
  destruct (recipients_get_refreshes_before_sweep env w "run-1" e eq_refl)
    as (Hget & Hafter & _).
  split; [exact Hget|]. rewrite Hafter. vm_compute. reflexivity.
Defined.

(** Three successive reads, each a full day after the previous one, of an
    entry that was never marked final. *)
Example recipients_daily_reads :
  let day := 86400000%Z in
  let env := Sample.env [1000; 1000; day; day; 2 * day; 2 * day; 3 * day; 3 * day]%Z
               Sample.noSession in
  let w := exec (ToolEventRecipientRegistry.add env "run-1" "conn-1") Sample.start in
  eval (RecipientCalls.reads env "run-1" 3) w = replicate 3 (Some {["conn-1"]})
  ∧ toolEventRecipients (exec (RecipientCalls.reads env "run-1" 3) w)
    = {[ "run-1" := mkToolRecipientEntry {["conn-1"]} (3 * day) None ]}.
Proof. vm_compute. done. Qed.

(** Reads every five minutes keep an entry through the sweeps of calls made
    for other runs, twenty minutes after it was registered. *)
Example recipients_kept_by_reads :
  let minute := 60000%Z in
  let env :=
    Sample.env [1000; 1000; 5 * minute; 5 * minute; 9 * minute; 9 * minute;
                10 * minute; 10 * minute; 14 * minute; 14 * minute;
                15 * minute; 15 * minute; 20 * minute; 20 * minute]%Z
      Sample.noSession in
  let w := exec (ToolEventRecipientRegistry.add env "run-1" "conn-1") Sample.start in
  let schedule :=
    [RecipientCalls.CallGet "run-1"; RecipientCalls.CallAdd "run-2" "conn-2";
     RecipientCalls.CallGet "run-1"; RecipientCalls.CallAdd "run-3" "conn-3";
     RecipientCalls.CallGet "run-1"; RecipientCalls.CallAdd "run-4" "conn-4"] in
  toolEventRecipients (exec (RecipientCalls.calls env schedule) w) !! "run-1"
  = Some (mkToolRecipientEntry {["conn-1"]} (15 * minute) None).
Proof. vm_compute. reflexivity. Qed.

(** ** Agent event handler *)

Section AgentEventHandlerFacts.

Import AgentEventHandler Calls.

Context (env : Env).

Implicit Types (w : World) (evt : AgentEventPayload).

Lemma emitted_app w w' l : out w' = out w ++ l → emitted w w' = l.
Proof. intros H. unfold emitted. rewrite H. by rewrite drop_app_length. Qed.

(** Unfolds the monad and the field updates down to records. *)
Ltac run_state :=
  unfold mbind, State_bind, when, emit, modify, gets, Date_now, mret, State_ret;
  unfold set_out, set_ticks, set_agentRunSeq, set_toolEventRecipients,
    set_chatRunState;
  cbn.

(** *** Frame conditions of the registry calls *)

Lemma markFinal_frame run w :
  chatRunState (exec (ToolEventRecipientRegistry.markFinal env run) w) = chatRunState w
  ∧ agentRunSeq (exec (ToolEventRecipientRegistry.markFinal env run) w) = agentRunSeq w
  ∧ out (exec (ToolEventRecipientRegistry.markFinal env run) w) = out w.
Proof.
  unfold exec. destruct (toolEventRecipients w !! run) as [e|] eqn:He.
  - by rewrite (markFinal_present env _ _ _ He).
  - by rewrite (markFinal_absent env _ _ He).
Qed.

Lemma get_frame run w :
  chatRunState (exec (ToolEventRecipientRegistry.get env run) w) = chatRunState w
  ∧ agentRunSeq (exec (ToolEventRecipientRegistry.get env run) w) = agentRunSeq w
  ∧ out (exec (ToolEventRecipientRegistry.get env run) w) = out w.
Proof.
  unfold exec. destruct (toolEventRecipients w !! run) as [e|] eqn:He.
  - by rewrite (get_present env _ _ _ He).
  - by rewrite (get_absent env _ _ He).
Qed.

(** *** The stages, run *)

Lemma recordSeq_run evt w :
  recordSeq env evt (sessionKeyOf env evt w) (lastSeq evt w) w
  = (tt, Stages.afterGap env evt w).
Proof.
  unfold recordSeq, Stages.afterGap, Stages.gapReport, seqGap.
  case_bool_decide; run_state.
  - by rewrite Nat.add_1_r.
  - by rewrite Nat.add_0_r, app_nil_r.
Qed.

Lemma handler_suppressed evt w :
  Stages.suppressed env evt w = true →
  createAgentEventHandler env evt w
  = (tt, mkWorld (ticks w) (chatRunState w)
           (<[runId evt := seq evt]> (agentRunSeq w))
           (toolEventRecipients w) (out w)).
Proof.
  unfold Stages.suppressed, createAgentEventHandler. by intros ->.
Qed.

Lemma handler_processed evt w :
  Stages.suppressed env evt w = false →
  createAgentEventHandler env evt w
  = deliver env evt (chatLink evt w) (sessionKeyOf env evt w)
      (clientRunIdOf evt w) (isAborted evt w)
      (toolPayload env evt w) (agentPayload env evt w)
      (Stages.afterGap env evt w).
Proof.
  unfold Stages.suppressed, createAgentEventHandler. intros ->.
  cbv zeta. unfold mbind at 1, State_bind at 1. by rewrite recordSeq_run.
Qed.

Lemma emitChatDelta_run sk id sq text w :
  let now := clock env (ticks w) in
  let last := default 0%Z (deltaSentAt (chatRunState w) !! id) in
  let delta := ChatDelta id sk sq text now in
  emitChatDelta env sk id sq text w =
    (tt,
     if bool_decide (now - last < 150)%Z then
       mkWorld (S (ticks w)) (set_buffers <[id := text]> (chatRunState w))
         (agentRunSeq w) (toolEventRecipients w) (out w)
     else
       mkWorld (S (ticks w))
         (set_deltaSentAt <[id := now]>
            (set_buffers <[id := text]> (chatRunState w)))
         (agentRunSeq w) (toolEventRecipients w)
         (out w
          ++ (if shouldSuppressHeartbeatBroadcast env id then []
              else [broadcast "chat" delta true])
          ++ [nodeSendToSession sk "chat" delta])).
Proof.
  intros now last delta.
  unfold emitChatDelta. run_state. fold now last.
  case_bool_decide; [done|].
  destruct (shouldSuppressHeartbeatBroadcast env id); cbn; [done|].
  by rewrite <- app_assoc.
Qed.

(** *** Filtering the log *)

Lemma chat_app l1 l2 : chat (l1 ++ l2) = chat l1 ++ chat l2.
Proof. apply filter_app. Qed.

Lemma chat_gapReport evt w : chat (Stages.gapReport env evt w) = [].
Proof. unfold Stages.gapReport. by case_bool_decide. Qed.

(** *** Assistant text *)

Lemma not_tool_not_suppressed evt w :
  stream evt ≠ "tool" → Stages.suppressed env evt w = false.
Proof.
  intros H. unfold Stages.suppressed, isToolEvent.
  by rewrite bool_decide_eq_false_2.
Qed.

Lemma handler_assistant evt w text sk :
  stream evt = "assistant" →
  stringField evt "text" = Some text →
  Js.truthy_opt (sessionKeyOf env evt w) = Some sk →
  isAborted evt w = false →
  createAgentEventHandler env evt w
  = emitChatDelta env sk (clientRunIdOf evt w) (seq evt) text
      (mkWorld (ticks w + length (Stages.gapReport env evt w)) (chatRunState w)
         (<[runId evt := seq evt]> (agentRunSeq w)) (toolEventRecipients w)
         ((out w ++ Stages.gapReport env evt w)
          ++ [broadcast "agent" (agentPayload env evt w) false;
              nodeSendToSession sk "agent" (agentPayload env evt w)])).
Proof.
  intros Hstream Htext Hsk Hab.
  rewrite handler_processed by (apply not_tool_not_suppressed; by rewrite Hstream).
  assert (isToolEvent evt = false) as Htool
    by (unfold isToolEvent; by rewrite Hstream).
  assert (lifecyclePhase evt = None) as Hphase
    by (unfold lifecyclePhase; by rewrite Hstream).
  unfold deliver, fanOut, sessionDelivery, cleanup.
  rewrite Hsk, Hab, Htool, Hphase, Htext, Hstream. cbn [negb andb].
  rewrite (bool_decide_eq_true_2 ("assistant" = "assistant")) by done.
  unfold Stages.afterGap. run_state.
  rewrite <- (app_assoc (out w ++ _) [_] [_]). cbn [app].
  by destruct (emitChatDelta env sk _ _ _ _) as [[] w1].
Qed.

(** The delta step of an assistant text, in terms of the handler's own
    constants. *)
Lemma assistant_delta_steps evt w text sk :
  stream evt = "assistant" →
  stringField evt "text" = Some text →
  Js.truthy_opt (sessionKeyOf env evt w) = Some sk →
  isAborted evt w = false →
  let id := clientRunIdOf evt w in
  let now := clock env (ticks w + length (Stages.gapReport env evt w)) in
  let last := default 0%Z (deltaSentAt (chatRunState w) !! id) in
  let delta := ChatDelta id sk (seq evt) text now in
  let sends :=
    (if shouldSuppressHeartbeatBroadcast env id then []
     else [broadcast "chat" delta true])
    ++ [nodeSendToSession sk "chat" delta] in
  let w' := exec (createAgentEventHandler env evt) w in
  buffers (chatRunState w') = <[id := text]> (buffers (chatRunState w))
  ∧ registry (chatRunState w') = registry (chatRunState w)
  ∧ abortedRuns (chatRunState w') = abortedRuns (chatRunState w)
  ∧ ((150 ≤ now - last)%Z →
     chat (emitted w w') = sends
     ∧ deltaSentAt (chatRunState w') = <[id := now]> (deltaSentAt (chatRunState w)))
  ∧ ((now - last < 150)%Z →
     chat (emitted w w') = []
     ∧ deltaSentAt (chatRunState w') = deltaSentAt (chatRunState w))
  ∧ (deltaSentAt (chatRunState w) !! id = None → (150 ≤ now)%Z →
     chat (emitted w w') = sends)
  ∧ (chat (emitted w w') ≠ [] ↔ (150 ≤ now - last)%Z)
  ∧ (∀ c, c ∈ chat (emitted w w') → payloadOf c = Some delta).
Proof.
  intros Hstream Htext Hsk Hab id now last delta sends w'.
  assert (
    w' =
      if bool_decide (now - last < 150)%Z then
        mkWorld (S (ticks w + length (Stages.gapReport env evt w)))
          (set_buffers <[id := text]> (chatRunState w))
          (<[runId evt := seq evt]> (agentRunSeq w)) (toolEventRecipients w)
          (out w ++ Stages.gapReport env evt w
           ++ [broadcast "agent" (agentPayload env evt w) false;
               nodeSendToSession sk "agent" (agentPayload env evt w)])
      else
        mkWorld (S (ticks w + length (Stages.gapReport env evt w)))
          (set_deltaSentAt <[id := now]>
             (set_buffers <[id := text]> (chatRunState w)))
          (<[runId evt := seq evt]> (agentRunSeq w)) (toolEventRecipients w)
          (out w ++ Stages.gapReport env evt w
           ++ [broadcast "agent" (agentPayload env evt w) false;
               nodeSendToSession sk "agent" (agentPayload env evt w)]
           ++ sends)) as Hw'.
  { subst w'. unfold exec.
    rewrite (handler_assistant evt w text sk) by done.
    rewrite emitChatDelta_run. cbn. fold id now last delta.
    case_bool_decide; cbn; f_equal; by rewrite <- !app_assoc. }
  assert ((150 ≤ now - last)%Z →
          chat (emitted w w') = sends
          ∧ deltaSentAt (chatRunState w')
            = <[id := now]> (deltaSentAt (chatRunState w))) as Hsend.
  { intros Hge. rewrite Hw'. rewrite bool_decide_eq_false_2 by lia.
    split; [|done]. erewrite emitted_app by reflexivity.
    rewrite chat_app, chat_gapReport. cbn. subst sends.
    by destruct (shouldSuppressHeartbeatBroadcast env id). }
  assert ((now - last < 150)%Z →
          chat (emitted w w') = []
          ∧ deltaSentAt (chatRunState w') = deltaSentAt (chatRunState w)) as Hskip.
  { intros Hlt. rewrite Hw'. rewrite bool_decide_eq_true_2 by done.
    split; [|done]. erewrite emitted_app by reflexivity.
    by rewrite chat_app, chat_gapReport. }
  split_and!.
  - rewrite Hw'. by case_bool_decide.
  - rewrite Hw'. by case_bool_decide.
  - rewrite Hw'. by case_bool_decide.
  - exact Hsend.
  - exact Hskip.
  - intros Hnone Hge. apply Hsend. subst last. rewrite Hnone. cbn. lia.
  - split.
    + intros Hne. destruct (decide (150 ≤ now - last)%Z) as [|Hlt]; [done|].
      destruct Hne. apply Hskip. lia.
    + intros Hge. destruct (Hsend Hge) as [-> _]. subst sends.
      by destruct (shouldSuppressHeartbeatBroadcast env id).
  - intros c Hc. destruct (decide (150 ≤ now - last)%Z) as [Hge|Hlt].
    + destruct (Hsend Hge) as [Hchat _]. rewrite Hchat in Hc. subst sends.
      destruct (shouldSuppressHeartbeatBroadcast env id); cbn in Hc.
      * by apply list_elem_of_singleton in Hc as ->.
      * apply elem_of_cons in Hc as [->|Hc]; [done|].
        by apply list_elem_of_singleton in Hc as ->.
    + destruct Hskip as [Hchat _]; [lia|]. rewrite Hchat in Hc.
      by apply elem_of_nil in Hc.
Qed.

(** C1, as amended. An assistant event with string text, for a run with a
    known session key that is not marked aborted, always replaces the
    buffered text of the client run id, the id of the correlation at the
    head of the run's queue or else the run id, by the event's text.  With
    [now] the clock reading of the delta step and [last] the recorded time
    of the last delta (0 when none is recorded), the delta carrying the
    event's text is sent to the session if and only if at least 150 ms have
    passed, and it is on the general broadcast if and only if, in addition,
    the client run is not a heartbeat whose broadcasts are hidden; [now] is
    then recorded.  Otherwise no chat payload is delivered and of the chat
    run state only the buffer changes, the recorded time not.  With no
    recorded time the delta is delivered whenever the clock reads at least
    150. *)
Theorem assistant_delta_throttled evt w text sk :
  let queue := default [] (registry (chatRunState w) !! runId evt) in
  let id :=
    match queue with
    | mkChatRunEntry _ client :: _ => client
    | [] => runId evt
    end in
  let key :=
    match queue with
    | mkChatRunEntry session _ :: _ => Some session
    | [] => resolveSessionKeyForRun env (runId evt)
    end in
  let hidden :=
    match getAgentRunContext env id with
    | Some context =>
        isHeartbeat context && negb (default false (heartbeatShowOk env))
    | None => false
    end in
  let now := clock env (ticks w + length (Stages.gapReport env evt w)) in
  let last := default 0%Z (deltaSentAt (chatRunState w) !! id) in
  let delta := ChatDelta id sk (seq evt) text now in
  let w' := exec (createAgentEventHandler env evt) w in
  stream evt = "assistant" →
  data evt ≫= (λ d, d !! "text") = Some (Js.VStr text) →
  key = Some sk →
  sk ≠ "" →
  abortedRuns (chatRunState w) !! id = None →
  abortedRuns (chatRunState w) !! runId evt = None →
  buffers (chatRunState w') = <[id := text]> (buffers (chatRunState w))
  ∧ registry (chatRunState w') = registry (chatRunState w)
  ∧ abortedRuns (chatRunState w') = abortedRuns (chatRunState w)
  ∧ (nodeSendToSession sk "chat" delta ∈ emitted w w' ↔ (150 ≤ now - last)%Z)
  ∧ ((∃ dropIfSlow, broadcast "chat" delta dropIfSlow ∈ emitted w w')
     ↔ (150 ≤ now - last)%Z ∧ hidden = false)
  ∧ ((150 ≤ now - last)%Z →
     chat (emitted w w')
       = (if hidden then [] else [broadcast "chat" delta true])
         ++ [nodeSendToSession sk "chat" delta]
     ∧ deltaSentAt (chatRunState w') = <[id := now]> (deltaSentAt (chatRunState w)))
  ∧ ((now - last < 150)%Z →
     chat (emitted w w') = []
     ∧ deltaSentAt (chatRunState w') = deltaSentAt (chatRunState w))
  ∧ (deltaSentAt (chatRunState w) !! id = None → (150 ≤ now)%Z →
     nodeSendToSession sk "chat" delta ∈ emitted w w').
Proof.
  intros queue id key hidden now last delta w' Hstream Htext Hkey Hsk Hab1 Hab2.
  assert (clientRunIdOf evt w = id ∧ sessionKeyOf env evt w = key) as [Hid Hkey'].
  { unfold clientRunIdOf, sessionKeyOf, chatLink, ChatRunRegistry.peek.
    subst id key queue.
    destruct (registry (chatRunState w) !! runId evt) as [[|[k c] rest]|]; done. }
  assert (Js.truthy_opt (sessionKeyOf env evt w) = Some sk) as Hsession.
  { rewrite Hkey', Hkey. unfold Js.truthy_opt, Js.truthy.
    by rewrite bool_decide_eq_false_2. }
  assert (isAborted evt w = false) as Haborted.
  { unfold isAborted. rewrite Hid, Hab1, Hab2.
    rewrite !bool_decide_eq_false_2; [done|by intros [? ?]..]. }
  assert (stringField evt "text" = Some text) as Hfield
    by (unfold stringField, dataField; by rewrite Htext).
  assert (shouldSuppressHeartbeatBroadcast env id = hidden) as Hhidden.
  { unfold shouldSuppressHeartbeatBroadcast. subst hidden.
    destruct (getAgentRunContext env id) as [context|]; [|done].
    destruct (isHeartbeat context); [|done].
    by destruct (heartbeatShowOk env) as [[]|]. }
  destruct (assistant_delta_steps evt w text sk Hstream Hfield Hsession Haborted)
    as (Hbuf & Hreg & Habr & Hsend & Hskip & _ & _ & _).
  rewrite Hid in Hbuf, Hsend, Hskip. rewrite Hhidden in Hsend.
  fold now last delta w' in Hbuf, Hreg, Habr, Hsend, Hskip.
  assert (∀ c, c ∈ emitted w w' → eventOf c = Some "chat" → c ∈ chat (emitted w w'))
    as Hin by (intros c Hc He; apply list_elem_of_filter; by split).
  assert (∀ c, c ∈ chat (emitted w w') → c ∈ emitted w w') as Hout
    by (intros c Hc; by apply list_elem_of_filter in Hc as [_ ?]).
  split_and!; [done..| | |exact Hsend|exact Hskip|].
  - split.
    + intros Hc. destruct (decide (150 ≤ now - last)%Z) as [|Hlt]; [done|].
      apply Hin in Hc; [|done]. destruct Hskip as [Hnone _]; [lia|].
      rewrite Hnone in Hc. by apply elem_of_nil in Hc.
    + intros Hge. apply Hout. destruct (Hsend Hge) as [-> _].
      apply elem_of_app. right. by apply list_elem_of_singleton.
  - split.
    + intros [d Hc]. apply Hin in Hc; [|done].
      destruct (decide (150 ≤ now - last)%Z) as [Hge|Hlt].
      * split; [done|]. destruct (Hsend Hge) as [Hchat _]. rewrite Hchat in Hc.
        destruct hidden; [|done]. cbn in Hc.
        by apply list_elem_of_singleton in Hc.
      * destruct Hskip as [Hnone _]; [lia|]. rewrite Hnone in Hc.
        by apply elem_of_nil in Hc.
    + intros [Hge Hshown]. exists true. apply Hout.
      destruct (Hsend Hge) as [-> _]. rewrite Hshown. apply list_elem_of_here.
  - intros Hnone Hge. apply Hout. destruct Hsend as [-> _].
    + subst last. rewrite Hnone. cbn. lia.
    + apply elem_of_app. right. by apply list_elem_of_singleton.
Qed.

(** *** No stage after the sequence check reports a gap *)

Lemma quiet_ret {A} (a : A) : quiet (mret a).
Proof. intros w. split; [done|]. exists []. by rewrite app_nil_r. Qed.

Lemma quiet_bind {A B} (m : M A) (k : A → M B) :
  quiet m → (∀ a, quiet (k a)) → quiet (m ≫= k).
Proof.
  intros Hm Hk w. unfold mbind, State_bind.
  destruct (Hm w) as (S1 & l1 & H1 & G1). destruct (m w) as [a w1]. cbn in *.
  destruct (Hk a w1) as (S2 & l2 & H2 & G2). split; [congruence|].
  exists (l1 ++ l2). rewrite H2, H1, <- app_assoc. split; [done|].
  unfold seqGaps in *. by rewrite filter_app, G1, G2.
Qed.

Lemma quiet_silent {A} (m : M A) :
  (∀ w, agentRunSeq (m w).2 = agentRunSeq w ∧ out (m w).2 = out w) → quiet m.
Proof.
  intros H w. destruct (H w) as [Hs Ho]. split; [done|].
  exists []. by rewrite app_nil_r.
Qed.

Lemma quiet_emit e : ¬ isSeqGap e → quiet (emit e).
Proof.
  intros He w. split; [done|]. exists [e]. split; [done|].
  unfold seqGaps. by rewrite filter_cons_False.
Qed.

Lemma quiet_when b (m : M unit) : quiet m → quiet (when b m).
Proof. destruct b; [done|]. intros _. apply quiet_ret. Qed.

Lemma quiet_modify_chatRunState f : quiet (modify (set_chatRunState f)).
Proof. by apply quiet_silent. Qed.

Lemma quiet_Date_now : quiet (Date_now env).
Proof. by apply quiet_silent. Qed.

Lemma quiet_gets {A} (f : World → A) : quiet (gets f).
Proof. by apply quiet_silent. Qed.

Lemma quiet_get run : quiet (ToolEventRecipientRegistry.get env run).
Proof. apply quiet_silent. intros w. split; apply get_frame. Qed.

Lemma quiet_markFinal run : quiet (ToolEventRecipientRegistry.markFinal env run).
Proof. apply quiet_silent. intros w. split; apply markFinal_frame. Qed.

Lemma quiet_registryShift sid : quiet (registryShift sid).
Proof.
  apply quiet_silent. intros w. unfold registryShift.
  by destruct (ChatRunRegistry.shift _ _).
Qed.

Lemma quiet_registryRemove sid id sk : quiet (registryRemove sid id sk).
Proof.
  apply quiet_silent. intros w. unfold registryRemove.
  by destruct (ChatRunRegistry.remove _ _ _ _).
Qed.

Create HintDb quiet discriminated.
Hint Resolve quiet_ret quiet_emit quiet_modify_chatRunState
  quiet_Date_now quiet_gets quiet_get quiet_markFinal quiet_registryShift
  quiet_registryRemove : quiet.

(** Splits binds and case distinctions, then appeals to the hints. *)
Ltac quiet_steps :=
  repeat first
    [ apply quiet_bind; [|intros ?]
    | apply quiet_when
    | match goal with
      | |- quiet (if ?b then _ else _) => destruct b
      | |- quiet (match ?x with _ => _ end) => destruct x
      end
    | progress eauto with quiet
    | apply quiet_emit; unfold isSeqGap; cbn; tauto ].

Lemma quiet_emitChatDelta sk id sq text : quiet (emitChatDelta env sk id sq text).
Proof. unfold emitChatDelta. quiet_steps. Qed.

Lemma quiet_emitChatFinal sk id sq job err :
  quiet (emitChatFinal env sk id sq job err).
Proof. unfold emitChatFinal. quiet_steps. Qed.

Lemma quiet_deliver evt link sko id aborted tp ap :
  ¬ isSeqGap (broadcast "agent" ap false) →
  (∀ sk, ¬ isSeqGap (nodeSendToSession sk "agent" (if isToolEvent evt then tp else ap))) →
  (∀ conns, ¬ isSeqGap (broadcastToConnIds "agent" tp conns)) →
  quiet (deliver env evt link sko id aborted tp ap).
Proof.
  intros Hap Hsend Htp.
  pose proof quiet_emitChatDelta. pose proof quiet_emitChatFinal.
  unfold deliver, fanOut, sessionDelivery, finalize, purgeAborted, cleanup.
  quiet_steps.
Qed.

(** *** Tool events with verbosity off *)

(** C5. A tool-stream event whose verbosity resolves to off makes no
    call at all: no broadcast, no targeted broadcast, no session send and
    no chat payload; it reads no clock and leaves the chat-run state and
    the recipient registry alone.  The state after the run is the state
    before it with the sequence number of the run set to the event's. *)
Theorem tool_event_off_only_records_seq evt w :
  stream evt = "tool" →
  resolveToolVerboseLevel env (runId evt) (sessionKeyOf env evt w) = "off" →
  let w' := exec (createAgentEventHandler env evt) w in
  w' = mkWorld (ticks w) (chatRunState w)
         (<[runId evt := seq evt]> (agentRunSeq w))
         (toolEventRecipients w) (out w)
  ∧ emitted w w' = []
  ∧ agentRunSeq w' !! runId evt = Some (seq evt).
Proof.
  intros Hstream Hoff w'. subst w'. unfold exec.
  rewrite handler_suppressed.
  - cbn. split_and!; [done| |apply lookup_insert_eq].
    unfold emitted. cbn. by rewrite drop_all.
  - unfold Stages.suppressed, toolVerbose, isToolEvent.
    rewrite Hstream. rewrite (bool_decide_eq_true_2 ("tool" = "tool")) by done.
    rewrite Hoff. done.
Qed.

(** *** Sequence gaps *)

Lemma suppressed_inSequence evt w :
  Stages.suppressed env evt (Stages.inSequence env evt w)
  = Stages.suppressed env evt w.
Proof. done. Qed.

Lemma afterGap_inSequence evt w :
  Stages.afterGap env evt (Stages.inSequence env evt w) = Stages.afterGap env evt w.
Proof.
  unfold Stages.afterGap at 1.
  assert (Stages.gapReport env evt (Stages.inSequence env evt w) = []) as ->.
  { unfold Stages.gapReport, lastSeq, Stages.inSequence. cbn.
    rewrite lookup_insert_eq. cbn. rewrite bool_decide_eq_false_2; [done|]. lia. }
  unfold Stages.inSequence, Stages.afterGap. cbn.
  by rewrite Nat.add_0_r, app_nil_r, insert_insert_eq.
Qed.

Lemma toolPayload_shape evt w :
  ∃ e s, toolPayload env evt w = AgentPayload e s.
Proof. unfold toolPayload, agentPayload. case_match; eauto. Qed.

Lemma handler_inSequence evt w :
  Stages.suppressed env evt w = false →
  createAgentEventHandler env evt w
  = createAgentEventHandler env evt (Stages.inSequence env evt w).
Proof.
  intros Hs. rewrite !handler_processed by done.
  by rewrite afterGap_inSequence.
Qed.

Lemma quiet_deliver_payloads evt w :
  quiet (deliver env evt (chatLink evt w) (sessionKeyOf env evt w)
           (clientRunIdOf evt w) (isAborted evt w)
           (toolPayload env evt w) (agentPayload env evt w)).
Proof.
  destruct (toolPayload_shape evt w) as (e & s & Htp).
  apply quiet_deliver; intros; rewrite ?Htp; unfold isSeqGap, agentPayload;
    cbn; [tauto| |tauto].
  destruct (isToolEvent evt); tauto.
Qed.

Lemma handler_records_seq evt w :
  agentRunSeq (exec (createAgentEventHandler env evt) w) !! runId evt
  = Some (seq evt).
Proof.
  unfold exec. destruct (Stages.suppressed env evt w) eqn:Hs.
  - rewrite handler_suppressed by done. apply lookup_insert_eq.
  - rewrite handler_processed by done.
    destruct (quiet_deliver_payloads evt w (Stages.afterGap env evt w)) as [-> _].
    apply lookup_insert_eq.
Qed.

Lemma processed_emits evt w :
  Stages.suppressed env evt w = false →
  ∃ rest,
    emitted w (exec (createAgentEventHandler env evt) w)
      = Stages.gapReport env evt w ++ rest
    ∧ seqGaps rest = []
    ∧ (stream evt ≠ "tool" →
       ∃ rest', rest = broadcast "agent" (agentPayload env evt w) false :: rest').
Proof.
  intros Hs. unfold exec. rewrite handler_processed by done.
  set (d := deliver env evt _ _ _ _ _ _).
  assert (quiet d) as Hq by apply quiet_deliver_payloads.
  destruct (Hq (Stages.afterGap env evt w)) as (_ & l & Hl & Hg).
  exists l. split_and!; [|done|].
  - apply emitted_app. rewrite Hl. cbn. by rewrite app_assoc.
  - intros Hnt. subst d. revert Hl. unfold deliver, fanOut, isToolEvent.
    rewrite bool_decide_eq_false_2 by done.
    unfold mbind at 1, State_bind at 1.
    set (tail := _ ≫= _). unfold emit, modify. cbn beta iota.
    set (w1 := set_out _ _).
    assert (quiet tail) as Ht.
    { subst tail. pose proof quiet_emitChatDelta. pose proof quiet_emitChatFinal.
      unfold sessionDelivery, finalize, purgeAborted, cleanup.
      quiet_steps.
      all: apply quiet_emit; unfold isSeqGap, agentPayload; cbn; tauto. }
    destruct (Ht w1) as (_ & l' & Hl' & _). rewrite Hl'. subst w1. cbn.
    rewrite <- !app_assoc. intros Heq%app_inv_head%app_inv_head.
    exists l'. by rewrite <- Heq.
Qed.

(** C4, as amended. Every run of the handler records the event's
    sequence number for its run.  A tool event whose verbosity resolves to
    off makes no call, so it reports no gap either.  For every other
    event whose sequence number is not the recorded one (0 when none)
    plus one, the first call of the run is the seq-gap broadcast on the
    agent event with the expected and the received number, it is the only
    such report of the run, the event itself is then handled exactly as
    if it had come in sequence, and for an event that is not a tool event
    the next call is the general broadcast of the event.  An event in
    sequence reports no gap. *)
Theorem seq_gap_reported_unless_suppressed evt w :
  let w' := exec (createAgentEventHandler env evt) w in
  let last := lastSeq evt w in
  let report :=
    broadcast "agent"
      (SeqGapPayload (runId evt) (clock env (ticks w)) (sessionKeyOf env evt w)
         (last + 1) (seq evt)) false in
  agentRunSeq w' !! runId evt = Some (seq evt)
  ∧ (Stages.suppressed env evt w = true → emitted w w' = [])
  ∧ (Stages.suppressed env evt w = false → seq evt ≠ (last + 1)%Z →
     (∃ rest,
        emitted w w' = report :: rest
        ∧ seqGaps rest = []
        ∧ (stream evt ≠ "tool" →
           ∃ rest', rest = broadcast "agent" (agentPayload env evt w) false :: rest'))
     ∧ createAgentEventHandler env evt w
       = createAgentEventHandler env evt (Stages.inSequence env evt w))
  ∧ (Stages.suppressed env evt w = false → seq evt = (last + 1)%Z →
     seqGaps (emitted w w') = []).
Proof.
  intros w' last report. split_and!.
  - apply handler_records_seq.
  - intros Hs. subst w'. unfold exec. rewrite handler_suppressed by done.
    unfold emitted. cbn. by rewrite drop_all.
  - intros Hs Hgap. split; [|by apply handler_inSequence].
    destruct (processed_emits evt w Hs) as (rest & Hout & Hg & Hnext).
    exists rest. split_and!; [|done..].
    subst w'. rewrite Hout. unfold Stages.gapReport. by rewrite bool_decide_eq_true_2.
  - intros Hs Hseq.
    destruct (processed_emits evt w Hs) as (rest & Hout & Hg & _).
    subst w'. rewrite Hout. unfold Stages.gapReport.
    by rewrite bool_decide_eq_false_2 by (intros ?; done).
Qed.

(** *** Lifecycle end and error *)

Lemma emitChatFinal_run sk id sq job err w :
  let text := default "" (Js.trim <$> buffers (chatRunState w) !! id) in
  let purged :=
    set_deltaSentAt (delete id) (set_buffers (delete id) (chatRunState w)) in
  emitChatFinal env sk id sq job err w =
    (tt,
     match job with
     | Done =>
         let payload :=
           ChatFinal id sk sq
             (if Js.truthy text then Some (text, clock env (ticks w)) else None) in
         mkWorld (if Js.truthy text then S (ticks w) else ticks w) purged
           (agentRunSeq w) (toolEventRecipients w)
           (out w
            ++ (if shouldSuppressHeartbeatBroadcast env id then []
                else [broadcast "chat" payload false])
            ++ [nodeSendToSession sk "chat" payload])
     | Error =>
         let payload :=
           ChatError id sk sq
             (if Js.truthy_val err then formatForLog env <$> err else None) in
         mkWorld (ticks w) purged (agentRunSeq w) (toolEventRecipients w)
           (out w ++ [broadcast "chat" payload false;
                      nodeSendToSession sk "chat" payload])
     end).
Proof.
  intros text purged. unfold emitChatFinal. run_state. fold text.
  destruct job.
  - destruct (Js.truthy text); run_state;
      destruct (shouldSuppressHeartbeatBroadcast env id); cbn;
      by rewrite <- ?app_assoc.
  - run_state. by rewrite <- app_assoc.
Qed.

Lemma cleanup_end evt w :
  isEndOrError (lifecyclePhase evt) = true →
  chatRunState (exec (cleanup env evt) w) = chatRunState w
  ∧ agentRunSeq (exec (cleanup env evt) w) = agentRunSeq w
  ∧ out (exec (cleanup env evt) w) = out w ++ [clearAgentRunContext (runId evt)].
Proof.
  intros Hend. unfold exec, cleanup. rewrite Hend. cbn [when].
  unfold mbind, State_bind.
  destruct (markFinal_frame (runId evt) w) as (Hc & Hs & Ho).
  unfold exec in *.
  destruct (ToolEventRecipientRegistry.markFinal env (runId evt) w) as [[] w1].
  cbn in *. by rewrite Hc, Hs, Ho.
Qed.

Lemma peek_Some sid (m : gmap string (list ChatRunEntry)) link :
  ChatRunRegistry.peek sid m = Some link ↔ ∃ rest, m !! sid = Some (link :: rest).
Proof.
  unfold ChatRunRegistry.peek. destruct (m !! sid) as [[|x q]|]; cbn; split.
  all: try (intros [= <-]; eauto); try (intros [rest [=]]; by subst); done.
Qed.

Lemma shift_peek sid (m : gmap string (list ChatRunEntry)) :
  (ChatRunRegistry.shift sid m).1 = ChatRunRegistry.peek sid m.
Proof.
  unfold ChatRunRegistry.shift, ChatRunRegistry.peek.
  by destruct (m !! sid) as [[|x q]|].
Qed.

(** With a correlation at the head of the queue, removing it by its own
    ids is the same as shifting it. *)
Lemma remove_head sid (m : gmap string (list ChatRunEntry)) link :
  ChatRunRegistry.peek sid m = Some link →
  Js.truthy (sessionKey link) = true →
  ChatRunRegistry.remove sid (clientRunId link) (Some (sessionKey link)) m
  = ChatRunRegistry.shift sid m.
Proof.
  intros [rest Hq]%peek_Some Ht.
  unfold ChatRunRegistry.remove, ChatRunRegistry.shift. rewrite Hq.
  destruct link as [k c]. cbn in *. unfold ChatRunRegistry.matches. cbn.
  rewrite Ht. by rewrite !bool_decide_eq_true_2 by done.
Qed.

Lemma shift_no_link sid (m : gmap string (list ChatRunEntry)) :
  ChatRunRegistry.peek sid m = None → ChatRunRegistry.shift sid m = (None, m).
Proof.
  unfold ChatRunRegistry.shift, ChatRunRegistry.peek.
  by destruct (m !! sid) as [[|x q]|].
Qed.

Lemma set_registry_same (s : ChatRunState) : set_registry (λ _, registry s) s = s.
Proof. by destruct s. Qed.

Section Lifecycle.

Context (evt : AgentEventPayload) (w : World) (phase sk : string).
Context (Hstream : stream evt = "lifecycle").
Context (Hphase : stringField evt "phase" = Some phase).
Context (Hend : phase = "end" ∨ phase = "error").
Context (Hsk : Js.truthy_opt (sessionKeyOf env evt w) = Some sk).

Let id := clientRunIdOf evt w.
Let sessions := registry (chatRunState w).
Let announced : list Effect :=
  Stages.gapReport env evt w
  ++ [broadcast "agent" (agentPayload env evt w) false;
      nodeSendToSession sk "agent" (agentPayload env evt w)].

Lemma lifecycle_phase : lifecyclePhase evt = Some phase.
Proof. unfold lifecyclePhase. by rewrite Hstream, Hphase. Qed.

Lemma lifecycle_end : isEndOrError (lifecyclePhase evt) = true.
Proof.
  rewrite lifecycle_phase. unfold isEndOrError.
  by destruct Hend as [-> | ->].
Qed.

Lemma lifecycle_not_tool : isToolEvent evt = false.
Proof. unfold isToolEvent. by rewrite Hstream. Qed.

Lemma link_session link : chatLink evt w = Some link → sessionKey link = sk.
Proof.
  intros Hl. revert Hsk. unfold sessionKeyOf, Js.truthy_opt. rewrite Hl.
  destruct (Js.truthy (sessionKey link)); congruence.
Qed.

Lemma link_truthy link :
  chatLink evt w = Some link → Js.truthy (sessionKey link) = true.
Proof.
  intros Hl. revert Hsk. unfold sessionKeyOf, Js.truthy_opt. rewrite Hl.
  by destruct (Js.truthy (sessionKey link)).
Qed.

(** The run up to the branch on the lifecycle phase. *)
Lemma lifecycle_prefix :
  createAgentEventHandler env evt w =
    ((if isAborted evt w
      then purgeAborted evt sk (chatLink evt w) id;; mret false
      else finalize env evt sk (chatLink evt w))
     ≫= λ returned : bool, if returned then mret tt else cleanup env evt)
      (mkWorld (ticks w + length (Stages.gapReport env evt w)) (chatRunState w)
         (<[runId evt := seq evt]> (agentRunSeq w)) (toolEventRecipients w)
         (out w ++ announced)).
Proof.
  rewrite handler_processed
    by (apply not_tool_not_suppressed; by rewrite Hstream).
  unfold deliver, fanOut, sessionDelivery.
  rewrite Hsk, lifecycle_not_tool, lifecycle_end, Hstream.
  rewrite (bool_decide_eq_false_2 ("lifecycle" = "assistant")) by done.
  rewrite andb_false_r, !andb_true_r.
  unfold Stages.afterGap, announced. run_state.
  rewrite <- !app_assoc. cbn [app].
  by destruct (isAborted evt w).
Qed.

Lemma finalize_run w1 :
  chatRunState w1 = chatRunState w →
  finalize env evt sk (chatLink evt w) w1 =
    (false,
     exec (emitChatFinal env sk id (seq evt) (jobStateOf (Some phase))
             (dataField evt "error"))
       (set_chatRunState
          (set_registry (λ _, (ChatRunRegistry.shift (runId evt) sessions).2))
          w1)).
Proof.
  intros Hcrs. unfold finalize, exec. rewrite lifecycle_phase.
  subst id sessions. unfold clientRunIdOf.
  destruct (chatLink evt w) as [link|] eqn:Hlink.
  - unfold mbind at 1, State_bind at 1, registryShift. rewrite Hcrs.
    pose proof (shift_peek (runId evt) (registry (chatRunState w))) as Hhead.
    fold (chatLink evt w) in Hhead. rewrite Hlink in Hhead.
    destruct (ChatRunRegistry.shift _ _) as [finished r]. cbn in Hhead.
    subst finished. rewrite <- (link_session link Hlink).
    destruct link as [k c]. cbn. unfold mbind, State_bind.
    unfold set_chatRunState. rewrite Hcrs.
    by destruct (emitChatFinal _ _ _ _ _ _ _) as [[] w2].
  - rewrite shift_no_link by done. cbn [snd].
    unfold mbind, State_bind.
    replace (set_chatRunState _ w1) with w1.
    + by destruct (emitChatFinal _ _ _ _ _ _ _) as [[] w2].
    + unfold set_chatRunState. rewrite Hcrs, set_registry_same, <- Hcrs.
      by destruct w1.
Qed.

Lemma purgeAborted_run w1 :
  chatRunState w1 = chatRunState w →
  purgeAborted evt sk (chatLink evt w) id w1 =
    (tt,
     mkWorld (ticks w1)
       (mkChatRunState (ChatRunRegistry.shift (runId evt) sessions).2
          (delete id (buffers (chatRunState w)))
          (delete id (deltaSentAt (chatRunState w)))
          (delete (runId evt) (delete id (abortedRuns (chatRunState w)))))
       (agentRunSeq w1) (toolEventRecipients w1) (out w1)).
Proof.
  intros Hcrs. unfold purgeAborted. subst id sessions. unfold clientRunIdOf.
  destruct (chatLink evt w) as [link|] eqn:Hlink.
  - unfold registryRemove. run_state. rewrite Hcrs. cbn.
    rewrite <- (link_session link Hlink).
    rewrite remove_head by (done || by apply link_truthy).
    by destruct (ChatRunRegistry.shift _ _).
  - run_state. rewrite Hcrs. by rewrite shift_no_link by done.
Qed.

End Lifecycle.

Lemma chat_clear run : chat [clearAgentRunContext run] = [].
Proof. done. Qed.

Lemma chat_announced evt w sk :
  chat [broadcast "agent" (agentPayload env evt w) false;
        nodeSendToSession sk "agent" (agentPayload env evt w)] = [].
Proof. done. Qed.

(** C2. A lifecycle event with phase end or error, for a run with a
    known session key that is not marked aborted, delivers one
    finalization payload for the correlated client run id (the run id
    itself when no correlation is queued): for phase end a final payload
    whose message is the trimmed buffered text, and no message when that
    is empty, sent to the session and to the general broadcast unless the
    run is a heartbeat whose broadcasts are suppressed; for phase error an
    error payload, sent to both.  The head of the run's correlation queue
    is popped, and afterwards neither the buffers nor the delta times
    hold the client run id. *)
Theorem lifecycle_end_finalizes evt w phase sk :
  stream evt = "lifecycle" →
  stringField evt "phase" = Some phase →
  phase = "end" ∨ phase = "error" →
  Js.truthy_opt (sessionKeyOf env evt w) = Some sk →
  isAborted evt w = false →
  let id := clientRunIdOf evt w in
  let sessions := registry (chatRunState w) in
  let text := default "" (Js.trim <$> buffers (chatRunState w) !! id) in
  let stamp := clock env (ticks w + length (Stages.gapReport env evt w)) in
  let error := dataField evt "error" in
  let final :=
    ChatFinal id sk (seq evt)
      (if Js.truthy text then Some (text, stamp) else None) in
  let failed :=
    ChatError id sk (seq evt)
      (if Js.truthy_val error then formatForLog env <$> error else None) in
  let w' := exec (createAgentEventHandler env evt) w in
  chat (emitted w w') =
    (if bool_decide (phase = "error") then
       [broadcast "chat" failed false; nodeSendToSession sk "chat" failed]
     else
       (if shouldSuppressHeartbeatBroadcast env id then []
        else [broadcast "chat" final false])
       ++ [nodeSendToSession sk "chat" final])
  ∧ buffers (chatRunState w') = delete id (buffers (chatRunState w))
  ∧ deltaSentAt (chatRunState w') = delete id (deltaSentAt (chatRunState w))
  ∧ buffers (chatRunState w') !! id = None
  ∧ deltaSentAt (chatRunState w') !! id = None
  ∧ (ChatRunRegistry.shift (runId evt) sessions).1 = chatLink evt w
  ∧ registry (chatRunState w') = (ChatRunRegistry.shift (runId evt) sessions).2
  ∧ abortedRuns (chatRunState w') = abortedRuns (chatRunState w).
Proof.
  intros Hstream Hphase Hend Hsk Hab id sessions text stamp error final failed w'.
  pose proof (lifecycle_end evt phase Hstream Hphase Hend) as Hfin.
  assert (∃ w2 sends,
    w' = exec (cleanup env evt) w2
    ∧ chatRunState w2 =
        mkChatRunState (ChatRunRegistry.shift (runId evt) sessions).2
          (delete id (buffers (chatRunState w)))
          (delete id (deltaSentAt (chatRunState w)))
          (abortedRuns (chatRunState w))
    ∧ out w2 = out w ++ Stages.gapReport env evt w
               ++ [broadcast "agent" (agentPayload env evt w) false;
                   nodeSendToSession sk "agent" (agentPayload env evt w)]
               ++ sends
    ∧ sends =
        (if bool_decide (phase = "error") then
           [broadcast "chat" failed false; nodeSendToSession sk "chat" failed]
         else
           (if shouldSuppressHeartbeatBroadcast env id then []
            else [broadcast "chat" final false])
           ++ [nodeSendToSession sk "chat" final])) as (w2 & sends & Hw' & Hcrs & Hout & Hsends).
  { subst w'. unfold exec at 1.
    rewrite (lifecycle_prefix evt w phase sk) by done. rewrite Hab.
    unfold mbind at 1, State_bind at 1. rewrite (finalize_run evt w phase sk) by done.
    unfold exec at 1. rewrite emitChatFinal_run. cbn [snd].
    unfold jobStateOf.
    destruct Hend as [-> | ->];
      [rewrite (bool_decide_eq_false_2 (Some "end" = Some "error")) by done
      |rewrite (bool_decide_eq_true_2 (Some "error" = Some "error")) by done];
      eexists _, _; (split; [reflexivity|]); cbn; fold id text stamp error;
      (split; [reflexivity|]); (split; [|reflexivity]);
      rewrite <- !app_assoc; cbn; reflexivity. }
  destruct (cleanup_end evt w2 Hfin) as (Hc & _ & Ho).
  rewrite <- Hw' in Hc, Ho.
  assert (chat (emitted w w') = sends) as Hchat.
  { erewrite emitted_app; [|rewrite Ho, Hout; rewrite <- !app_assoc; reflexivity].
    rewrite !chat_app, chat_gapReport, chat_announced, chat_clear. cbn.
    rewrite app_nil_r, Hsends.
    case_bool_decide; [done|].
    by destruct (shouldSuppressHeartbeatBroadcast env id). }
  rewrite Hc, Hcrs. cbn. split_and!; try done.
  - by rewrite Hchat, Hsends.
  - apply lookup_delete_eq.
  - apply lookup_delete_eq.
  - apply shift_peek.
Qed.

Lemma shift_forgets sid id (m : gmap string (list ChatRunEntry)) :
  Stages.onlyAtHead m sid id →
  ¬ Stages.mentions (ChatRunRegistry.shift sid m).2 id.
Proof.
  intros Honly (k & q & e & Hq & [i Hi]%list_elem_of_lookup & He).
  unfold ChatRunRegistry.shift in Hq.
  destruct (m !! sid) as [[|x rest]|] eqn:Hm; cbn in Hq.
  1,3: destruct (Honly k q i e Hq Hi He) as [-> ->];
       rewrite Hm in Hq; by simplify_eq.
  destruct (decide (sid = k)) as [<-|Hne].
  - pose proof (holds_store sid rest m) as Hst.
    unfold RegistryTrace.holds in Hst. rewrite Hst in Hq.
    destruct rest as [|y rest]; [done|]. simplify_eq.
    by destruct (Honly sid (x :: y :: rest) (S i) e Hm Hi eq_refl) as [_ ?].
  - rewrite store_other in Hq by done.
    by destruct (Honly k q i e Hq Hi He) as [? _].
Qed.

Lemma shift_remembers sid id (m : gmap string (list ChatRunEntry)) :
  ¬ Stages.mentions (ChatRunRegistry.shift sid m).2 id →
  Stages.onlyAtHead m sid id.
Proof.
  intros Hnone k q i e Hq Hi He.
  assert (∀ k' q' i', (ChatRunRegistry.shift sid m).2 !! k' = Some q' →
            q' !! i' = Some e → False) as Habsurd.
  { intros k' q' i' Hq' Hi'. apply Hnone. exists k', q', e.
    split_and!; [done| |done]. apply list_elem_of_lookup. eauto. }
  destruct (decide (k = sid)) as [->|Hne].
  - split; [done|]. destruct i as [|j]; [done|]. exfalso.
    destruct q as [|x rest]; [done|]. cbn in Hi.
    apply (Habsurd sid rest j); [|done].
    unfold ChatRunRegistry.shift. rewrite Hq. cbn.
    pose proof (holds_store sid rest m) as Hst.
    unfold RegistryTrace.holds in Hst. rewrite Hst.
    by destruct rest.
  - exfalso. apply (Habsurd k q i); [|done].
    unfold ChatRunRegistry.shift.
    destruct (m !! sid) as [[|x rest]|]; cbn; [done| |done].
    by rewrite store_other.
Qed.

(** C3, as amended. A lifecycle event with phase end or error, for a run
    with a known session key that is marked aborted under its client run
    id or under its run id, delivers no chat payload at all and purges the
    run: both abort markers, the buffered text and the delta time of the
    client run id are deleted, and a queued correlation is taken off the
    head of the run's queue.  No queue of the registry holds the client
    run id any more exactly when that correlation was the registry's only
    entry with the id; any other entry queued with the same id stays. *)
Theorem lifecycle_end_of_aborted_run_purges evt w phase sk :
  stream evt = "lifecycle" →
  stringField evt "phase" = Some phase →
  phase = "end" ∨ phase = "error" →
  Js.truthy_opt (sessionKeyOf env evt w) = Some sk →
  isAborted evt w = true →
  let id := clientRunIdOf evt w in
  let sessions := registry (chatRunState w) in
  let w' := exec (createAgentEventHandler env evt) w in
  chat (emitted w w') = []
  ∧ abortedRuns (chatRunState w')
    = delete (runId evt) (delete id (abortedRuns (chatRunState w)))
  ∧ buffers (chatRunState w') = delete id (buffers (chatRunState w))
  ∧ deltaSentAt (chatRunState w') = delete id (deltaSentAt (chatRunState w))
  ∧ (ChatRunRegistry.shift (runId evt) sessions).1 = chatLink evt w
  ∧ registry (chatRunState w') = (ChatRunRegistry.shift (runId evt) sessions).2
  ∧ abortedRuns (chatRunState w') !! id = None
  ∧ abortedRuns (chatRunState w') !! runId evt = None
  ∧ buffers (chatRunState w') !! id = None
  ∧ deltaSentAt (chatRunState w') !! id = None
  ∧ (¬ Stages.mentions (registry (chatRunState w')) id
     ↔ Stages.onlyAtHead sessions (runId evt) id).
Proof.
  intros Hstream Hphase Hend Hsk Hab id sessions w'.
  pose proof (lifecycle_end evt phase Hstream Hphase Hend) as Hfin.
  assert (∃ w2,
    w' = exec (cleanup env evt) w2
    ∧ chatRunState w2 =
        mkChatRunState (ChatRunRegistry.shift (runId evt) sessions).2
          (delete id (buffers (chatRunState w)))
          (delete id (deltaSentAt (chatRunState w)))
          (delete (runId evt) (delete id (abortedRuns (chatRunState w))))
    ∧ out w2 = out w ++ Stages.gapReport env evt w
               ++ [broadcast "agent" (agentPayload env evt w) false;
                   nodeSendToSession sk "agent" (agentPayload env evt w)])
    as (w2 & Hw' & Hcrs & Hout).
  { subst w'. unfold exec at 1.
    rewrite (lifecycle_prefix evt w phase sk) by done. rewrite Hab.
    unfold mbind at 1 2, State_bind at 1 2.
    rewrite (purgeAborted_run evt w sk) by done. cbn.
    eexists. split; [reflexivity|]. cbn. by rewrite <- ?app_assoc. }
  destruct (cleanup_end evt w2 Hfin) as (Hc & _ & Ho).
  rewrite <- Hw' in Hc, Ho. rewrite Hc, Hcrs. cbn.
  split_and!; try done.
  - erewrite emitted_app; [|rewrite Ho, Hout; rewrite <- !app_assoc; reflexivity].
    by rewrite !chat_app, chat_gapReport, chat_announced, chat_clear.
  - apply shift_peek.
  - destruct (decide (runId evt = id)) as [->|Hne].
    + apply lookup_delete_eq.
    + rewrite lookup_delete_ne by done. apply lookup_delete_eq.
  - apply lookup_delete_eq.
  - apply lookup_delete_eq.
  - apply lookup_delete_eq.
  - split; [apply shift_remembers | apply shift_forgets].
Qed.

End AgentEventHandlerFacts.

(** *** The handler on sample events *)

(** The first delta is delivered, one that comes 100 ms later only updates
    the buffer, and one that comes 300 ms after the first is delivered with
    its own text. *)
Example three_deltas :
  let env := Sample.env [1000; 1100; 1300]%Z Sample.mainSession in
  let w1 := exec (AgentEventHandler.createAgentEventHandler env
                    (HandlerSamples.assistant 1 "Hel")) Sample.start in
  let w2 := exec (AgentEventHandler.createAgentEventHandler env
                    (HandlerSamples.assistant 2 "Hello")) w1 in
  let w3 := exec (AgentEventHandler.createAgentEventHandler env
                    (HandlerSamples.assistant 3 "Hello there")) w2 in
  Calls.chat (out w1)
    = [broadcast "chat" (ChatDelta "run-1" "main" 1 "Hel" 1000) true;
       nodeSendToSession "main" "chat" (ChatDelta "run-1" "main" 1 "Hel" 1000)]
  ∧ Calls.chat (Calls.emitted w1 w2) = []
  ∧ buffers (chatRunState w2) = {[ "run-1" := "Hello" ]}
  ∧ deltaSentAt (chatRunState w2) = {[ "run-1" := 1000%Z ]}
  ∧ Calls.chat (Calls.emitted w2 w3)
    = [broadcast "chat" (ChatDelta "run-1" "main" 3 "Hello there" 1300) true;
       nodeSendToSession "main" "chat" (ChatDelta "run-1" "main" 3 "Hello there" 1300)].
Proof. vm_compute. done. Qed.

(** The first delta of a heartbeat run whose broadcasts are not shown goes
    to the session only. *)
Example heartbeat_delta :
  let env := Sample.heartbeatEnv [1000]%Z Sample.mainSession in
  let w' := exec (AgentEventHandler.createAgentEventHandler env
                    (HandlerSamples.assistant 1 "Hello")) Sample.start in
  Calls.chat (out w')
  = [nodeSendToSession "main" "chat" (ChatDelta "run-1" "main" 1 "Hello" 1000)].
Proof. vm_compute. reflexivity. Qed.

(** C1 as stated fails: the first text of a heartbeat run whose broadcasts
    are hidden comes with no delta recorded before it, and its delta is
    sent to the session but is not on the general broadcast. *)
Lemma heartbeat_delta_not_broadcast_counterexample :
  ¬ Stages.delta_broadcast_iff_elapsed.
Proof.
  intros claim.
  pose (env := Sample.heartbeatEnv [1000]%Z Sample.mainSession).
  pose (evt := HandlerSamples.assistant 1 "Hello").
  destruct (claim env evt Sample.start "Hello" "main" eq_refl eq_refl eq_refl eq_refl)
    as [_ Hmust].
  destruct (Hmust I) as (stamp & dropIfSlow & Hin).
  vm_compute in Hin.
  repeat (apply elem_of_cons in Hin as [Hin | Hin]; [discriminate|]).
  by apply elem_of_nil in Hin.
Qed.

(** The first clause of the amended statement on a clock that reads less
    than 150: no delta is recorded, and none is delivered. *)
Example first_delta_on_early_clock :
  let env := Sample.env [100]%Z Sample.mainSession in
  let w' := exec (AgentEventHandler.createAgentEventHandler env
                    (HandlerSamples.assistant 1 "Hello")) Sample.start in
  Calls.chat (out w') = []
  ∧ buffers (chatRunState w') = {[ "run-1" := "Hello" ]}
  ∧ deltaSentAt (chatRunState w') = ∅.
Proof. vm_compute. done. Qed.

Lemma assistant_delta_throttled_example :
  let env := Sample.env [1000]%Z Sample.noSession in
  let evt := HandlerSamples.assistant 1 "Hello" in
  let w := HandlerSamples.linked {[ "client-1" := "Hel" ]} ∅ in
  let w' := exec (AgentEventHandler.createAgentEventHandler env evt) w in
  let delta := ChatDelta "client-1" "main" 1 "Hello" 1000 in
  stream evt = "assistant"
  ∧ data evt ≫= (λ d, d !! "text") = Some (Js.VStr "Hello")
  ∧ "main" ≠ ""
  ∧ abortedRuns (chatRunState w) !! "client-1" = None
  ∧ abortedRuns (chatRunState w) !! "run-1" = None
  ∧ buffers (chatRunState w') = {[ "client-1" := "Hello" ]}
  ∧ deltaSentAt (chatRunState w') = {[ "client-1" := 1000%Z ]}
  ∧ Calls.chat (Calls.emitted w w')
    = [broadcast "chat" delta true; nodeSendToSession "main" "chat" delta].
Proof.
  intros env evt w w' delta.
  assert (stream evt = "assistant") as H1 by reflexivity.
  assert (data evt ≫= (λ d, d !! "text") = Some (Js.VStr "Hello")) as H2
    by reflexivity.
  assert ("main" ≠ "") as H3 by discriminate.
  assert (abortedRuns (chatRunState w) !! "client-1" = None) as H4 by reflexivity.
  assert (abortedRuns (chatRunState w) !! "run-1" = None) as H5 by reflexivity.
  destruct (assistant_delta_throttled env evt w "Hello" "main" H1 H2 eq_refl H3 H4 H5)
    as (Hbuf & _ & _ & _ & _ & Hsend & _).
  destruct Hsend as [Hchat Hstamp]; [vm_compute; discriminate|].
  split_and!; [exact H1 | exact H2 | exact H3 | exact H4 | exact H5 | | |].
  - etrans; [exact Hbuf | vm_compute; reflexivity].
  - etrans; [exact Hstamp | vm_compute; reflexivity].
  - etrans; [exact Hchat | vm_compute; reflexivity].
Defined.

Lemma lifecycle_end_finalizes_example :
  let env := Sample.env [1000; 1001; 1002]%Z Sample.mainSession in
  let evt := HandlerSamples.lifecycle 1 "end" in
  let w := HandlerSamples.linked {[ "client-1" := "  Hi there " ]} ∅ in
  let w' := exec (AgentEventHandler.createAgentEventHandler env evt) w in
  let final := ChatFinal "client-1" "main" 1 (Some ("Hi there", 1000%Z)) in
  stream evt = "lifecycle"
  ∧ AgentEventHandler.stringField evt "phase" = Some "end"
  ∧ Js.truthy_opt (AgentEventHandler.sessionKeyOf env evt w) = Some "main"
  ∧ AgentEventHandler.isAborted evt w = false
  ∧ Calls.chat (Calls.emitted w w')
    = [broadcast "chat" final false; nodeSendToSession "main" "chat" final]
  ∧ buffers (chatRunState w') !! "client-1" = None
  ∧ deltaSentAt (chatRunState w') !! "client-1" = None
  ∧ registry (chatRunState w') = ∅.
Proof.
  intros env evt w w' final.
  assert (stream evt = "lifecycle") as H1 by reflexivity.
  assert (AgentEventHandler.stringField evt "phase" = Some "end") as H2
    by reflexivity.
  assert (Js.truthy_opt (AgentEventHandler.sessionKeyOf env evt w) = Some "main")
    as H3 by reflexivity.
  assert (AgentEventHandler.isAborted evt w = false) as H4 by reflexivity.
  destruct (lifecycle_end_finalizes env evt w "end" "main" H1 H2 (or_introl eq_refl)
              H3 H4) as (Hchat & _ & _ & Hbuf & Hdelta & _ & Hreg & _).
  split_and!; [exact H1 | exact H2 | exact H3 | exact H4 | | exact Hbuf
               | exact Hdelta |].
  - etrans; [exact Hchat | vm_compute; reflexivity].
  - etrans; [exact Hreg | vm_compute; reflexivity].
Defined.

Lemma lifecycle_end_of_aborted_run_purges_example :
  let env := Sample.env [1000; 1001; 1002]%Z Sample.mainSession in
  let evt := HandlerSamples.lifecycle 1 "end" in
  let w := HandlerSamples.linked {[ "client-1" := "partial" ]} {[ "client-1" := 900%Z ]} in
  let w' := exec (AgentEventHandler.createAgentEventHandler env evt) w in
  stream evt = "lifecycle"
  ∧ AgentEventHandler.stringField evt "phase" = Some "end"
  ∧ Js.truthy_opt (AgentEventHandler.sessionKeyOf env evt w) = Some "main"
  ∧ AgentEventHandler.isAborted evt w = true
  ∧ Stages.onlyAtHead (registry (chatRunState w)) "run-1" "client-1"
  ∧ Calls.chat (Calls.emitted w w') = []
  ∧ chatRunState w' = Sample.emptyState
  ∧ ¬ Stages.mentions (registry (chatRunState w')) "client-1".
Proof.
  intros env evt w w'.
  assert (stream evt = "lifecycle") as H1 by reflexivity.
  assert (AgentEventHandler.stringField evt "phase" = Some "end") as H2
    by reflexivity.
  assert (Js.truthy_opt (AgentEventHandler.sessionKeyOf env evt w) = Some "main")
    as H3 by reflexivity.
  assert (AgentEventHandler.isAborted evt w = true) as H4 by reflexivity.
  assert (Stages.onlyAtHead (registry (chatRunState w)) "run-1" "client-1") as H5.
  { intros k q i e Hq Hi _. cbn in Hq.
    apply lookup_singleton_Some in Hq as [<- <-].
    split; [done|]. destruct i as [|i]; [done|]. by destruct i. }
  destruct (lifecycle_end_of_aborted_run_purges env evt w "end" "main" H1 H2
              (or_introl eq_refl) H3 H4)
    as (Hchat & Hab & Hbuf & Hdelta & _ & Hreg & _ & _ & _ & _ & Hgone).
  split_and!; [exact H1 | exact H2 | exact H3 | exact H4 | exact H5 | exact Hchat
               | | exact (proj2 Hgone H5)].
  subst w'.
  destruct (chatRunState (exec _ w)) as [r b d a]. cbn in Hab, Hbuf, Hdelta, Hreg.
  rewrite Hab, Hbuf, Hdelta, Hreg. vm_compute. reflexivity.
Defined.

(** C3 as stated fails: the run's queue holds two correlations with the
    same client run id, the purge takes the first one off, and the registry
    still holds the id after the event. *)
Lemma aborted_run_with_requeued_id_counterexample :
  ¬ Stages.aborted_run_leaves_no_trace.
Proof.
  intros claim.
  pose (env := Sample.env [1000; 1001; 1002]%Z Sample.mainSession).
  pose (evt := HandlerSamples.lifecycle 1 "end").
  pose (w :=
    mkWorld 0
      (mkChatRunState
         {[ "run-1" := [mkChatRunEntry "main" "client-1";
                        mkChatRunEntry "main" "client-1"] ]}
         {[ "client-1" := "partial" ]} ∅ {[ "client-1" := 900%Z ]})
      ∅ ∅ []).
  destruct (claim env evt w "end" "main" eq_refl eq_refl (or_introl eq_refl)
              eq_refl eq_refl) as (_ & _ & _ & Hgone).
  apply Hgone.
  exists "run-1", [mkChatRunEntry "main" "client-1"], (mkChatRunEntry "main" "client-1").
  split_and!; [vm_compute; reflexivity | apply list_elem_of_here | reflexivity].
Qed.

Lemma tool_event_off_only_records_seq_example :
  let env := Sample.env [1000]%Z Sample.mainSession in
  let evt := HandlerSamples.tool 5 in
  let w := mkWorld 0 Sample.emptyState {[ "run-1" := 3%Z ]} ∅ [] in
  stream evt = "tool"
  ∧ AgentEventHandler.resolveToolVerboseLevel env (runId evt)
      (AgentEventHandler.sessionKeyOf env evt w) = "off"
  ∧ exec (AgentEventHandler.createAgentEventHandler env evt) w
    = mkWorld 0 Sample.emptyState {[ "run-1" := 5%Z ]} ∅ [].
Proof.
  intros env evt w.
  assert (stream evt = "tool") as H1 by reflexivity.
  assert (AgentEventHandler.resolveToolVerboseLevel env (runId evt)
            (AgentEventHandler.sessionKeyOf env evt w) = "off") as H2
    by reflexivity.
  destruct (tool_event_off_only_records_seq env evt w H1 H2) as (Hw & _).
  split_and!; [exact H1 | exact H2 |].
  etrans; [exact Hw | vm_compute; reflexivity].
Defined.

(** Sequence number 5 after 3 on an assistant event: one report with
    expected 4 and received 5, then the event itself. *)
Example seq_gap_five_after_three :
  let env := Sample.env [1000; 1001]%Z Sample.noSession in
  let evt := HandlerSamples.assistant 5 "Hello" in
  let w := mkWorld 0 Sample.emptyState {[ "run-1" := 3%Z ]} ∅ [] in
  exec (AgentEventHandler.createAgentEventHandler env evt) w
  = mkWorld 1 Sample.emptyState {[ "run-1" := 5%Z ]} ∅
      [broadcast "agent" (SeqGapPayload "run-1" 1000 None 4 5) false;
       broadcast "agent" (AgentPayload evt None) false].
Proof. vm_compute. reflexivity. Qed.

(** C4 as stated fails: a tool event whose verbosity resolves to off,
    with sequence number 5 after 3, is dropped before the sequence check, so
    no gap is reported. *)
Lemma seq_gap_of_suppressed_tool_event_counterexample :
  ¬ Stages.every_gap_reported.
Proof.
  intros claim.
  pose (env := Sample.env [1000; 1001]%Z Sample.noSession).
  pose (w := mkWorld 0 Sample.emptyState {[ "run-1" := 3%Z ]} ∅ []).
  specialize (claim env (HandlerSamples.tool 5) w).
  assert (Calls.seqGaps
            (Calls.emitted w
               (exec (AgentEventHandler.createAgentEventHandler env
                        (HandlerSamples.tool 5)) w)) = []) as Hnone
    by (vm_compute; reflexivity).
  rewrite claim in Hnone; [discriminate|]. vm_compute. discriminate.
Qed.

(** ** Inbound channel message handler *)

Section ChannelMessageHandlerFacts.

Import ChannelMessageHandler.

Context (deps : Deps).

Implicit Types (w : World) (msg : ChannelMessage).


(** The final reply parts are the trimmed texts of the final deliveries
    that are not empty after trimming, in order of delivery. *)
Lemma collectFinalReplyParts_spec ds :
  collectFinalReplyParts ds =
    omap (λ d : string * option string,
            if bool_decide (d.1 = "final") then
              Js.truthy_opt (Some (default "" (Js.trim <$> d.2)))
            else None) ds.
Proof.
  unfold collectFinalReplyParts.
  assert (∀ acc, foldl deliver acc ds =
            acc ++ omap (λ d : string * option string,
              if bool_decide (d.1 = "final") then
                Js.truthy_opt (Some (default "" (Js.trim <$> d.2)))
              else None) ds) as H; [|apply (H [])].
  induction ds as [|d ds IH]; intros acc; cbn; [by rewrite app_nil_r|].
  rewrite IH. unfold deliver, Js.truthy_opt.
  case_bool_decide; cbn; [|done].
  destruct (Js.truthy _); cbn; [|done]. by rewrite <- app_assoc.
Qed.




Lemma finalTexts_collected ds :
  collectFinalReplyParts ds = Claimed.finalTexts ds.
Proof.
  rewrite collectFinalReplyParts_spec. unfold Claimed.finalTexts.
  apply list_omap_ext, Forall2_same_length_lookup. split; [done|].
  intros i [kind text] d' Hd Hd'. simplify_eq. cbn.
  destruct (bool_decide (kind = "final")); [|done].
  destruct text as [text|]; cbn; [|done].
  unfold Js.truthy_opt, Js.truthy. by destruct (bool_decide (Js.trim text = "")).
Qed.

Lemma blankLineJoined_join texts :
  Js.join blankLine texts = Claimed.blankLineJoined texts.
Proof. reflexivity. Qed.


End ChannelMessageHandlerFacts.

(** The message "hi" from a new sender, answered by a streamed block and
    the final reply "hello!". *)
Example inbound_hi_run :
  let deps := ChannelSamples.deps [("block", Some "hel"); ("final", Some " hello! ")] in
  exec (ChannelMessageHandler.createChannelMessageHandler deps "spixi" "default"
          ChannelSamples.hi) ChannelSamples.start
  = ChannelMessageHandler.mkWorld 5 2
      {[ "/store/sessions.json" :=
           {[ "spixi:wallet-abc" :=
                ChannelMessageHandler.mkSessionEntry "11111111-aaaa" 1000 false false
                  0 0 0 (Some "Channel wallet-abc") (Some "user") (Some "spixi")
                  (Some "wallet-abc") (Some "allow") None None None None ]} ]}
      {[ "/store/11111111-aaaa.jsonl" :=
           [ChannelMessageHandler.SessionHeader 1 "11111111-aaaa" 1001 "/home";
            ChannelMessageHandler.MessageLine "22222222" 1002 "user" "hi" None] ]}
      [ChannelMessageHandler.mkReply "spixi" "default" "wallet-abc" "hello!"].
Proof. vm_compute. reflexivity. Qed.



(** * Further properties *)

(** ** Chat-run registry *)

Section ChatRunRegistryMore.

Import ChatRunRegistry RegistryTrace Extras.

Implicit Types (m : gmap string (list ChatRunEntry)) (q : list ChatRunEntry).

Lemma noEmptyQueue_store sid q m : noEmptyQueue m → noEmptyQueue (store sid q m).
Proof.
  intros Hm k. destruct (decide (sid = k)) as [<-|Hne].
  - pose proof (holds_store sid q m) as H. unfold holds in H. rewrite H.
    by destruct q.
  - rewrite store_other by done. apply Hm.
Qed.

(** X1. A registry in which no session stores an empty queue stays so
    under [add], [shift] and [remove], whatever their arguments; in such a
    registry [peek] returns nothing exactly for the sessions that have no
    queue. *)
Theorem registry_keeps_no_empty_queue m :
  noEmptyQueue m →
  (∀ sid e, noEmptyQueue (add sid e m))
  ∧ (∀ sid, noEmptyQueue (shift sid m).2)
  ∧ (∀ sid id sk, noEmptyQueue (remove sid id sk m).2)
  ∧ (∀ sid, peek sid m = None ↔ m !! sid = None).
Proof.
  intros Hm. split_and!.
  - intros sid e k. unfold add. destruct (decide (sid = k)) as [<-|Hne].
    + destruct (m !! sid) as [q|]; rewrite lookup_insert_eq; [|done].
      by destruct q.
    + destruct (m !! sid); rewrite lookup_insert_ne by done; apply Hm.
  - intros sid. unfold shift. destruct (m !! sid) as [[|x q]|]; cbn; try done.
    by apply noEmptyQueue_store.
  - intros sid id sk. unfold remove.
    destruct (m !! sid) as [[|x q]|]; cbn -[Js.findIndex]; try done.
    destruct (Js.findIndex _ _); cbn; [|done]. by apply noEmptyQueue_store.
  - intros sid. unfold peek. specialize (Hm sid).
    destruct (m !! sid) as [[|x q]|]; cbn; split; done.
Qed.

(** X2. Adding an entry and then removing it by its ids gives back the
    entry and the registry as it was, provided no entry queued before it
    for the session matches those ids and the session stores no empty
    queue. *)
Theorem registry_add_then_remove sid id sk e m :
  m !! sid ≠ Some [] →
  Forall (λ x, ¬ wanted id sk x) (default [] (m !! sid)) →
  wanted id sk e →
  remove sid id sk (add sid e m) = (Some e, m).
Proof.
  intros Hne Hq He. unfold add, remove.
  assert (∀ q, Forall (λ x, ¬ wanted id sk x) q →
            Js.findIndex (matches id sk) (q ++ [e]) = Some (length q)) as Hidx.
  { induction q as [|x q IH]; intros Hall; cbn.
    - by rewrite (proj2 (matches_wanted id sk e) He).
    - inversion Hall as [|?? Hx Hrest]; subst.
      rewrite (proj2 (matches_not_wanted id sk x) Hx), IH by done. done. }
  destruct (m !! sid) as [q|] eqn:Hm; cbn in Hq.
  - rewrite lookup_insert_eq. destruct q as [|x q]; [done|].
    change (x :: q ++ [e]) with ((x :: q) ++ [e]). rewrite Hidx by done.
    rewrite splice1_middle, list_lookup_middle by done.
    rewrite app_nil_r. cbn. f_equal.
    rewrite insert_insert_eq. by apply insert_id.
  - rewrite lookup_insert_eq. pose proof (Hidx [] Hq) as H0. cbn in H0.
    cbn. rewrite (proj2 (matches_wanted id sk e) He). cbn. f_equal.
    by apply delete_insert_id.
Qed.

End ChatRunRegistryMore.

Lemma registry_keeps_no_empty_queue_example :
  let m : gmap string (list ChatRunEntry) :=
    {[ "run-1" := [mkChatRunEntry "main" "client-1"] ]} in
  Extras.noEmptyQueue m
  ∧ Extras.noEmptyQueue (ChatRunRegistry.shift "run-1" m).2
  ∧ (ChatRunRegistry.peek "run-2" m = None ↔ m !! "run-2" = None).
Proof.
  intros m.
  assert (Extras.noEmptyQueue m) as Hm.
  { intros sid Hq. apply lookup_singleton_Some in Hq as [_ ?]. done. }
  destruct (registry_keeps_no_empty_queue m Hm) as (_ & Hshift & _ & Hpeek).
  split_and!; [exact Hm | apply Hshift | apply Hpeek].
Defined.

Lemma registry_add_then_remove_example :
  let m : gmap string (list ChatRunEntry) :=
    {[ "run-1" := [mkChatRunEntry "main" "client-1"] ]} in
  let e := mkChatRunEntry "main" "client-2" in
  m !! "run-1" ≠ Some []
  ∧ ChatRunRegistry.remove "run-1" "client-2" None (ChatRunRegistry.add "run-1" e m)
    = (Some e, m).
Proof.
  intros m e.
  assert (m !! "run-1" ≠ Some []) as H1 by (vm_compute; discriminate).
  split; [exact H1|].
  apply (registry_add_then_remove "run-1" "client-2" None e m H1).
  - cbn. constructor; [|constructor]. intros [Hid _]. discriminate Hid.
  - split; [reflexivity | intros s Hs; discriminate Hs].
Defined.

(** ** Tool-event recipient registry *)

Section ToolEventRecipientMore.

Import ToolEventRecipientRegistry RecipientCalls.

Context (env : Env).

Implicit Types (w : World) (e : ToolRecipientEntry).

(** The map after a call that reaches the sweep. *)
Lemma call_sweeps w c :
  performsSweep c w = true →
  ∃ written,
    toolEventRecipients (exec (call env c) w)
    = sweep (clock env (S (ticks w))) written
    ∧ ∀ k, k ≠ callRun c → written !! k = toolEventRecipients w !! k.
Proof.
  intros Hs. unfold exec. destruct c as [r conn|r|r]; cbn in *.
  - apply andb_prop in Hs as [Hr Hc]. rewrite add_effective by done.
    eexists. split; [reflexivity|]. intros k Hk. by rewrite lookup_insert_ne.
  - apply bool_decide_eq_true in Hs as [e He]. unfold mbind, State_bind.
    rewrite (get_present _ _ _ _ He).
    eexists. split; [reflexivity|]. intros k Hk. by rewrite lookup_insert_ne.
  - apply bool_decide_eq_true in Hs as [e He].
    rewrite (markFinal_present _ _ _ _ He).
    eexists. split; [reflexivity|]. intros k Hk. by rewrite lookup_insert_ne.
Qed.

Lemma call_idle w c :
  performsSweep c w = false → exec (call env c) w = w.
Proof.
  intros Hs. unfold exec. destruct c as [r conn|r|r]; cbn in *.
  - by rewrite add_ignored.
  - apply bool_decide_eq_false in Hs. unfold mbind, State_bind.
    rewrite get_absent; [done|]. destruct (_ !! r) eqn:E; [|done].
    destruct Hs. eauto.
  - apply bool_decide_eq_false in Hs.
    rewrite markFinal_absent; [done|]. destruct (_ !! r) eqn:E; [|done].
    destruct Hs. eauto.
Qed.

Lemma call_other_run_absent w c run :
  callRun c ≠ run →
  toolEventRecipients w !! run = None →
  toolEventRecipients (exec (call env c) w) !! run = None.
Proof.
  intros Hne Hnone. destruct (performsSweep c w) eqn:Hs.
  - destruct (call_sweeps w c Hs) as (written & -> & Hother).
    rewrite sweep_lookup, Hother by done. by rewrite Hnone.
  - by rewrite call_idle.
Qed.

(** X3. After [add(runId, connId)] with two non-empty ids, for a run that
    has no entry or one never marked final, [get(runId)] returns the
    connection ids the run had before together with the new one: the
    registered sets only grow.  The two clock readings of each call are
    less than one TTL apart. *)
Theorem recipients_add_then_get w run conn :
  Js.truthy run = true →
  Js.truthy conn = true →
  (∀ e, toolEventRecipients w !! run = Some e → finalizedAt e = None) →
  (clock env (S (ticks w)) < clock env (ticks w) + TOOL_EVENT_RECIPIENT_TTL_MS)%Z →
  eval (get env run) (exec (add env run conn) w)
  = Some (default ∅ (connIds <$> toolEventRecipients w !! run) ∪ {[conn]}).
Proof.
  intros Hr Hc Hfin Hclk. unfold eval, exec. rewrite add_effective by done. cbn.
  set (written := match toolEventRecipients w !! run with
                  | Some e => joined e conn (clock env (ticks w))
                  | None => mkToolRecipientEntry {[conn]} (clock env (ticks w)) None
                  end).
  assert (finalizedAt written = None) as Hw.
  { subst written. destruct (toolEventRecipients w !! run) as [e|] eqn:He; [|done].
    cbn. by apply Hfin. }
  assert (updatedAt written = clock env (ticks w)) as Hu.
  { subst written. by destruct (toolEventRecipients w !! run). }
  erewrite get_present.
  2:{ cbn. rewrite sweep_lookup, lookup_insert_eq.
      rewrite decide_False; [done|]. unfold cutoff. rewrite Hw, Hu. lia. }
  cbn. subst written. destruct (toolEventRecipients w !! run) as [e|]; cbn; [done|].
  by rewrite (left_id_L ∅ (∪)).
Qed.

(** X4. Neither [add] nor [get] nor a call for another run changes the
    stamp of an entry that has been marked final: after any call other than
    [markFinal(runId)] the entry is gone or still carries the stamp, and
    when the call reaches the sweep at or after the stamp plus the grace
    period the entry is gone, also when the call is a read or an add for
    the run itself. *)
Theorem recipients_final_stamp_is_kept w c run e f :
  toolEventRecipients w !! run = Some e →
  finalizedAt e = Some f →
  f ≠ 0%Z →
  c ≠ CallMarkFinal run →
  (∀ e', toolEventRecipients (exec (call env c) w) !! run = Some e' →
         finalizedAt e' = Some f)
  ∧ (performsSweep c w = true →
     (f + TOOL_EVENT_RECIPIENT_FINAL_GRACE_MS ≤ clock env (S (ticks w)))%Z →
     toolEventRecipients (exec (call env c) w) !! run = None).
Proof.
  intros He Hfin Hnz Hc.
  assert (∃ e1, finalizedAt e1 = Some f
            ∧ toolEventRecipients (exec (call env c) w) !! run =
                if performsSweep c w
                then if decide (cutoff e1 ≤ clock env (S (ticks w)))%Z
                     then None else Some e1
                else Some e1) as (e1 & Hf1 & Hlook).
  { destruct (decide (callRun c = run)) as [<-|Hne].
    - unfold exec. destruct c as [r conn|r|r]; cbn in *; [| |done].
      + destruct (Js.truthy r && Js.truthy conn) eqn:Ht.
        * apply andb_prop in Ht as [Hr Hcn]. rewrite add_effective by done. cbn.
          rewrite sweep_lookup, lookup_insert_eq, He.
          by exists (joined e conn (clock env (ticks w))).
        * rewrite add_ignored by done. by exists e.
      + unfold mbind, State_bind. rewrite (get_present _ _ _ _ He). cbn.
        rewrite sweep_lookup, lookup_insert_eq.
        exists (refreshed e (clock env (ticks w))). split; [done|].
        by rewrite bool_decide_eq_true_2 by (rewrite He; eauto).
    - exists e. split; [done|]. by apply call_other_run. }
  assert (cutoff e1 = f + TOOL_EVENT_RECIPIENT_FINAL_GRACE_MS)%Z as Hcut.
  { unfold cutoff. rewrite Hf1. by rewrite bool_decide_eq_false_2. }
  split.
  - intros e' He'. rewrite Hlook in He'.
    destruct (performsSweep c w); [destruct (decide _)|]; by simplify_eq.
  - intros Hs Hclk. rewrite Hlook, Hs. rewrite decide_True; [done|]. by rewrite Hcut.
Qed.

(** X5. Right after a call that reaches the sweep, no entry of the map is
    at or past its cutoff at the time of the sweep, and every entry of
    another run that is still there is as it was: the sweep deletes and
    never rewrites. *)
Theorem recipients_none_expired_after_sweep w c :
  performsSweep c w = true →
  ∀ k e,
    toolEventRecipients (exec (call env c) w) !! k = Some e →
    (clock env (S (ticks w)) < cutoff e)%Z
    ∧ (k ≠ callRun c → toolEventRecipients w !! k = Some e).
Proof.
  intros Hs k e Hk.
  destruct (call_sweeps w c Hs) as (written & Hw & Hother).
  rewrite Hw, sweep_lookup in Hk.
  destruct (written !! k) as [x|] eqn:Hx; [|done].
  destruct (decide (cutoff x ≤ clock env (S (ticks w)))%Z); [done|].
  simplify_eq. split; [lia|]. intros Hne. by rewrite <- Hother.
Qed.

(** X6. Calls made for other runs never create or rewrite the entry of a
    run: after any sequence of such calls the run's entry is the one it
    had, or it is gone. *)
Theorem recipients_untouched_by_other_runs cs : ∀ w run,
  Forall (λ c, callRun c ≠ run) cs →
  toolEventRecipients (exec (calls env cs) w) !! run = toolEventRecipients w !! run
  ∨ toolEventRecipients (exec (calls env cs) w) !! run = None.
Proof.
  induction cs as [|c cs IH]; intros w run Hall; [by left|].
  inversion Hall as [|?? Hc Hrest]; subst.
  assert (exec (calls env (c :: cs)) w = exec (calls env cs) (exec (call env c) w))
    as ->.
  { unfold exec. cbn [calls]. unfold mbind, State_bind.
    by destruct (call env c w) as [[] w1]. }
  destruct (IH (exec (call env c) w) run Hrest) as [Hsame|Hgone]; [|by right].
  rewrite Hsame. destruct (toolEventRecipients w !! run) as [e|] eqn:He.
  - rewrite (call_other_run env w c run e Hc He).
    destruct (performsSweep c w); [destruct (decide _)|]; auto.
  - right. by apply call_other_run_absent.
Qed.

End ToolEventRecipientMore.

Lemma recipients_add_then_get_example :
  let env := Sample.env [1000; 1000; 2000; 2000; 3000; 3000]%Z Sample.noSession in
  let w := exec (ToolEventRecipientRegistry.add env "run-1" "conn-1") Sample.start in
  Js.truthy "run-1" = true
  ∧ Js.truthy "conn-2" = true
  ∧ (clock env (S (ticks w)) < clock env (ticks w) + TOOL_EVENT_RECIPIENT_TTL_MS)%Z
  ∧ eval (ToolEventRecipientRegistry.get env "run-1")
      (exec (ToolEventRecipientRegistry.add env "run-1" "conn-2") w)
    = Some ({["conn-1"]} ∪ {["conn-2"]}).
Proof.
  intros env w.
  assert (Js.truthy "run-1" = true) as H1 by reflexivity.
  assert (Js.truthy "conn-2" = true) as H2 by reflexivity.
  assert (clock env (S (ticks w)) < clock env (ticks w) + TOOL_EVENT_RECIPIENT_TTL_MS)%Z
    as H3 by (vm_compute; reflexivity).
  split_and!; [exact H1 | exact H2 | exact H3 |].
  etrans; [apply (recipients_add_then_get env w "run-1" "conn-2" H1 H2); [|exact H3]|].
  - intros e He. vm_compute in He. by simplify_eq.
  - vm_compute. reflexivity.
Defined.

Lemma recipients_final_stamp_is_kept_example :
  let env := Sample.env [40000; 40000]%Z Sample.noSession in
  let e := mkToolRecipientEntry {["conn-1"]} 1000 (Some 2000%Z) in
  let w := mkWorld 0 Sample.emptyState ∅ {[ "run-1" := e ]} [] in
  let c := RecipientCalls.CallGet "run-1" in
  toolEventRecipients w !! "run-1" = Some e
  ∧ RecipientCalls.performsSweep c w = true
  ∧ toolEventRecipients (exec (RecipientCalls.call env c) w) !! "run-1" = None.
Proof.
  intros env e w c.
  assert (toolEventRecipients w !! "run-1" = Some e) as H1 by reflexivity.
  assert (RecipientCalls.performsSweep c w = true) as H2 by reflexivity.
  destruct (recipients_final_stamp_is_kept env w c "run-1" e 2000 H1 eq_refl)
    as [_ Hgone]; [discriminate | discriminate |].
  split_and!; [exact H1 | exact H2 |].
  apply Hgone; [exact H2|]. vm_compute. discriminate.
Defined.

Lemma recipients_none_expired_after_sweep_example :
  let env := Sample.env [700000; 700000]%Z Sample.noSession in
  let old := mkToolRecipientEntry {["conn-1"]} 1000 None in
  let recent := mkToolRecipientEntry {["conn-2"]} 650000 None in
  let w := mkWorld 0 Sample.emptyState ∅ {[ "run-1" := old; "run-2" := recent ]} [] in
  let c := RecipientCalls.CallAdd "run-3" "conn-3" in
  RecipientCalls.performsSweep c w = true
  ∧ toolEventRecipients (exec (RecipientCalls.call env c) w) !! "run-2" = Some recent
  ∧ toolEventRecipients (exec (RecipientCalls.call env c) w) !! "run-1" = None
  ∧ (clock env (S (ticks w)) < ToolEventRecipientRegistry.cutoff recent)%Z.
Proof.
  intros env old recent w c.
  assert (RecipientCalls.performsSweep c w = true) as H1 by reflexivity.
  assert (toolEventRecipients (exec (RecipientCalls.call env c) w) !! "run-2"
          = Some recent) as H2 by (vm_compute; reflexivity).
  split_and!; [exact H1 | exact H2 | vm_compute; reflexivity |].
  apply (recipients_none_expired_after_sweep env w c H1 "run-2" recent H2).
Defined.

Lemma recipients_untouched_by_other_runs_example :
  let env := Sample.env [2000; 2000; 3000; 3000]%Z Sample.noSession in
  let e := mkToolRecipientEntry {["conn-1"]} 1000 None in
  let w := mkWorld 0 Sample.emptyState ∅ {[ "run-1" := e ]} [] in
  let cs := [RecipientCalls.CallAdd "run-2" "conn-2"; RecipientCalls.CallGet "run-2"] in
  Forall (λ c, RecipientCalls.callRun c ≠ "run-1") cs
  ∧ (toolEventRecipients (exec (RecipientCalls.calls env cs) w) !! "run-1"
       = toolEventRecipients w !! "run-1"
     ∨ toolEventRecipients (exec (RecipientCalls.calls env cs) w) !! "run-1" = None).
Proof.
  intros env e w cs.
  assert (Forall (λ c, RecipientCalls.callRun c ≠ "run-1") cs) as H1
    by (repeat constructor; discriminate).
  split; [exact H1|].
  apply (recipients_untouched_by_other_runs env cs w "run-1" H1).
Defined.

(** ** Agent event handler *)

Section AgentEventHandlerMore.

Import AgentEventHandler Calls.

Context (env : Env).

Implicit Types (w : World) (evt : AgentEventPayload).

(** Unfolds the monad and the field updates down to records. *)
Ltac run_world :=
  unfold mbind, State_bind, when, emit, modify, gets, Date_now, mret, State_ret;
  unfold set_out, set_ticks, set_agentRunSeq, set_toolEventRecipients,
    set_chatRunState;
  cbn.

Lemma cleanup_run evt w :
  exec (cleanup env evt) w =
    if isEndOrError (lifecyclePhase evt) then
      set_out (λ o, o ++ [clearAgentRunContext (runId evt)])
        (exec (ToolEventRecipientRegistry.markFinal env (runId evt)) w)
    else w.
Proof.
  unfold exec, cleanup. destruct (isEndOrError _); [|done]. cbn [when].
  unfold mbind, State_bind.
  by destruct (ToolEventRecipientRegistry.markFinal env (runId evt) w) as [[] w1].
Qed.

Lemma strippedData_lookup evt k :
  strippedData evt !! k =
    if bool_decide (k = "result" ∨ k = "partialResult") then None
    else data evt ≫= (λ d, d !! k).
Proof.
  unfold strippedData. case_bool_decide as Hk.
  - destruct Hk as [-> | ->]; [|apply lookup_delete_eq].
    rewrite lookup_delete_ne by done. apply lookup_delete_eq.
  - rewrite !lookup_delete_ne by (intros <-; apply Hk; auto).
    by destruct (data evt).
Qed.

(** X7. A tool event whose verbosity does not resolve to off is never put
    on the general broadcast: besides a seq-gap report it is delivered to
    the connection ids registered for the run, when there are any, and to
    the session, when its key is known, and to nobody else; the chat run
    state is left alone.  Unless the verbosity is full the delivered copy
    has lost the [result] and [partialResult] fields of its data and kept
    every other field. *)
Theorem tool_event_delivery evt w :
  stream evt = "tool" →
  resolveToolVerboseLevel env (runId evt) (sessionKeyOf env evt w) ≠ "off" →
  let verbose := resolveToolVerboseLevel env (runId evt) (sessionKeyOf env evt w) in
  let copy :=
    AgentPayload
      (if bool_decide (verbose = "full") then evt
       else mkAgentEvent (runId evt) (seq evt) (stream evt) (Some (strippedData evt)))
      (Js.truthy_opt (sessionKeyOf env evt w)) in
  let w' := exec (createAgentEventHandler env evt) w in
  emitted w w' =
    Stages.gapReport env evt w
    ++ match connIds <$> toolEventRecipients w !! runId evt with
       | Some conns =>
           if bool_decide (0 < size conns)%nat
           then [broadcastToConnIds "agent" copy conns] else []
       | None => []
       end
    ++ match Js.truthy_opt (sessionKeyOf env evt w) with
       | Some sk => [nodeSendToSession sk "agent" copy]
       | None => []
       end
  ∧ chatRunState w' = chatRunState w
  ∧ ∀ k, strippedData evt !! k =
           if bool_decide (k = "result" ∨ k = "partialResult") then None
           else data evt ≫= (λ d, d !! k).
Proof.
  intros Hstream Hv verbose copy w'.
  assert (isToolEvent evt = true) as Htool
    by (unfold isToolEvent; by rewrite Hstream).
  assert (lifecyclePhase evt = None) as Hphase
    by (unfold lifecyclePhase; by rewrite Hstream).
  assert (toolVerbose env evt w = verbose) as Htv
    by (unfold toolVerbose; by rewrite Htool).
  assert (toolPayload env evt w = copy) as Htp.
  { unfold toolPayload, agentPayload. rewrite Htool, Htv. subst copy. cbn.
    by case_bool_decide. }
  assert (Stages.suppressed env evt w = false) as Hs.
  { unfold Stages.suppressed. rewrite Htool, Htv. by rewrite bool_decide_eq_false_2. }
  split_and!; [| |apply strippedData_lookup].
  all: subst w'; unfold exec; rewrite handler_processed by done.
  all: unfold deliver, fanOut, sessionDelivery, cleanup.
  all: rewrite Htool, Hphase, Htp, Hstream.
  all: rewrite (bool_decide_eq_false_2 ("tool" = "assistant")) by done.
  all: replace (isEndOrError None) with false by reflexivity.
  all: rewrite !andb_false_r; cbn [when].
  all: unfold mbind, State_bind.
  all: destruct (toolEventRecipients w !! runId evt) as [e|] eqn:He.
  all: first [ rewrite (get_present env (Stages.afterGap env evt w) _ e) by done
             | rewrite (get_absent env (Stages.afterGap env evt w)) by done ].
  all: cbn [fmap option_fmap option_map connIds].
  all: destruct (Js.truthy_opt (sessionKeyOf env evt w)) as [sk|].
  all: try destruct (bool_decide (0 < size (connIds e))%nat).
  all: unfold Stages.afterGap; run_world; try done.
  all: apply emitted_app; cbn; rewrite <- ?app_assoc; cbn; by rewrite ?app_nil_r.
Qed.

(** X8. Tool telemetry is dropped whenever its verbosity cannot be found:
    a tool event of a run without a verbosity of its own, whose session key
    is unknown or whose session entry cannot be loaded, makes no call and
    only records its sequence number. *)
Theorem tool_event_without_verbosity_is_dropped evt w :
  stream evt = "tool" →
  Js.truthy_opt
    (normalizeVerboseLevel env (getAgentRunContext env (runId evt) ≫= verboseLevel))
    = None →
  (Js.truthy_opt (sessionKeyOf env evt w) = None
   ∨ ∃ sk, Js.truthy_opt (sessionKeyOf env evt w) = Some sk
           ∧ loadSessionEntry env sk = None) →
  exec (createAgentEventHandler env evt) w
  = mkWorld (ticks w) (chatRunState w) (<[runId evt := seq evt]> (agentRunSeq w))
      (toolEventRecipients w) (out w).
Proof.
  intros Hstream Hrun Hsession. unfold exec. rewrite handler_suppressed; [done|].
  unfold Stages.suppressed, toolVerbose, isToolEvent. rewrite Hstream.
  rewrite (bool_decide_eq_true_2 ("tool" = "tool")) by done. cbn [andb].
  apply bool_decide_eq_true. unfold resolveToolVerboseLevel. rewrite Hrun.
  destruct Hsession as [-> | (sk & -> & ->)]; done.
Qed.

(** X9. An event that is not a tool event, for a run whose session key is
    unknown, goes to the general broadcast only, without a session key
    attached: nothing is sent to a session, no chat payload is made and the
    chat run state is left as it is, buffered text included, also on phase
    end or error, where the only further call clears the run context. *)
Theorem event_without_session evt w :
  stream evt ≠ "tool" →
  Js.truthy_opt (sessionKeyOf env evt w) = None →
  let w' := exec (createAgentEventHandler env evt) w in
  emitted w w' =
    Stages.gapReport env evt w
    ++ [broadcast "agent" (AgentPayload evt None) false]
    ++ (if isEndOrError (lifecyclePhase evt)
        then [clearAgentRunContext (runId evt)] else [])
  ∧ chatRunState w' = chatRunState w.
Proof.
  intros Hstream Hsk w'. subst w'. unfold exec.
  rewrite handler_processed by (by apply not_tool_not_suppressed).
  assert (isToolEvent evt = false) as Htool
    by (unfold isToolEvent; by rewrite bool_decide_eq_false_2).
  unfold deliver, fanOut, agentPayload. rewrite Htool, Hsk.
  unfold mbind, State_bind. unfold emit, modify. cbn [mret State_ret].
  set (w1 := set_out _ (Stages.afterGap env evt w)).
  pose proof (cleanup_run evt w1) as Hclean. unfold exec in Hclean. rewrite Hclean.
  destruct (isEndOrError (lifecyclePhase evt)).
  - destruct (markFinal_frame env (runId evt) w1) as (Hc & _ & Ho).
    unfold exec in Hc, Ho. unfold set_out at 1. cbn [chatRunState out].
    rewrite Hc, Ho. split; [|done].
    apply emitted_app. subst w1. cbn. by rewrite <- !app_assoc.
  - split; [|done]. apply emitted_app. subst w1. cbn.
    by rewrite <- ?app_assoc.
Qed.

(** X10. For a run with a known session key, an event that is no tool
    event and no lifecycle end or error, and that is not the text of a run
    that is not aborted (the run is marked aborted, or the stream is not
    the assistant stream, or the text is missing or not a string), is
    forwarded to the general broadcast and to the session and does nothing
    else: no chat payload, no change of the chat run state or of the
    recipient registry. *)
Theorem event_only_forwarded evt w sk :
  stream evt ≠ "tool" →
  Js.truthy_opt (sessionKeyOf env evt w) = Some sk →
  isEndOrError (lifecyclePhase evt) = false →
  (isAborted evt w = true ∨ stream evt ≠ "assistant"
   ∨ stringField evt "text" = None) →
  let w' := exec (createAgentEventHandler env evt) w in
  emitted w w' =
    Stages.gapReport env evt w
    ++ [broadcast "agent" (AgentPayload evt (Some sk)) false;
        nodeSendToSession sk "agent" (AgentPayload evt (Some sk))]
  ∧ chatRunState w' = chatRunState w
  ∧ toolEventRecipients w' = toolEventRecipients w.
Proof.
  intros Hstream Hsk Hend Hno w'. subst w'. unfold exec.
  rewrite handler_processed by (by apply not_tool_not_suppressed).
  assert (isToolEvent evt = false) as Htool
    by (unfold isToolEvent; by rewrite bool_decide_eq_false_2).
  unfold deliver, fanOut, sessionDelivery, cleanup, agentPayload.
  rewrite Htool, Hsk, Hend. rewrite !andb_false_r. cbn [when].
  assert ((if negb (isAborted evt w) && bool_decide (stream evt = "assistant")
           then stringField evt "text" else None) = None) as ->.
  { destruct Hno as [-> | [Hs | ->]]; [done| |by destruct (_ && _)].
    by rewrite bool_decide_eq_false_2, andb_false_r. }
  unfold Stages.afterGap. run_world. split_and!; [|done..].
  apply emitted_app. cbn. by rewrite <- !app_assoc.
Qed.

Lemma endOrError_inv evt :
  isEndOrError (lifecyclePhase evt) = true →
  stream evt = "lifecycle"
  ∧ ∃ phase, stringField evt "phase" = Some phase
             ∧ (phase = "end" ∨ phase = "error").
Proof.
  unfold isEndOrError, lifecyclePhase. intros H.
  destruct (bool_decide (stream evt = "lifecycle")) eqn:Hs;
    [|by rewrite !bool_decide_eq_false_2 in H].
  apply bool_decide_eq_true in Hs. split; [done|].
  destruct (stringField evt "phase") as [p|];
    [|by rewrite !bool_decide_eq_false_2 in H].
  exists p. split; [done|].
  apply orb_prop in H as [H|H]; apply bool_decide_eq_true in H; simplify_eq; auto.
Qed.

(** The world in which the cleanup of a finalized run starts. *)
Lemma final_world evt w phase sk :
  stream evt = "lifecycle" →
  stringField evt "phase" = Some phase →
  phase = "end" ∨ phase = "error" →
  Js.truthy_opt (sessionKeyOf env evt w) = Some sk →
  isAborted evt w = false →
  let id := clientRunIdOf evt w in
  let text := default "" (Js.trim <$> buffers (chatRunState w) !! id) in
  let stamp := clock env (ticks w + length (Stages.gapReport env evt w)) in
  let error := dataField evt "error" in
  let final :=
    ChatFinal id sk (seq evt) (if Js.truthy text then Some (text, stamp) else None) in
  let failed :=
    ChatError id sk (seq evt)
      (if Js.truthy_val error then formatForLog env <$> error else None) in
  ∃ wpre,
    exec (createAgentEventHandler env evt) w = exec (cleanup env evt) wpre
    ∧ toolEventRecipients wpre = toolEventRecipients w
    ∧ chatRunState wpre =
        mkChatRunState
          (ChatRunRegistry.shift (runId evt) (registry (chatRunState w))).2
          (delete id (buffers (chatRunState w)))
          (delete id (deltaSentAt (chatRunState w)))
          (abortedRuns (chatRunState w))
    ∧ out wpre =
        out w ++ Stages.gapReport env evt w
        ++ [broadcast "agent" (agentPayload env evt w) false;
            nodeSendToSession sk "agent" (agentPayload env evt w)]
        ++ (if bool_decide (phase = "error") then
              [broadcast "chat" failed false; nodeSendToSession sk "chat" failed]
            else
              (if shouldSuppressHeartbeatBroadcast env id then []
               else [broadcast "chat" final false])
              ++ [nodeSendToSession sk "chat" final]).
Proof.
  intros Hstream Hphase Hend Hsk Hab id text stamp error final failed.
  unfold exec at 1.
  rewrite (lifecycle_prefix env evt w phase sk) by done. rewrite Hab.
  unfold mbind at 1, State_bind at 1.
  rewrite (finalize_run env evt w phase sk) by done.
  unfold exec at 1. rewrite emitChatFinal_run. cbn [snd].
  unfold jobStateOf.
  destruct Hend as [-> | ->];
    [rewrite (bool_decide_eq_false_2 (Some "end" = Some "error")) by done
    |rewrite (bool_decide_eq_true_2 (Some "error" = Some "error")) by done];
    eexists; (split; [reflexivity|]); cbn; fold id text stamp error;
    (split; [reflexivity|]); (split; [reflexivity|]);
    rewrite <- !app_assoc; cbn; reflexivity.
Qed.

(** The world in which the cleanup of an aborted run starts. *)
Lemma aborted_world evt w phase sk :
  stream evt = "lifecycle" →
  stringField evt "phase" = Some phase →
  phase = "end" ∨ phase = "error" →
  Js.truthy_opt (sessionKeyOf env evt w) = Some sk →
  isAborted evt w = true →
  let id := clientRunIdOf evt w in
  ∃ wpre,
    exec (createAgentEventHandler env evt) w = exec (cleanup env evt) wpre
    ∧ toolEventRecipients wpre = toolEventRecipients w
    ∧ chatRunState wpre =
        mkChatRunState
          (ChatRunRegistry.shift (runId evt) (registry (chatRunState w))).2
          (delete id (buffers (chatRunState w)))
          (delete id (deltaSentAt (chatRunState w)))
          (delete (runId evt) (delete id (abortedRuns (chatRunState w))))
    ∧ out wpre =
        out w ++ Stages.gapReport env evt w
        ++ [broadcast "agent" (agentPayload env evt w) false;
            nodeSendToSession sk "agent" (agentPayload env evt w)].
Proof.
  intros Hstream Hphase Hend Hsk Hab id. unfold exec at 1.
  rewrite (lifecycle_prefix env evt w phase sk) by done. rewrite Hab.
  unfold mbind at 1 2, State_bind at 1 2.
  rewrite (purgeAborted_run env evt w sk) by done. cbn.
  eexists. split; [reflexivity|]. cbn. by rewrite <- ?app_assoc.
Qed.

(** X11. Every lifecycle event with phase end or error, whatever the
    session and whether or not the run is aborted, ends by clearing the
    context of the run, which no earlier call of the run does, after
    stamping the run's recipient entry final: afterwards the run has no
    recipient entry or one that is marked final. *)
Theorem lifecycle_end_always_cleans_up evt w :
  isEndOrError (lifecyclePhase evt) = true →
  let w' := exec (createAgentEventHandler env evt) w in
  (∃ before,
     emitted w w' = before ++ [clearAgentRunContext (runId evt)]
     ∧ clearAgentRunContext (runId evt) ∉ before)
  ∧ (toolEventRecipients w' !! runId evt = None
     ∨ ∃ e stamp, toolEventRecipients w' !! runId evt = Some e
                  ∧ finalizedAt e = Some stamp).
Proof.
  intros Hend w'.
  destruct (endOrError_inv evt Hend) as (Hstream & phase & Hphase & Hp).
  assert (∃ wpre before,
    w' = exec (cleanup env evt) wpre
    ∧ toolEventRecipients wpre = toolEventRecipients w
    ∧ out wpre = out w ++ before
    ∧ clearAgentRunContext (runId evt) ∉ before)
    as (wpre & before & Hw' & Hrec & Hout & Hnot).
  { assert (clearAgentRunContext (runId evt) ∉ Stages.gapReport env evt w) as Hgap.
    { unfold Stages.gapReport. case_bool_decide; [|by apply not_elem_of_nil].
      intros Hin%list_elem_of_singleton. discriminate. }
    destruct (Js.truthy_opt (sessionKeyOf env evt w)) as [sk|] eqn:Hsk.
    - destruct (isAborted evt w) eqn:Hab.
      + destruct (aborted_world evt w phase sk Hstream Hphase Hp Hsk Hab)
          as (wpre & H1 & H2 & _ & H4).
        eexists wpre, _. split_and!; [done | done | exact H4 |].
        rewrite elem_of_app. intros [?|Hin]; [done|].
        apply elem_of_cons in Hin as [?|Hin]; [done|].
        by apply list_elem_of_singleton in Hin.
      + destruct (final_world evt w phase sk Hstream Hphase Hp Hsk Hab)
          as (wpre & H1 & H2 & _ & H4).
        eexists wpre, _. split_and!; [done | done | exact H4 |].
        rewrite !elem_of_app. intros [?|[Hin|Hin]]; [done| |].
        * apply elem_of_cons in Hin as [?|Hin]; [done|].
          by apply list_elem_of_singleton in Hin.
        * case_bool_decide; [|destruct (shouldSuppressHeartbeatBroadcast _ _)];
            repeat (apply elem_of_cons in Hin as [?|Hin]; [done|]);
            by apply elem_of_nil in Hin.
    - assert (stream evt ≠ "tool") as Hnt by (by rewrite Hstream).
      assert (isToolEvent evt = false) as Htool
        by (unfold isToolEvent; by rewrite bool_decide_eq_false_2).
      eexists (set_out (λ o, o ++ [broadcast "agent" (agentPayload env evt w) false])
                (Stages.afterGap env evt w)), _.
      split_and!; [| done | cbn; by rewrite <- app_assoc |].
      + subst w'. unfold exec.
        rewrite handler_processed by (by apply not_tool_not_suppressed).
        unfold deliver, fanOut. rewrite Htool, Hsk.
        unfold mbind, State_bind. unfold emit, modify. by cbn [mret State_ret].
      + rewrite elem_of_app. intros [?|Hin]; [done|].
        by apply list_elem_of_singleton in Hin. }
  pose proof (cleanup_run evt wpre) as Hclean. rewrite Hend in Hclean.
  rewrite Hw', Hclean. split.
  - exists before. split; [|done]. apply emitted_app.
    destruct (markFinal_frame env (runId evt) wpre) as (_ & _ & Ho).
    cbn. by rewrite Ho, Hout, <- app_assoc.
  - cbn. unfold exec.
    destruct (toolEventRecipients wpre !! runId evt) as [e|] eqn:He.
    + rewrite (markFinal_present env _ _ _ He). cbn.
      rewrite sweep_lookup, lookup_insert_eq.
      destruct (decide _); [by left|]. right. by eexists _, _.
    + rewrite (markFinal_absent env _ _ He). by left.
Qed.

Ltac pick_disjunct :=
  solve [reflexivity | left; pick_disjunct | right; pick_disjunct].

(** X12. Buffered text is not lost by the throttle: when the text of a run
    is followed by the end of the run, the final payload sent to the
    session carries that text, trimmed, whether or not its delta was
    delivered, and the buffer of the run is empty afterwards. *)
Theorem buffered_text_reaches_final evt1 evt2 w text sk :
  stream evt1 = "assistant" →
  stringField evt1 "text" = Some text →
  stream evt2 = "lifecycle" →
  stringField evt2 "phase" = Some "end" →
  runId evt2 = runId evt1 →
  Js.truthy_opt (sessionKeyOf env evt1 w) = Some sk →
  isAborted evt1 w = false →
  let id := clientRunIdOf evt1 w in
  let w1 := exec (createAgentEventHandler env evt1) w in
  let w2 := exec (createAgentEventHandler env evt2) w1 in
  ∃ stamp,
    nodeSendToSession sk "chat"
      (ChatFinal id sk (seq evt2)
         (if Js.truthy (Js.trim text) then Some (Js.trim text, stamp) else None))
      ∈ emitted w1 w2
    ∧ buffers (chatRunState w2) !! id = None.
Proof.
  intros Hs1 Htext Hs2 Hphase Hrun Hsk Hab id w1 w2.
  assert (registry (chatRunState w1) = registry (chatRunState w)
          ∧ abortedRuns (chatRunState w1) = abortedRuns (chatRunState w)
          ∧ buffers (chatRunState w1) = <[id := text]> (buffers (chatRunState w)))
    as (Hreg & Habr & Hbuf).
  { subst w1. unfold exec. rewrite (handler_assistant env evt1 w text sk) by done.
    rewrite emitChatDelta_run. cbn. by case_bool_decide. }
  assert (chatLink evt2 w1 = chatLink evt1 w) as Hlink
    by (unfold chatLink; by rewrite Hrun, Hreg).
  assert (clientRunIdOf evt2 w1 = id) as Hid
    by (subst id; unfold clientRunIdOf; by rewrite Hlink, Hrun).
  assert (Js.truthy_opt (sessionKeyOf env evt2 w1) = Some sk) as Hsk2
    by (rewrite <- Hsk; unfold sessionKeyOf; by rewrite Hlink, Hrun).
  assert (isAborted evt2 w1 = false) as Hab2
    by (rewrite <- Hab; unfold isAborted; by rewrite Hid, Habr, Hrun).
  destruct (final_world evt2 w1 "end" sk Hs2 Hphase (or_introl eq_refl) Hsk2 Hab2)
    as (wpre & Hw2 & _ & Hcrs & Hout).
  fold w2 in Hw2. rewrite Hid, Hbuf, lookup_insert_eq in Hout. cbn in Hout.
  rewrite (bool_decide_eq_false_2 ("end" = "error")) in Hout by done.
  destruct (cleanup_end env evt2 wpre) as (Hc & _ & Ho).
  { apply (lifecycle_end evt2 "end"); auto. }
  rewrite <- Hw2 in Hc, Ho.
  exists (clock env (ticks w1 + length (Stages.gapReport env evt2 w1))). split.
  - erewrite emitted_app; [|rewrite Ho, Hout; rewrite <- ?app_assoc; reflexivity].
    rewrite !elem_of_app, !elem_of_cons, !elem_of_app, list_elem_of_singleton.
    pick_disjunct.
  - rewrite Hc, Hcrs. cbn. rewrite Hid. apply lookup_delete_eq.
Qed.

Lemma handler_in_sequence_quiet evt w :
  seq evt = (lastSeq evt w + 1)%Z →
  ∃ l, out (exec (createAgentEventHandler env evt) w) = out w ++ l
       ∧ seqGaps l = [].
Proof.
  intros Hseq. unfold exec. destruct (Stages.suppressed env evt w) eqn:Hs.
  - rewrite handler_suppressed by done. exists []. by rewrite app_nil_r.
  - rewrite handler_processed by done.
    destruct (quiet_deliver_payloads env evt w (Stages.afterGap env evt w))
      as (_ & l & Hl & Hg).
    exists l. split; [|done]. rewrite Hl. cbn. unfold Stages.gapReport.
    rewrite bool_decide_eq_false_2 by (intros ?; done). by rewrite app_nil_r.
Qed.

Lemma handleAll_consecutive evts : ∀ w run,
  Extras.consecutive run (default 0%Z (agentRunSeq w !! run)) evts →
  ∃ l, out (exec (Extras.handleAll env evts) w) = out w ++ l ∧ seqGaps l = [].
Proof.
  induction evts as [|evt evts IH]; intros w run Hc.
  - exists []. by rewrite app_nil_r.
  - destruct Hc as (Hrun & Hseq & Hrest).
    destruct (handler_in_sequence_quiet evt w) as (l1 & H1 & G1).
    { unfold lastSeq. by rewrite Hrun. }
    destruct (IH (exec (createAgentEventHandler env evt) w) run) as (l2 & H2 & G2).
    { pose proof (handler_records_seq env evt w) as Hrec. rewrite Hrun in Hrec.
      by rewrite Hrec. }
    exists (l1 ++ l2). split.
    + unfold exec in *. cbn [Extras.handleAll]. unfold mbind, State_bind.
      destruct (createAgentEventHandler env evt w) as [[] w1]. cbn in *.
      by rewrite H2, H1, <- app_assoc.
    + unfold seqGaps in *. by rewrite filter_app, G1, G2.
Qed.

(** X13. A stream of events of one run whose sequence numbers count up by
    one from the number recorded for the run (0 when none) never produces a
    seq-gap report, whatever the streams and contents of the events. *)
Theorem consecutive_events_report_no_gap evts w run :
  Extras.consecutive run (default 0%Z (agentRunSeq w !! run)) evts →
  seqGaps (emitted w (exec (Extras.handleAll env evts) w)) = [].
Proof.
  intros Hc. destruct (handleAll_consecutive evts w run Hc) as (l & Hl & Hg).
  by rewrite (emitted_app _ _ _ Hl).
Qed.

Lemma fanOut_chat evt tp ap w1 :
  chatRunState (exec (fanOut env evt tp ap) w1) = chatRunState w1.
Proof.
  unfold exec, fanOut. destruct (isToolEvent evt); [|done].
  unfold mbind, State_bind.
  destruct (get_frame env (runId evt) w1) as (Hc & _).
  unfold exec in Hc.
  destruct (ToolEventRecipientRegistry.get env (runId evt) w1) as [[conns|] w2];
    cbn in *; [|done].
  by destruct (bool_decide _).
Qed.

Lemma cleanup_chat evt w1 :
  chatRunState (exec (cleanup env evt) w1) = chatRunState w1.
Proof.
  rewrite cleanup_run. destruct (isEndOrError _); [|done].
  by destruct (markFinal_frame env (runId evt) w1) as (Hc & _).
Qed.

Lemma sessionDelivery_chat evt w sk p w1 :
  Js.truthy_opt (sessionKeyOf env evt w) = Some sk →
  chatRunState w1 = chatRunState w →
  Extras.chatStep (runId evt) (clientRunIdOf evt w) (chatRunState w)
    (chatRunState
       (exec (sessionDelivery env evt sk (chatLink evt w) (clientRunIdOf evt w)
                (isAborted evt w) p) w1)).
Proof.
  intros Hsk Hcrs. unfold exec, sessionDelivery.
  unfold mbind at 1, State_bind at 1. unfold emit at 1, modify at 1.
  set (w2 := set_out _ w1).
  assert (chatRunState w2 = chatRunState w) as Hcrs2 by done.
  clearbody w2.
  destruct (if negb (isAborted evt w) && bool_decide (stream evt = "assistant")
            then stringField evt "text" else None) as [text|] eqn:Htext.
  - unfold mbind, State_bind. rewrite emitChatDelta_run. cbv zeta. cbn [snd fst].
    unfold mret, State_ret. cbn [snd]. rewrite Hcrs2.
    destruct (bool_decide (_ < 150)%Z); cbn [chatRunState];
      [right; left; by eexists|right; right; left; by eexists _, _].
  - destruct (isEndOrError (lifecyclePhase evt)) eqn:Hend;
      [|rewrite !andb_false_r; by left].
    destruct (endOrError_inv evt Hend) as (Hstream & phase & Hphase & Hp).
    rewrite !andb_true_r. right. right. right.
    destruct (isAborted evt w); cbn [negb].
    + unfold mbind, State_bind.
      rewrite (purgeAborted_run env evt w sk) by done. cbn.
      eexists. split; [right; reflexivity|done].
    + rewrite (finalize_run env evt w phase sk) by done. cbn [snd].
      unfold exec. rewrite emitChatFinal_run. cbn [snd].
      eexists. split; [left; reflexivity|].
      destruct (jobStateOf (Some phase)); cbn; by rewrite Hcrs2.
Qed.

Lemma handler_chatStep evt w :
  Extras.chatStep (runId evt) (clientRunIdOf evt w) (chatRunState w)
    (chatRunState (exec (createAgentEventHandler env evt) w)).
Proof.
  unfold exec. destruct (Stages.suppressed env evt w) eqn:Hs.
  - rewrite handler_suppressed by done. by left.
  - rewrite handler_processed by done. unfold deliver.
    unfold mbind at 1, State_bind at 1.
    pose proof (fanOut_chat evt (toolPayload env evt w) (agentPayload env evt w)
                  (Stages.afterGap env evt w)) as Hfan.
    unfold exec in Hfan. destruct (fanOut _ _ _ _ _) as [[] w1]. cbn in Hfan.
    unfold mbind, State_bind.
    destruct (Js.truthy_opt (sessionKeyOf env evt w)) as [sk|] eqn:Hsk.
    + pose proof (sessionDelivery_chat evt w sk
                    (if isToolEvent evt then toolPayload env evt w
                     else agentPayload env evt w) w1 Hsk Hfan) as Hstep.
      unfold exec in Hstep. destruct (sessionDelivery _ _ _ _ _ _ _ _) as [r w2].
      cbn in Hstep. destruct r; [done|].
      pose proof (cleanup_chat evt w2) as Hc. unfold exec in Hc. by rewrite Hc.
    + cbn. pose proof (cleanup_chat evt w1) as Hc. unfold exec in Hc.
      rewrite Hc, Hfan. by left.
Qed.

(** X14. One event only touches the chat state of its own run: buffered
    text and delta times of every other client run id are kept, queues of
    other runs are kept and the queue of the run is either kept or loses
    its head, no abort marker is added or changed and only those of the run
    and of its client run id can be dropped, and the recorded sequence
    numbers of other runs are kept. *)
Theorem handler_touches_own_run_only evt w :
  let id := clientRunIdOf evt w in
  let w' := exec (createAgentEventHandler env evt) w in
  let s := chatRunState w in
  let s' := chatRunState w' in
  (∀ k, k ≠ id →
     buffers s' !! k = buffers s !! k ∧ deltaSentAt s' !! k = deltaSentAt s !! k)
  ∧ (∀ sid, sid ≠ runId evt → registry s' !! sid = registry s !! sid)
  ∧ (registry s' = registry s
     ∨ registry s' = (ChatRunRegistry.shift (runId evt) (registry s)).2)
  ∧ (∀ k v, abortedRuns s' !! k = Some v → abortedRuns s !! k = Some v)
  ∧ (∀ k, k ≠ id → k ≠ runId evt → abortedRuns s' !! k = abortedRuns s !! k)
  ∧ (∀ run, run ≠ runId evt → agentRunSeq w' !! run = agentRunSeq w !! run).
Proof.
  intros id w' s s'.
  assert (∀ sid, sid ≠ runId evt →
            (ChatRunRegistry.shift (runId evt) (registry s)).2 !! sid
            = registry s !! sid) as Hshift.
  { intros sid Hsid. unfold ChatRunRegistry.shift.
    destruct (registry s !! runId evt) as [[|e q]|]; cbn; [done| |done].
    by apply store_other. }
  assert (agentRunSeq w' = <[runId evt := seq evt]> (agentRunSeq w)) as Hseq.
  { subst w'. unfold exec. destruct (Stages.suppressed env evt w) eqn:Hs.
    - by rewrite handler_suppressed by done.
    - rewrite handler_processed by done.
      by destruct (quiet_deliver_payloads env evt w (Stages.afterGap env evt w))
        as (-> & _). }
  pose proof (handler_chatStep evt w) as Hstep. fold w' id s s' in Hstep.
  split_and!; [..|intros run Hrun; by rewrite Hseq, lookup_insert_ne].
  all: destruct Hstep as [->|[(t & ->)|[(t & now & ->)|(a & Ha & ->)]]]; cbn.
  all: try done.
  all: try (intros k Hk; by rewrite ?lookup_insert_ne, ?lookup_delete_ne by done).
  all: try (by left).
  all: try (by right).
  - intros k v. destruct Ha as [-> | ->]; [done|].
    intros Hv. apply lookup_delete_Some in Hv as (_ & Hv).
    by apply lookup_delete_Some in Hv as (_ & Hv).
  - intros k Hk Hr. destruct Ha as [-> | ->]; [done|].
    by rewrite !lookup_delete_ne.
Qed.

Lemma mirrored_app l1 l2 :
  Extras.mirrored l1 → Extras.mirrored l2 → Extras.mirrored (l1 ++ l2).
Proof.
  intros H1 H2 p d Hin. apply elem_of_app in Hin as [Hin | Hin].
  - destruct (H1 p d Hin) as (sk & Hsk). exists sk. apply elem_of_app. auto.
  - destruct (H2 p d Hin) as (sk & Hsk). exists sk. apply elem_of_app. auto.
Qed.

Lemma mirrored_no_chat l : chat l = [] → Extras.mirrored l.
Proof.
  intros Hchat p d Hin.
  assert (broadcast "chat" p d ∈ chat l) as Hc
    by (unfold chat; apply list_elem_of_filter; by split).
  rewrite Hchat in Hc. by apply elem_of_nil in Hc.
Qed.

Lemma mirrored_nil : Extras.mirrored [].
Proof. intros p d Hin. by apply elem_of_nil in Hin. Qed.

Lemma orderly_ret {A} (a : A) : Extras.orderly (mret a).
Proof.
  intros w. exists []. split; [by rewrite app_nil_r|apply mirrored_nil].
Qed.

Lemma orderly_bind {A B} (m : M A) (k : A → M B) :
  Extras.orderly m → (∀ a, Extras.orderly (k a)) → Extras.orderly (m ≫= k).
Proof.
  intros Hm Hk w. unfold mbind, State_bind.
  destruct (Hm w) as (l1 & H1 & G1). destruct (m w) as [a w1]. cbn in *.
  destruct (Hk a w1) as (l2 & H2 & G2).
  exists (l1 ++ l2). rewrite H2, H1, <- app_assoc. split; [done|].
  by apply mirrored_app.
Qed.

Lemma orderly_silent {A} (m : M A) :
  (∀ w, out (m w).2 = out w) → Extras.orderly m.
Proof.
  intros H w. exists []. split; [by rewrite H, app_nil_r|apply mirrored_nil].
Qed.

Lemma orderly_emit e : eventOf e ≠ Some "chat" → Extras.orderly (emit e).
Proof.
  intros He w. exists [e]. split; [done|]. apply mirrored_no_chat.
  unfold chat. by rewrite filter_cons_False.
Qed.

Lemma orderly_when b (m : M unit) : Extras.orderly m → Extras.orderly (when b m).
Proof. destruct b; [done|]. intros _. apply orderly_ret. Qed.

Lemma orderly_get run : Extras.orderly (ToolEventRecipientRegistry.get env run).
Proof. apply orderly_silent. intros w. apply get_frame. Qed.

Lemma orderly_markFinal run :
  Extras.orderly (ToolEventRecipientRegistry.markFinal env run).
Proof. apply orderly_silent. intros w. apply markFinal_frame. Qed.

Lemma orderly_registryShift sid : Extras.orderly (registryShift sid).
Proof.
  apply orderly_silent. intros w. unfold registryShift.
  by destruct (ChatRunRegistry.shift _ _).
Qed.

Lemma orderly_purgeAborted evt sk link id :
  Extras.orderly (purgeAborted evt sk link id).
Proof.
  apply orderly_silent. intros w. unfold purgeAborted, registryRemove.
  destruct link; run_world; [|done].
  by destruct (ChatRunRegistry.remove _ _ _ _).
Qed.

Lemma mirrored_pair (suppress : bool) sk p d :
  Extras.mirrored
    ((if suppress then [] else [broadcast "chat" p d])
     ++ [nodeSendToSession sk "chat" p]).
Proof.
  intros p' d' Hin. exists sk.
  destruct suppress; cbn in Hin.
  - apply list_elem_of_singleton in Hin. done.
  - apply elem_of_cons in Hin as [Hin | Hin];
      [|apply list_elem_of_singleton in Hin; done].
    simplify_eq. cbn. apply elem_of_cons. right. by apply list_elem_of_singleton.
Qed.

Lemma orderly_emitChatDelta sk id sq text :
  Extras.orderly (emitChatDelta env sk id sq text).
Proof.
  intros w. rewrite emitChatDelta_run. cbv zeta. cbn [snd].
  destruct (bool_decide _); cbn [out].
  - exists []. split; [by rewrite app_nil_r|apply mirrored_nil].
  - eexists. split; [reflexivity|]. apply mirrored_pair.
Qed.

Lemma orderly_emitChatFinal sk id sq job err :
  Extras.orderly (emitChatFinal env sk id sq job err).
Proof.
  intros w. rewrite emitChatFinal_run. cbv zeta. cbn [snd].
  destruct job; cbn [out]; (eexists; split; [reflexivity|]).
  - apply mirrored_pair.
  - apply (mirrored_pair false).
Qed.

Lemma orderly_deliver evt link sko id aborted tp ap :
  Extras.orderly (deliver env evt link sko id aborted tp ap).
Proof.
  pose proof orderly_emitChatDelta. pose proof orderly_emitChatFinal.
  pose proof orderly_purgeAborted. pose proof orderly_get.
  pose proof orderly_markFinal. pose proof orderly_registryShift.
  unfold deliver, fanOut, sessionDelivery, finalize, cleanup.
  repeat first
    [ solve [auto]
    | apply orderly_ret
    | apply orderly_emit; cbn; discriminate
    | apply orderly_when
    | match goal with
      | |- Extras.orderly (if ?b then _ else _) => destruct b
      | |- Extras.orderly (match ?x with _ => _ end) => destruct x
      end
    | apply orderly_bind; [|intros ?] ].
Qed.

(** X20. The handler never puts a chat payload on the general broadcast
    without sending the same payload to a session: whatever the event and
    the state, every chat broadcast of a run of the handler has its session
    send in the same run. *)
Theorem chat_broadcasts_are_mirrored evt w :
  Extras.mirrored (emitted w (exec (createAgentEventHandler env evt) w)).
Proof.
  unfold exec. destruct (Stages.suppressed env evt w) eqn:Hs.
  - rewrite handler_suppressed by done.
    rewrite (emitted_app w _ []) by (by rewrite app_nil_r).
    apply mirrored_nil.
  - rewrite handler_processed by done.
    destruct (orderly_deliver evt (chatLink evt w) (sessionKeyOf env evt w)
                (clientRunIdOf evt w) (isAborted evt w) (toolPayload env evt w)
                (agentPayload env evt w) (Stages.afterGap env evt w))
      as (l & Hl & Hm).
    rewrite (emitted_app w _ (Stages.gapReport env evt w ++ l))
      by (rewrite Hl; cbn; by rewrite <- app_assoc).
    apply mirrored_app; [|done].
    apply mirrored_no_chat, chat_gapReport.
Qed.

Lemma covered_app l1 l2 :
  Extras.covered l1 → Extras.covered l2 → Extras.covered (l1 ++ l2).
Proof.
  intros H1 H2 sk p Hin. apply elem_of_app in Hin as [Hin | Hin].
  - destruct (H1 sk p Hin) as (d & Hd). exists d. apply elem_of_app. auto.
  - destruct (H2 sk p Hin) as (d & Hd). exists d. apply elem_of_app. auto.
Qed.

Lemma covered_no_chat l : chat l = [] → Extras.covered l.
Proof.
  intros Hchat sk p Hin.
  assert (nodeSendToSession sk "chat" p ∈ chat l) as Hc
    by (unfold chat; apply list_elem_of_filter; by split).
  rewrite Hchat in Hc. by apply elem_of_nil in Hc.
Qed.

Lemma covered_pair sk p d :
  Extras.covered [broadcast "chat" p d; nodeSendToSession sk "chat" p].
Proof.
  intros sk' p' Hin. exists d.
  apply elem_of_cons in Hin as [Hin | Hin]; [done|].
  apply list_elem_of_singleton in Hin. simplify_eq. apply elem_of_cons. by left.
Qed.

Lemma fanOut_no_chat evt tp ap w1 :
  ∃ l, out (exec (fanOut env evt tp ap) w1) = out w1 ++ l ∧ chat l = [].
Proof.
  unfold exec, fanOut. destruct (isToolEvent evt); [|by eexists [_]].
  unfold mbind, State_bind.
  destruct (get_frame env (runId evt) w1) as (_ & _ & Ho).
  unfold exec in Ho.
  destruct (ToolEventRecipientRegistry.get env (runId evt) w1) as [[conns|] w2];
    cbn in *; [|exists []; by rewrite app_nil_r].
  destruct (bool_decide _); cbn; rewrite Ho;
    [by eexists [_]|exists []; by rewrite app_nil_r].
Qed.

Lemma cleanup_no_chat evt w1 :
  ∃ l, out (exec (cleanup env evt) w1) = out w1 ++ l ∧ chat l = [].
Proof.
  rewrite cleanup_run. destruct (isEndOrError _);
    [|exists []; by rewrite app_nil_r].
  destruct (markFinal_frame env (runId evt) w1) as (_ & _ & Ho).
  cbn. rewrite Ho. by eexists [_].
Qed.

Lemma sessionDelivery_covered evt w sk p w1 :
  Js.truthy_opt (sessionKeyOf env evt w) = Some sk →
  chatRunState w1 = chatRunState w →
  shouldSuppressHeartbeatBroadcast env (clientRunIdOf evt w) = false →
  ∃ l,
    out (exec (sessionDelivery env evt sk (chatLink evt w) (clientRunIdOf evt w)
                 (isAborted evt w) p) w1)
    = out w1 ++ l
    ∧ Extras.covered l.
Proof.
  intros Hsk Hcrs Hshow. unfold exec, sessionDelivery.
  unfold mbind at 1, State_bind at 1. unfold emit at 1, modify at 1.
  set (w2 := set_out _ w1).
  assert (chatRunState w2 = chatRunState w) as Hcrs2 by done.
  assert (out w2 = out w1 ++ [nodeSendToSession sk "agent" p]) as Hout2 by done.
  clearbody w2.
  assert (∀ o l, o = out w2 ++ l → Extras.covered l →
            ∃ l', o = out w1 ++ l' ∧ Extras.covered l') as Hclose.
  { intros o l Ho Hl. exists ([nodeSendToSession sk "agent" p] ++ l). split.
    - by rewrite Ho, Hout2, <- app_assoc.
    - apply covered_app; [|done]. apply covered_no_chat.
      unfold chat. by rewrite filter_cons_False. }
  destruct (if negb (isAborted evt w) && bool_decide (stream evt = "assistant")
            then stringField evt "text" else None) as [text|] eqn:Htext.
  - unfold mbind, State_bind. rewrite emitChatDelta_run. cbv zeta. cbn [snd fst].
    unfold mret, State_ret. cbn [snd]. rewrite Hshow.
    destruct (bool_decide (_ < 150)%Z); cbn [out].
    + apply (Hclose _ []); [by rewrite app_nil_r|].
      by apply covered_no_chat.
    + eapply Hclose; [reflexivity|]. apply covered_pair.
  - destruct (isEndOrError (lifecyclePhase evt)) eqn:Hend.
    2: { rewrite !andb_false_r. cbn. apply (Hclose _ []); [by rewrite app_nil_r|].
         by apply covered_no_chat. }
    destruct (endOrError_inv evt Hend) as (Hstream & phase & Hphase & Hp).
    rewrite !andb_true_r.
    destruct (isAborted evt w); cbn [negb].
    + unfold mbind, State_bind.
      rewrite (purgeAborted_run env evt w sk) by done. cbn.
      apply (Hclose _ []); [by rewrite app_nil_r|]. by apply covered_no_chat.
    + rewrite (finalize_run env evt w phase sk) by done. cbn [snd].
      unfold exec. rewrite emitChatFinal_run. cbn [snd]. rewrite Hshow.
      destruct (jobStateOf (Some phase)); cbn [out set_chatRunState];
        (eapply Hclose; [reflexivity|]); apply covered_pair.
Qed.

(** X22. Suppression of heartbeat broadcasts is the only reason for a chat
    payload to reach a session without being broadcast: when the client
    run of the event is not a suppressed heartbeat, every chat payload the
    handler sends to a session is also on the general broadcast. *)
Theorem chat_sends_are_broadcast evt w :
  shouldSuppressHeartbeatBroadcast env (clientRunIdOf evt w) = false →
  Extras.covered (emitted w (exec (createAgentEventHandler env evt) w)).
Proof.
  intros Hshow. unfold exec. destruct (Stages.suppressed env evt w) eqn:Hs.
  - rewrite handler_suppressed by done.
    rewrite (emitted_app w _ []) by (by rewrite app_nil_r).
    by apply covered_no_chat.
  - rewrite handler_processed by done. unfold deliver.
    unfold mbind at 1, State_bind at 1.
    pose proof (fanOut_chat evt (toolPayload env evt w) (agentPayload env evt w)
                  (Stages.afterGap env evt w)) as Hfan.
    destruct (fanOut_no_chat evt (toolPayload env evt w) (agentPayload env evt w)
                (Stages.afterGap env evt w)) as (l1 & Hl1 & Hc1).
    unfold exec in Hfan, Hl1. destruct (fanOut _ _ _ _ _) as [[] w1].
    cbn in Hfan, Hl1. unfold mbind, State_bind.
    assert (∃ l2 w2 (returned : bool),
              match Js.truthy_opt (sessionKeyOf env evt w) with
              | Some sk =>
                  sessionDelivery env evt sk (chatLink evt w) (clientRunIdOf evt w)
                    (isAborted evt w)
                    (if isToolEvent evt then toolPayload env evt w
                     else agentPayload env evt w)
              | None => mret false
              end w1 = (returned, w2)
              ∧ out w2 = out w1 ++ l2 ∧ Extras.covered l2)
      as (l2 & w2 & returned & -> & Hl2 & Hc2).
    { destruct (Js.truthy_opt (sessionKeyOf env evt w)) as [sk|] eqn:Hsk.
      - destruct (sessionDelivery_covered evt w sk
                    (if isToolEvent evt then toolPayload env evt w
                     else agentPayload env evt w) w1 Hsk Hfan Hshow)
          as (l2 & Hl2 & Hc2).
        unfold exec in Hl2.
        destruct (sessionDelivery _ _ _ _ _ _ _ _) as [r w2].
        by exists l2, w2, r.
      - exists [], w1, false. split_and!; [done|by rewrite app_nil_r|].
        by apply covered_no_chat. }
    destruct (cleanup_no_chat evt w2) as (l3 & Hl3 & Hc3). unfold exec in Hl3.
    destruct returned.
    + cbn. rewrite (emitted_app w _ (Stages.gapReport env evt w ++ l1 ++ l2))
        by (rewrite Hl2, Hl1; cbn; by rewrite <- !app_assoc).
      repeat apply covered_app; try done; apply covered_no_chat;
        [apply chat_gapReport|done].
    + rewrite (emitted_app w _ (Stages.gapReport env evt w ++ l1 ++ l2 ++ l3))
        by (rewrite Hl3, Hl2, Hl1; cbn; by rewrite <- !app_assoc).
      repeat apply covered_app; try done; apply covered_no_chat;
        [apply chat_gapReport|done|done].
Qed.

End AgentEventHandlerMore.

Lemma tool_event_delivery_example :
  let env := Extras.verboseEnv [1000; 1000]%Z Sample.mainSession "on" in
  let evt := HandlerSamples.tool 1 in
  let e := mkToolRecipientEntry {["conn-1"]} 500 None in
  let w := mkWorld 0 Sample.emptyState ∅ {[ "run-1" := e ]} [] in
  let w' := exec (AgentEventHandler.createAgentEventHandler env evt) w in
  let copy := AgentPayload (mkAgentEvent "run-1" 1 "tool" (Some ∅)) (Some "main") in
  stream evt = "tool"
  ∧ AgentEventHandler.resolveToolVerboseLevel env (runId evt)
      (AgentEventHandler.sessionKeyOf env evt w) ≠ "off"
  ∧ Calls.emitted w w'
    = [broadcastToConnIds "agent" copy {["conn-1"]};
       nodeSendToSession "main" "agent" copy].
Proof.
  intros env evt e w w' copy.
  assert (stream evt = "tool") as H1 by reflexivity.
  assert (AgentEventHandler.resolveToolVerboseLevel env (runId evt)
            (AgentEventHandler.sessionKeyOf env evt w) ≠ "off") as H2
    by (vm_compute; discriminate).
  destruct (tool_event_delivery env evt w H1 H2) as (Hout & _).
  split_and!; [exact H1 | exact H2 |].
  etrans; [exact Hout | vm_compute; reflexivity].
Defined.

Lemma tool_event_without_verbosity_is_dropped_example :
  let env := Sample.env [1000]%Z Sample.noSession in
  let evt := HandlerSamples.tool 7 in
  let w := Sample.start in
  stream evt = "tool"
  ∧ Js.truthy_opt (AgentEventHandler.sessionKeyOf env evt w) = None
  ∧ exec (AgentEventHandler.createAgentEventHandler env evt) w
    = mkWorld 0 Sample.emptyState {[ "run-1" := 7%Z ]} ∅ [].
Proof.
  intros env evt w.
  assert (stream evt = "tool") as H1 by reflexivity.
  assert (Js.truthy_opt (AgentEventHandler.sessionKeyOf env evt w) = None) as H2
    by reflexivity.
  split_and!; [exact H1 | exact H2 |].
  etrans;
    [exact (tool_event_without_verbosity_is_dropped env evt w H1 eq_refl
              (or_introl H2))
    |vm_compute; reflexivity].
Defined.

Lemma event_without_session_example :
  let env := Sample.env [1000]%Z Sample.noSession in
  let evt := HandlerSamples.lifecycle 1 "end" in
  let w :=
    mkWorld 0 (mkChatRunState ∅ {[ "run-1" := "Hello" ]} ∅ ∅) ∅ ∅ [] in
  let w' := exec (AgentEventHandler.createAgentEventHandler env evt) w in
  stream evt ≠ "tool"
  ∧ Js.truthy_opt (AgentEventHandler.sessionKeyOf env evt w) = None
  ∧ Calls.emitted w w'
    = [broadcast "agent" (AgentPayload evt None) false;
       clearAgentRunContext "run-1"]
  ∧ buffers (chatRunState w') = {[ "run-1" := "Hello" ]}.
Proof.
  intros env evt w w'.
  assert (stream evt ≠ "tool") as H1 by discriminate.
  assert (Js.truthy_opt (AgentEventHandler.sessionKeyOf env evt w) = None) as H2
    by reflexivity.
  destruct (event_without_session env evt w H1 H2) as (Hout & Hcrs).
  split_and!; [exact H1 | exact H2 | |].
  - etrans; [exact Hout | vm_compute; reflexivity].
  - etrans; [exact (f_equal buffers Hcrs) | reflexivity].
Defined.

Lemma event_only_forwarded_example :
  let env := Sample.env [1000]%Z Sample.mainSession in
  let evt := HandlerSamples.assistant 1 "Hello" in
  let w := HandlerSamples.linked ∅ {[ "client-1" := 900%Z ]} in
  let w' := exec (AgentEventHandler.createAgentEventHandler env evt) w in
  stream evt ≠ "tool"
  ∧ Js.truthy_opt (AgentEventHandler.sessionKeyOf env evt w) = Some "main"
  ∧ AgentEventHandler.isEndOrError (AgentEventHandler.lifecyclePhase evt) = false
  ∧ AgentEventHandler.isAborted evt w = true
  ∧ Calls.emitted w w'
    = [broadcast "agent" (AgentPayload evt (Some "main")) false;
       nodeSendToSession "main" "agent" (AgentPayload evt (Some "main"))]
  ∧ chatRunState w' = chatRunState w.
Proof.
  intros env evt w w'.
  assert (stream evt ≠ "tool") as H1 by discriminate.
  assert (Js.truthy_opt (AgentEventHandler.sessionKeyOf env evt w) = Some "main")
    as H2 by reflexivity.
  assert (AgentEventHandler.isEndOrError (AgentEventHandler.lifecyclePhase evt)
          = false) as H3 by reflexivity.
  assert (AgentEventHandler.isAborted evt w = true) as H4 by reflexivity.
  destruct (event_only_forwarded env evt w "main" H1 H2 H3 (or_introl H4))
    as (Hout & Hcrs & _).
  split_and!; [exact H1 | exact H2 | exact H3 | exact H4 | | exact Hcrs].
  etrans; [exact Hout | vm_compute; reflexivity].
Defined.

Lemma lifecycle_end_always_cleans_up_example :
  let env := Sample.env [1000; 1000]%Z Sample.mainSession in
  let evt := HandlerSamples.lifecycle 1 "error" in
  let e := mkToolRecipientEntry {["conn-1"]} 500 None in
  let w := mkWorld 0 Sample.emptyState ∅ {[ "run-1" := e ]} [] in
  let w' := exec (AgentEventHandler.createAgentEventHandler env evt) w in
  AgentEventHandler.isEndOrError (AgentEventHandler.lifecyclePhase evt) = true
  ∧ (∃ before,
       Calls.emitted w w' = before ++ [clearAgentRunContext "run-1"]
       ∧ clearAgentRunContext "run-1" ∉ before)
  ∧ toolEventRecipients w' !! "run-1"
    = Some (mkToolRecipientEntry {["conn-1"]} 500 (Some 1000%Z)).
Proof.
  intros env evt e w w'.
  assert (AgentEventHandler.isEndOrError (AgentEventHandler.lifecyclePhase evt)
          = true) as H1 by reflexivity.
  destruct (lifecycle_end_always_cleans_up env evt w H1) as (Hlast & _).
  split_and!; [exact H1 | exact Hlast | vm_compute; reflexivity].
Defined.

Lemma buffered_text_reaches_final_example :
  let env := Sample.env [1000; 1100; 1200]%Z Sample.mainSession in
  let evt1 := HandlerSamples.assistant 1 "Hello " in
  let evt2 := HandlerSamples.lifecycle 2 "end" in
  let w := exec (AgentEventHandler.createAgentEventHandler env
                   (HandlerSamples.assistant 0 "Hel")) Sample.start in
  let w1 := exec (AgentEventHandler.createAgentEventHandler env evt1) w in
  let w2 := exec (AgentEventHandler.createAgentEventHandler env evt2) w1 in
  stream evt1 = "assistant"
  ∧ AgentEventHandler.stringField evt1 "text" = Some "Hello "
  ∧ stream evt2 = "lifecycle"
  ∧ AgentEventHandler.stringField evt2 "phase" = Some "end"
  ∧ runId evt2 = runId evt1
  ∧ Js.truthy_opt (AgentEventHandler.sessionKeyOf env evt1 w) = Some "main"
  ∧ AgentEventHandler.isAborted evt1 w = false
  ∧ Calls.chat (Calls.emitted w w1) = []
  ∧ ∃ stamp,
      nodeSendToSession "main" "chat"
        (ChatFinal "run-1" "main" 2 (Some ("Hello", stamp)))
        ∈ Calls.emitted w1 w2
      ∧ buffers (chatRunState w2) !! "run-1" = None.
Proof.
  intros env evt1 evt2 w w1 w2.
  assert (stream evt1 = "assistant") as H1 by reflexivity.
  assert (AgentEventHandler.stringField evt1 "text" = Some "Hello ") as H2
    by reflexivity.
  assert (stream evt2 = "lifecycle") as H3 by reflexivity.
  assert (AgentEventHandler.stringField evt2 "phase" = Some "end") as H4
    by reflexivity.
  assert (runId evt2 = runId evt1) as H5 by reflexivity.
  assert (Js.truthy_opt (AgentEventHandler.sessionKeyOf env evt1 w) = Some "main")
    as H6 by reflexivity.
  assert (AgentEventHandler.isAborted evt1 w = false) as H7 by reflexivity.
  split_and!;
    [exact H1 | exact H2 | exact H3 | exact H4 | exact H5 | exact H6 | exact H7
    |vm_compute; reflexivity|].
  exact (buffered_text_reaches_final env evt1 evt2 w "Hello " "main"
           H1 H2 H3 H4 H5 H6 H7).
Defined.

Lemma consecutive_events_report_no_gap_example :
  let env := Sample.env [1000; 1100; 1200]%Z Sample.mainSession in
  let evts :=
    [HandlerSamples.assistant 1 "Hello"; HandlerSamples.tool 2;
     HandlerSamples.lifecycle 3 "end"] in
  let w := Sample.start in
  Extras.consecutive "run-1" (default 0%Z (agentRunSeq w !! "run-1")) evts
  ∧ Calls.seqGaps (Calls.emitted w (exec (Extras.handleAll env evts) w)) = [].
Proof.
  intros env evts w.
  assert (Extras.consecutive "run-1" (default 0%Z (agentRunSeq w !! "run-1")) evts)
    as H1 by (vm_compute; repeat split).
  split; [exact H1|].
  exact (consecutive_events_report_no_gap env evts w "run-1" H1).
Defined.

Lemma chat_sends_are_broadcast_example :
  let env := Sample.env [1000]%Z Sample.mainSession in
  let evt := HandlerSamples.assistant 1 "Hello" in
  let w := Sample.start in
  let w' := exec (AgentEventHandler.createAgentEventHandler env evt) w in
  let delta := ChatDelta "run-1" "main" 1 "Hello" 1000 in
  AgentEventHandler.shouldSuppressHeartbeatBroadcast env
    (AgentEventHandler.clientRunIdOf evt w) = false
  ∧ nodeSendToSession "main" "chat" delta ∈ Calls.emitted w w'
  ∧ ∃ dropIfSlow, broadcast "chat" delta dropIfSlow ∈ Calls.emitted w w'.
Proof.
  intros env evt w w' delta.
  assert (AgentEventHandler.shouldSuppressHeartbeatBroadcast env
            (AgentEventHandler.clientRunIdOf evt w) = false) as H1 by reflexivity.
  assert (nodeSendToSession "main" "chat" delta ∈ Calls.emitted w w') as H2.
  { vm_compute. do 3 apply list_elem_of_further. apply list_elem_of_here. }
  split_and!; [exact H1 | exact H2 |].
  exact (chat_sends_are_broadcast env evt w H1 "main" delta H2).
Defined.

(** ** More on the inbound channel message handler *)

Section ChannelMessageHandlerMore.

Import ChannelMessageHandler.

Context (deps : Deps).

Implicit Types (w : World) (msg : ChannelMessage).

Ltac run_handler :=
  unfold mbind, State_bind, modify, gets, Date_now, crypto_randomUUID,
    mret, State_ret;
  unfold set_ticks, set_uuids, set_stores, set_files, set_replies;
  cbn.

Lemma ensureSession_existing channelId sessionKey msg storePath storeKeys w
    i key entry :
  let store := default ∅ (stores w !! storePath) in
  list_find (λ candidate, is_Some (store !! candidate)) storeKeys = Some (i, key) →
  Js.truthy key = true →
  store !! key = Some entry →
  ensureSession deps channelId sessionKey msg storePath storeKeys w =
    ((sessionId entry, sessionFile entry),
     mkWorld (S (ticks w)) (uuids w)
       (<[storePath :=
            <[key :=
                mkSessionEntry (sessionId entry) (clock deps (ticks w))
                  (systemSent entry) (abortedLastRun entry) (inputTokens entry)
                  (outputTokens entry) (totalTokens entry) (label entry)
                  (origin entry) (Some channelId) (Some (from msg))
                  (match Js.truthy_opt (sendPolicy entry) with
                   | Some policy =>
                       if bool_decide (policy = "auto") then Some "allow"
                       else Some policy
                   | None => Some "allow"
                   end)
                  (contextTokens entry) (model entry) (modelProvider entry)
                  (sessionFile entry)]> store]> (stores w))
       (files w) (replies w)).
Proof.
  intros store Hfind Hkey Hentry. unfold ensureSession. run_handler.
  fold store. rewrite Hfind, Hkey, Hentry. done.
Qed.

Lemma ensureSession_frame channelId sessionKey msg storePath storeKeys w :
  let w1 := exec (ensureSession deps channelId sessionKey msg storePath storeKeys) w in
  files w1 = files w ∧ replies w1 = replies w.
Proof.
  unfold exec, ensureSession. run_handler.
  destruct (list_find _ storeKeys) as [[i key]|]; [|done].
  destruct (Js.truthy key); [|done].
  by destruct (default ∅ (stores w !! storePath) !! key).
Qed.

(** The transcript a message is appended to. *)
Lemma appendTranscriptMessage_run role message session storePath sessionFile w :
  let path :=
    match Js.truthy_opt sessionFile with
    | Some file => file
    | None => path_join deps (path_dirname deps storePath) (session +:+ ".jsonl")
    end in
  let header :=
    SessionHeader (CURRENT_SESSION_VERSION deps) session (clock deps (ticks w))
      (cwd deps) in
  let r := appendTranscriptMessage deps role message session storePath sessionFile w in
  stores r.2 = stores w ∧ replies r.2 = replies w
  ∧ (Js.truthy storePath = false → r = (false, w))
  ∧ if r.1 then
      ∃ messageId stamp,
        files r.2 =
          <[path :=
              match files w !! path with Some lines => lines | None => [header] end
              ++ [MessageLine messageId stamp role message
                    (if bool_decide (role = "assistant") then Some "injected"
                     else None)]]> (files w)
    else
      files r.2 = files w
      ∨ (files w !! path = None ∧ files r.2 = <[path := [header]]> (files w)).
Proof.
  intros path header r. subst r.
  unfold appendTranscriptMessage, ensureTranscriptFile.
  destruct (Js.truthy storePath); cbn [negb]; [|cbn; split_and!; auto; done].
  fold path. run_handler.
  destruct (files w !! path) as [lines|] eqn:Hfile; cbn; rewrite ?Hfile; cbn.
  - destruct (appendSucceeds deps path); cbn; rewrite ?Hfile; cbn;
      split_and!; eauto; done.
  - destruct (mkdirSucceeds deps (path_dirname deps path)); cbn;
      [|split_and!; auto; done].
    destruct (writeSucceeds deps path); cbn; [|split_and!; auto; done].
    destruct (appendSucceeds deps path); cbn.
    + rewrite lookup_insert_eq, insert_insert_eq. cbn. split_and!; eauto; done.
    + split_and!; auto; done.
Qed.

(** The handler as the composition of its three stages. *)
Lemma handler_stages channelId accountId msg w :
  let sessionKey := resolveSessionKey deps channelId (from msg) in
  let target := resolveGatewaySessionStoreTarget deps sessionKey in
  let r1 := ensureSession deps channelId sessionKey msg target.1 target.2 w in
  let w2 :=
    exec (appendTranscriptMessage deps "user" (text msg) r1.1.1 target.1 r1.1.2)
      r1.2 in
  let clientRunId :=
    match Js.truthy_opt (id msg) with
    | Some given => given
    | None => fallbackRunId deps (clock deps (ticks w2))
    end in
  let outcome :=
    dispatchInboundMessage deps
      (buildContext deps channelId sessionKey clientRunId msg) clientRunId in
  let parts := collectFinalReplyParts (deliveries outcome) in
  let w' := exec (createChannelMessageHandler deps channelId accountId msg) w in
  if Js.truthy r1.1.1 then
    stores w' = stores w2 ∧ files w' = files w2
    ∧ replies w' =
        replies w2
        ++ (if resolves outcome && bool_decide (parts ≠ []) && onReply deps
            then [mkReply channelId accountId (from msg) (Js.join blankLine parts)]
            else [])
  else w' = r1.2.
Proof.
  intros sessionKey target r1 w2 clientRunId outcome parts w'.
  subst w' parts outcome clientRunId w2 r1.
  unfold exec, createChannelMessageHandler. fold sessionKey. fold target.
  destruct target as [storePath storeKeys]. cbn [fst snd].
  unfold mbind, State_bind.
  destruct (ensureSession _ _ _ _ _ _ _) as [[sid sf] w1]. cbn [fst snd].
  destruct (Js.truthy sid); cbn [negb]; [|reflexivity].
  destruct (appendTranscriptMessage _ _ _ _ _ _ _) as [ok w2]. cbn [snd].
  assert (∀ l : list string, bool_decide (0 < length l)%nat = bool_decide (l ≠ []))
    as Hlen by (intros [|??]; done).
  destruct (Js.truthy_opt (id msg)) as [given|]; run_handler; rewrite Hlen;
    by destruct (resolves _ && _ && onReply deps); cbn; rewrite ?app_nil_r.
Qed.

Lemma parts_nonempty ds :
  Forall (λ part, part ≠ "") (collectFinalReplyParts ds).
Proof.
  rewrite collectFinalReplyParts_spec. apply Forall_forall. intros part Hpart.
  apply list_elem_of_omap in Hpart as (d & _ & Hd).
  destruct (bool_decide (d.1 = "final")); [|done].
  unfold Js.truthy_opt, Js.truthy in Hd.
  case_bool_decide; cbn in Hd; [done|]. by simplify_eq.
Qed.

Lemma join_nonempty sep part parts :
  part ≠ "" → Js.join sep (part :: parts) ≠ "".
Proof.
  unfold Js.join. destruct part as [|c part]; [done|]. intros _.
  destruct parts; cbn; done.
Qed.

(** X15. An inbound message on a session that has an entry under one of
    its store keys refreshes that entry in place: the session id, the token
    counters and every other field are kept, the update time, last channel
    and last recipient are set, and the send policy becomes allow only when
    it was missing, empty or auto, so an explicit policy such as deny
    survives.  No other entry of the store is touched. *)
Theorem inbound_message_on_existing_session channelId accountId msg w i key entry :
  let sessionKey := resolveSessionKey deps channelId (from msg) in
  let target := resolveGatewaySessionStoreTarget deps sessionKey in
  let store := default ∅ (stores w !! target.1) in
  let w' := exec (createChannelMessageHandler deps channelId accountId msg) w in
  list_find (λ candidate, is_Some (store !! candidate)) target.2 = Some (i, key) →
  Js.truthy key = true →
  store !! key = Some entry →
  ∃ entry',
    stores w' = <[target.1 := <[key := entry']> store]> (stores w)
    ∧ sessionId entry' = sessionId entry
    ∧ sessionFile entry' = sessionFile entry
    ∧ inputTokens entry' = inputTokens entry
    ∧ outputTokens entry' = outputTokens entry
    ∧ totalTokens entry' = totalTokens entry
    ∧ systemSent entry' = systemSent entry
    ∧ abortedLastRun entry' = abortedLastRun entry
    ∧ label entry' = label entry ∧ origin entry' = origin entry
    ∧ contextTokens entry' = contextTokens entry
    ∧ model entry' = model entry ∧ modelProvider entry' = modelProvider entry
    ∧ updatedAt entry' = clock deps (ticks w)
    ∧ lastChannel entry' = Some channelId
    ∧ lastTo entry' = Some (from msg)
    ∧ sendPolicy entry' =
        (if bool_decide (sendPolicy entry = None ∨ sendPolicy entry = Some ""
                         ∨ sendPolicy entry = Some "auto")
         then Some "allow" else sendPolicy entry).
Proof.
  intros sessionKey target store w' Hfind Hkey Hentry.
  pose proof (handler_stages channelId accountId msg w) as Hrun.
  cbv zeta in Hrun. fold sessionKey target w' in Hrun.
  rewrite (ensureSession_existing channelId sessionKey msg target.1 target.2 w
             i key entry Hfind Hkey Hentry) in Hrun.
  cbn [fst snd] in Hrun.
  match type of Hrun with
  | context [<[key := ?e]> _] => exists e
  end.
  split.
  - destruct (Js.truthy (sessionId entry)); [|by rewrite Hrun].
    destruct Hrun as (-> & _).
    match goal with
    | |- context [exec (appendTranscriptMessage _ _ _ _ _ _) ?w1] =>
        destruct (appendTranscriptMessage_run "user" (text msg) (sessionId entry)
                    target.1 (sessionFile entry) w1) as (Hs & _)
    end.
    unfold exec. by rewrite Hs.
  - clear Hrun. cbn. split_and!; try done.
    destruct (sendPolicy entry) as [policy|]; cbn; [|done].
    unfold Js.truthy.
    destruct (decide (policy = "")) as [-> | Hempty]; [done|].
    rewrite (bool_decide_eq_false_2 (policy = "")) by done. cbn.
    destruct (decide (policy = "auto")) as [-> | Hauto]; [done|].
    rewrite (bool_decide_eq_false_2 (policy = "auto")) by done.
    rewrite bool_decide_eq_false_2; [done|].
    intros [? | [? | ?]]; simplify_eq.
Qed.

(** X16. Whatever the state of the session store and of the file system,
    the handler calls [onReply] at most once, and exactly when the store
    update reported a non-empty session id, the dispatch resolved with at
    least one final reply part and the callback is provided.  The reply
    goes to the channel, account and sender of the message, its text is the
    trimmed non-empty texts of the final deliveries joined by two line
    feeds and is never empty, and the dispatch ran under the id of the
    message when it has one. *)
Theorem reply_follows_dispatch channelId accountId msg w :
  let sessionKey := resolveSessionKey deps channelId (from msg) in
  let target := resolveGatewaySessionStoreTarget deps sessionKey in
  let reported :=
    (eval (ensureSession deps channelId sessionKey msg target.1 target.2) w).1 in
  let w' := exec (createChannelMessageHandler deps channelId accountId msg) w in
  ∃ clientRunId,
    (∀ given, id msg = Some given → given ≠ "" → clientRunId = given)
    ∧ let outcome :=
        dispatchInboundMessage deps
          (buildContext deps channelId sessionKey clientRunId msg) clientRunId in
      let texts := Claimed.finalTexts (deliveries outcome) in
      let reply :=
        mkReply channelId accountId (from msg) (Claimed.blankLineJoined texts) in
      replies w' =
        replies w
        ++ (if bool_decide (reported ≠ "") && resolves outcome
               && bool_decide (texts ≠ []) && onReply deps
            then [reply] else [])
      ∧ (texts ≠ [] → replyText reply ≠ "").
Proof.
  intros sessionKey target reported w'.
  pose proof (handler_stages channelId accountId msg w) as Hrun.
  cbv zeta in Hrun. fold sessionKey target w' in Hrun.
  destruct (ensureSession_frame channelId sessionKey msg target.1 target.2 w)
    as (_ & Hreplies).
  subst reported. unfold eval, exec in *.
  destruct (ensureSession deps channelId sessionKey msg target.1 target.2 w)
    as [[sid sf] w1].
  cbn [fst snd] in *.
  match type of Hrun with
  | context [buildContext deps channelId sessionKey ?run msg] =>
      exists run; set (outcome := dispatchInboundMessage deps
                                    (buildContext deps channelId sessionKey run msg)
                                    run) in *
  end.
  split.
  { intros given Hid Hne. rewrite Hid. unfold Js.truthy_opt, Js.truthy.
    by rewrite bool_decide_eq_false_2. }
  cbv zeta. rewrite finalTexts_collected, blankLineJoined_join in Hrun.
  split.
  - unfold Js.truthy in Hrun.
    destruct (decide (sid = "")) as [-> | Hsid].
    + rewrite (bool_decide_eq_false_2 ("" ≠ "")) by (intros H; by apply H).
      cbn in Hrun. cbn [andb]. by rewrite Hrun, Hreplies, app_nil_r.
    + rewrite (bool_decide_eq_false_2 (sid = "")) in Hrun by done.
      rewrite (bool_decide_eq_true_2 (sid ≠ "")) by done.
      cbn [negb andb] in *. destruct Hrun as (_ & _ & ->).
      match goal with
      | |- context [appendTranscriptMessage deps ?r ?m ?s ?p ?f ?w0] =>
          destruct (appendTranscriptMessage_run r m s p f w0) as (_ & Hr & _)
      end.
      by rewrite Hr, Hreplies.
  - cbn. pose proof (parts_nonempty (deliveries outcome)) as Hparts.
    rewrite finalTexts_collected in Hparts.
    destruct (Claimed.finalTexts (deliveries outcome)) as [|part parts]; [done|].
    intros _. rewrite <- blankLineJoined_join. apply join_nonempty.
    by apply Forall_cons in Hparts as [? _].
Qed.

(** X17. The handler never rewrites a transcript: a file that exists is
    left as it is or gains one user message line with the text of the
    message at its end, and a file that comes into being starts with a
    session header, followed by at most that one line. *)
Theorem transcripts_only_grow channelId accountId msg w path :
  let w' := exec (createChannelMessageHandler deps channelId accountId msg) w in
  match files w !! path with
  | Some lines =>
      files w' !! path = Some lines
      ∨ ∃ messageId stamp,
          files w' !! path
          = Some (lines ++ [MessageLine messageId stamp "user" (text msg) None])
  | None =>
      files w' !! path = None
      ∨ ∃ session stamp rest,
          files w' !! path
          = Some (SessionHeader (CURRENT_SESSION_VERSION deps) session stamp
                    (cwd deps) :: rest)
          ∧ (rest = []
             ∨ ∃ messageId stamp',
                 rest = [MessageLine messageId stamp' "user" (text msg) None])
  end.
Proof.
  intros w'.
  pose proof (handler_stages channelId accountId msg w) as Hrun.
  cbv zeta in Hrun. fold w' in Hrun.
  set (sessionKey := resolveSessionKey deps channelId (from msg)) in *.
  set (target := resolveGatewaySessionStoreTarget deps sessionKey) in *.
  destruct (ensureSession_frame channelId sessionKey msg target.1 target.2 w)
    as (Hfiles & _).
  unfold exec in *.
  destruct (ensureSession deps channelId sessionKey msg target.1 target.2 w)
    as [[sid sf] w1].
  cbn [fst snd] in *.
  assert (files w' = files w1 ∨ files w' =
            files (appendTranscriptMessage deps "user" (text msg) sid target.1 sf w1).2)
    as [Hw' | Hw'].
  { destruct (Js.truthy sid); [right; by destruct Hrun as (_ & -> & _)|left].
    by rewrite Hrun. }
  { rewrite Hw', Hfiles. destruct (files w !! path); auto. }
  rewrite Hw'. clear Hrun Hw'.
  destruct (appendTranscriptMessage_run "user" (text msg) sid target.1 sf w1)
    as (_ & _ & _ & Happend).
  cbv zeta in Happend. rewrite Hfiles in Happend.
  set (target' := match Js.truthy_opt sf with Some file => file | None => _ end)
    in Happend.
  destruct (appendTranscriptMessage _ _ _ _ _ _ _) as [ok w2]. cbn [fst snd] in *.
  destruct (decide (path = target')) as [-> | Hother].
  - destruct ok.
    + destruct Happend as (messageId & stamp & ->). rewrite lookup_insert_eq.
      rewrite (bool_decide_eq_false_2 ("user" = "assistant")) by done.
      destruct (files w !! target'); [right; eauto|].
      right. eexists _, _, _. split; [reflexivity|]. right. eauto.
    + destruct Happend as [-> | (Hnone & ->)];
        [destruct (files w !! target'); auto|].
      rewrite Hnone, lookup_insert_eq. right. eexists _, _, _. split; eauto.
  - assert (files w2 !! path = files w !! path) as ->.
    { destruct ok.
      - destruct Happend as (? & ? & ->). by rewrite lookup_insert_ne.
      - destruct Happend as [-> | (_ & ->)]; [done|by rewrite lookup_insert_ne]. }
    destruct (files w !! path); auto.
Qed.

(** X18. When the entry found for the session has an empty session id the
    handler updates the entry and stops: no transcript is written, nothing
    is dispatched into a reply and no id is generated. *)
Theorem inbound_message_without_session_id channelId accountId msg w i key entry :
  let sessionKey := resolveSessionKey deps channelId (from msg) in
  let target := resolveGatewaySessionStoreTarget deps sessionKey in
  let store := default ∅ (stores w !! target.1) in
  let w' := exec (createChannelMessageHandler deps channelId accountId msg) w in
  list_find (λ candidate, is_Some (store !! candidate)) target.2 = Some (i, key) →
  Js.truthy key = true →
  store !! key = Some entry →
  sessionId entry = "" →
  files w' = files w ∧ replies w' = replies w ∧ uuids w' = uuids w
  ∧ ticks w' = S (ticks w)
  ∧ ∃ entry', stores w' !! target.1 = Some (<[key := entry']> store)
              ∧ sessionId entry' = ""
              ∧ lastTo entry' = Some (from msg).
Proof.
  intros sessionKey target store w' Hfind Hkey Hentry Hsid.
  pose proof (handler_stages channelId accountId msg w) as Hrun.
  cbv zeta in Hrun. fold sessionKey target w' in Hrun.
  rewrite (ensureSession_existing channelId sessionKey msg target.1 target.2 w
             i key entry Hfind Hkey Hentry) in Hrun.
  cbn [fst snd] in Hrun. rewrite Hsid in Hrun. cbn in Hrun. rewrite Hrun. cbn.
  split_and!; try done.
  eexists. split; [apply lookup_insert_eq|]. done.
Qed.

(** X19. On a session that has an entry with a session id, a store path
    and a file system that accepts the writes, the user message is appended
    to the session file the entry names, and to the file named after the
    session id beside the store when it names none; the lines the file had
    are kept, a header is written first when the file is new, and the id of
    the line comes from the first id generated. *)
Theorem inbound_message_transcript_of_existing_session channelId accountId msg w
    i key entry :
  let sessionKey := resolveSessionKey deps channelId (from msg) in
  let target := resolveGatewaySessionStoreTarget deps sessionKey in
  let store := default ∅ (stores w !! target.1) in
  let w' := exec (createChannelMessageHandler deps channelId accountId msg) w in
  let path :=
    match Js.truthy_opt (sessionFile entry) with
    | Some file => file
    | None =>
        path_join deps (path_dirname deps target.1) (sessionId entry +:+ ".jsonl")
    end in
  list_find (λ candidate, is_Some (store !! candidate)) target.2 = Some (i, key) →
  Js.truthy key = true →
  store !! key = Some entry →
  Js.truthy (sessionId entry) = true →
  Js.truthy target.1 = true →
  mkdirSucceeds deps (path_dirname deps path) = true →
  writeSucceeds deps path = true →
  appendSucceeds deps path = true →
  ∃ stamp,
    files w' =
      <[path :=
          match files w !! path with
          | Some lines => lines
          | None =>
              [SessionHeader (CURRENT_SESSION_VERSION deps) (sessionId entry)
                 (clock deps (S (ticks w))) (cwd deps)]
          end
          ++ [MessageLine (String.substring 0 8 (randomUUID deps (uuids w)))
                stamp "user" (text msg) None]]> (files w).
Proof.
  intros sessionKey target store w' path Hfind Hkey Hentry Hsid Hstore Hmk Hwr Hap.
  pose proof (handler_stages channelId accountId msg w) as Hrun.
  cbv zeta in Hrun. fold sessionKey target w' in Hrun.
  rewrite (ensureSession_existing channelId sessionKey msg target.1 target.2 w
             i key entry Hfind Hkey Hentry) in Hrun.
  cbn [fst snd] in Hrun. rewrite Hsid in Hrun. destruct Hrun as (_ & -> & _).
  unfold exec, appendTranscriptMessage, ensureTranscriptFile.
  rewrite Hstore. cbn [negb]. fold path. run_handler.
  destruct (files w !! path) as [lines|] eqn:Hfile; cbn; rewrite ?Hfile; cbn.
  - rewrite Hap. cbn. rewrite ?Hfile. cbn. eauto.
  - rewrite Hmk. cbn. rewrite Hwr. cbn. rewrite Hap. cbn.
    rewrite lookup_insert_eq, insert_insert_eq. cbn. eauto.
Qed.

End ChannelMessageHandlerMore.

Lemma inbound_message_on_existing_session_example :
  let deps := ChannelSamples.deps [("final", Some "ok")] in
  let entry := Extras.knownEntry "session-1" (Some "deny") None in
  let w := Extras.knownSession entry ∅ in
  let store : gmap string ChannelMessageHandler.SessionEntry :=
    {[ "spixi:wallet-abc" := entry ]} in
  let w' := exec (ChannelMessageHandler.createChannelMessageHandler deps "spixi"
                    "default" ChannelSamples.hi) w in
  list_find (λ candidate, is_Some (store !! candidate)) ["spixi:wallet-abc"]
    = Some (0%nat, "spixi:wallet-abc")
  ∧ Js.truthy "spixi:wallet-abc" = true
  ∧ store !! "spixi:wallet-abc" = Some entry
  ∧ ∃ entry',
      ChannelMessageHandler.stores w'
        = {[ "/store/sessions.json" := {[ "spixi:wallet-abc" := entry' ]} ]}
      ∧ ChannelMessageHandler.sessionId entry' = "session-1"
      ∧ ChannelMessageHandler.totalTokens entry' = 30%Z
      ∧ ChannelMessageHandler.lastChannel entry' = Some "spixi"
      ∧ ChannelMessageHandler.sendPolicy entry' = Some "deny".
Proof.
  intros deps entry w store w'.
  assert (list_find (λ candidate, is_Some (store !! candidate)) ["spixi:wallet-abc"]
          = Some (0%nat, "spixi:wallet-abc")) as H1 by (vm_compute; reflexivity).
  assert (Js.truthy "spixi:wallet-abc" = true) as H2 by reflexivity.
  assert (store !! "spixi:wallet-abc" = Some entry) as H3 by reflexivity.
  split_and!; [exact H1 | exact H2 | exact H3 |].
  destruct (inbound_message_on_existing_session deps "spixi" "default"
              ChannelSamples.hi w 0%nat "spixi:wallet-abc" entry H1 H2 H3)
    as (entry' & Hstores & Hsid & _ & _ & _ & Htotal & _ & _ & _ & _ & _ & _ & _
        & _ & Hchannel & _ & Hpolicy).
  exists entry'. split_and!.
  - etrans; [exact Hstores|].
    change (<[ "/store/sessions.json" := <[ "spixi:wallet-abc" := entry' ]> store ]>
              ({[ "/store/sessions.json" := store ]}
                 : gmap string (gmap string ChannelMessageHandler.SessionEntry))
            = {[ "/store/sessions.json" := {[ "spixi:wallet-abc" := entry' ]} ]}).
    subst store. by rewrite insert_singleton, insert_singleton.
  - exact Hsid.
  - exact Htotal.
  - exact Hchannel.
  - etrans; [exact Hpolicy | reflexivity].
Defined.

Lemma inbound_message_without_session_id_example :
  let deps := ChannelSamples.deps [("final", Some "ok")] in
  let entry := Extras.knownEntry "" None None in
  let w := Extras.knownSession entry ∅ in
  let store : gmap string ChannelMessageHandler.SessionEntry :=
    {[ "spixi:wallet-abc" := entry ]} in
  let w' := exec (ChannelMessageHandler.createChannelMessageHandler deps "spixi"
                    "default" ChannelSamples.hi) w in
  list_find (λ candidate, is_Some (store !! candidate)) ["spixi:wallet-abc"]
    = Some (0%nat, "spixi:wallet-abc")
  ∧ Js.truthy "spixi:wallet-abc" = true
  ∧ store !! "spixi:wallet-abc" = Some entry
  ∧ ChannelMessageHandler.sessionId entry = ""
  ∧ ChannelMessageHandler.files w' = ∅
  ∧ ChannelMessageHandler.replies w' = [].
Proof.
  intros deps entry w store w'.
  assert (list_find (λ candidate, is_Some (store !! candidate)) ["spixi:wallet-abc"]
          = Some (0%nat, "spixi:wallet-abc")) as H1 by (vm_compute; reflexivity).
  assert (Js.truthy "spixi:wallet-abc" = true) as H2 by reflexivity.
  assert (store !! "spixi:wallet-abc" = Some entry) as H3 by reflexivity.
  assert (ChannelMessageHandler.sessionId entry = "") as H4 by reflexivity.
  destruct (inbound_message_without_session_id deps "spixi" "default"
              ChannelSamples.hi w 0%nat "spixi:wallet-abc" entry H1 H2 H3 H4)
    as (Hfiles & Hreplies & _).
  split_and!; [exact H1 | exact H2 | exact H3 | exact H4 | exact Hfiles
              | exact Hreplies].
Defined.

Lemma inbound_message_transcript_of_existing_session_example :
  let deps := ChannelSamples.deps [("final", Some "ok")] in
  let entry := Extras.knownEntry "session-1" None (Some "/custom/s1.jsonl") in
  let header := ChannelMessageHandler.SessionHeader 1 "session-1" 400 "/home" in
  let w := Extras.knownSession entry {[ "/custom/s1.jsonl" := [header] ]} in
  let store : gmap string ChannelMessageHandler.SessionEntry :=
    {[ "spixi:wallet-abc" := entry ]} in
  let w' := exec (ChannelMessageHandler.createChannelMessageHandler deps "spixi"
                    "default" ChannelSamples.hi) w in
  list_find (λ candidate, is_Some (store !! candidate)) ["spixi:wallet-abc"]
    = Some (0%nat, "spixi:wallet-abc")
  ∧ Js.truthy "spixi:wallet-abc" = true
  ∧ store !! "spixi:wallet-abc" = Some entry
  ∧ Js.truthy (ChannelMessageHandler.sessionId entry) = true
  ∧ Js.truthy "/store/sessions.json" = true
  ∧ ∃ stamp,
      ChannelMessageHandler.files w'
      = {[ "/custom/s1.jsonl" :=
             [header;
              ChannelMessageHandler.MessageLine "11111111" stamp "user" "hi" None] ]}.
Proof.
  intros deps entry header w store w'.
  assert (list_find (λ candidate, is_Some (store !! candidate)) ["spixi:wallet-abc"]
          = Some (0%nat, "spixi:wallet-abc")) as H1 by (vm_compute; reflexivity).
  assert (Js.truthy "spixi:wallet-abc" = true) as H2 by reflexivity.
  assert (store !! "spixi:wallet-abc" = Some entry) as H3 by reflexivity.
  assert (Js.truthy (ChannelMessageHandler.sessionId entry) = true) as H4
    by reflexivity.
  assert (Js.truthy "/store/sessions.json" = true) as H5 by reflexivity.
  destruct (inbound_message_transcript_of_existing_session deps "spixi" "default"
              ChannelSamples.hi w 0%nat "spixi:wallet-abc" entry H1 H2 H3 H4 H5
              eq_refl eq_refl eq_refl) as (stamp & Hfiles).
  split_and!; [exact H1 | exact H2 | exact H3 | exact H4 | exact H5 |].
  exists stamp. etrans; [exact Hfiles | vm_compute; reflexivity].
Defined.

(** A message on a session with send policy deny and a file system that
    refuses every write: the two final texts that are not blank still come
    back as one reply, two line feeds between them. *)
Lemma reply_follows_dispatch_example :
  let made :=
    [("final", Some " hello! "); ("block", Some "hel"); ("final", Some "   ");
     ("final", None); ("final", Some "bye")] in
  let deps :=
    ChannelMessageHandler.mkDeps (λ n, 1000 + Z.of_nat n)%Z (λ _, "11111111-aaaa")
      (λ channel sender, channel +:+ ":" +:+ sender)
      (λ key, ("/store/sessions.json", [key]))
      (ChannelMessageHandler.mkSessionDefaults None None None)
      (λ _, "/store") (λ dir file, dir +:+ "/" +:+ file)
      (λ _, false) (λ _, false) (λ _, false)
      1%Z "/home" (λ _, "msg-1000") (λ body, body)
      (λ _ _, ChannelMessageHandler.mkDispatchOutcome made true) true in
  let w := Extras.knownSession (Extras.knownEntry "session-1" (Some "deny") None) ∅ in
  let w' := exec (ChannelMessageHandler.createChannelMessageHandler deps "spixi"
                    "default" ChannelSamples.hi) w in
  ChannelMessageHandler.files w' = ∅
  ∧ ChannelMessageHandler.replies w'
    = [ChannelMessageHandler.mkReply "spixi" "default" "wallet-abc"
         ("hello!" +:+ String "010" (String "010" "bye"))].
Proof.
  intros made deps w w'. split; [vm_compute; reflexivity|].
  destruct (reply_follows_dispatch deps "spixi" "default" ChannelSamples.hi w)
    as (run & _ & Hreply & _).
  etrans; [exact Hreply | vm_compute; reflexivity].
Defined.

(** ** Spixi accounts *)

Section SpixiAccountsFacts.

Import SpixiAccounts.

Context (normalizeAccountId : option string → string).

(** X21. An account is resolved under its normalized id by laying its own
    settings over the channel-level ones.  It is disabled exactly when it
    says so itself or, saying nothing, the channel says so, so an account
    that enables itself overrides a disabled channel; each of the nine
    settings is the account's own when it has one and the channel's
    otherwise, and an id without an account entry resolves to the
    channel-level settings. *)
Theorem resolveSpixiAccount_precedence (cfg : option SpixiConfig)
    (requested : option string) :
  let resolved := resolveSpixiAccount normalizeAccountId cfg requested in
  let known : gmap string SpixiAccountConfig := default ∅ (cfg ≫= accounts) in
  let own : option SpixiAccountConfig := known !! normalizeAccountId requested in
  let channel := default emptyConfig (settings <$> cfg) in
  let laid := λ (A : Type) (field : SpixiAccountConfig → option A),
    match own with
    | Some account =>
        match field account with
        | Some value => Some value
        | None => field channel
        end
    | None => field channel
    end in
  let merged := settings (config resolved) in
  accountId resolved = normalizeAccountId requested
  ∧ (resolvedEnabled resolved = false ↔
       own ≫= enabled =@{option bool} Some false
       ∨ (own ≫= enabled =@{option bool} None ∧ enabled channel = Some false))
  ∧ (own ≫= enabled =@{option bool} Some true → resolvedEnabled resolved = true)
  ∧ resolvedName resolved = laid _ name
  ∧ enabled merged = laid _ enabled
  ∧ name merged = laid _ name
  ∧ quixiApiUrl merged = laid _ quixiApiUrl
  ∧ mqttHost merged = laid _ mqttHost
  ∧ mqttPort merged = laid _ mqttPort
  ∧ myWalletAddress merged = laid _ myWalletAddress
  ∧ dmPolicy merged = laid _ dmPolicy
  ∧ allowFrom merged = laid _ allowFrom
  ∧ groupPolicy merged = laid _ groupPolicy
  ∧ accounts (config resolved) = cfg ≫= accounts
  ∧ (own = None → merged = channel).
Proof.
  intros resolved known own channel laid merged. subst resolved merged laid.
  unfold resolveSpixiAccount. cbn. fold known. fold own. fold channel.
  split_and!; [done| | | | | | | | | | | | |done|].
  - destruct own as [o|]; cbn.
    + destruct (enabled o) as [[]|]; cbn.
      * split; [done|]. intros [? | [? _]]; done.
      * split; auto.
      * destruct (enabled channel) as [[]|]; cbn.
        -- split; [done|]. intros [? | [_ ?]]; done.
        -- split; auto.
        -- split; [done|]. intros [? | [_ ?]]; done.
    + destruct (enabled channel) as [[]|]; cbn.
      * split; [done|]. intros [? | [_ ?]]; done.
      * split; auto.
      * split; [done|]. intros [? | [_ ?]]; done.
  - destruct own as [o|]; cbn; [|done]. by intros ->.
  - by destruct own as [o|].
  - by destruct own as [o|].
  - by destruct own as [o|].
  - by destruct own as [o|].
  - by destruct own as [o|].
  - by destruct own as [o|].
  - by destruct own as [o|].
  - by destruct own as [o|].
  - by destruct own as [o|].
  - by destruct own as [o|].
  - intros ->. cbn. by destruct channel.
Qed.

End SpixiAccountsFacts.

(** A channel that is switched off, with one account that switches itself
    on and names itself: the account is enabled under its own name and
    takes the broker host of the channel. *)
Lemma resolveSpixiAccount_precedence_example :
  let normalize := λ requested : option string, default "default" requested in
  let channel :=
    SpixiAccounts.mkSpixiAccountConfig (Some false) (Some "Spixi") None
      (Some "10.0.0.1") (Some 1883%Z) None None None None in
  let work :=
    SpixiAccounts.mkSpixiAccountConfig (Some true) (Some "Work") None None None
      (Some "wallet-1") None None None in
  let cfg := Some (SpixiAccounts.mkSpixiConfig channel (Some {[ "work" := work ]})) in
  let resolved := SpixiAccounts.resolveSpixiAccount normalize cfg (Some "work") in
  let other := SpixiAccounts.resolveSpixiAccount normalize cfg None in
  SpixiAccounts.accountId resolved = "work"
  ∧ SpixiAccounts.resolvedEnabled resolved = true
  ∧ SpixiAccounts.resolvedName resolved = Some "Work"
  ∧ SpixiAccounts.mqttHost (SpixiAccounts.settings (SpixiAccounts.config resolved))
    = Some "10.0.0.1"
  ∧ SpixiAccounts.myWalletAddress
      (SpixiAccounts.settings (SpixiAccounts.config resolved)) = Some "wallet-1"
  ∧ SpixiAccounts.accountId other = "default"
  ∧ SpixiAccounts.resolvedEnabled other = false
  ∧ SpixiAccounts.settings (SpixiAccounts.config other) = channel.
Proof.
  intros normalize channel work cfg resolved other.
  destruct (resolveSpixiAccount_precedence normalize cfg (Some "work"))
    as (Hid & _ & Hon & Hname & _ & _ & _ & Hhost & _ & Hwallet & _).
  destruct (resolveSpixiAccount_precedence normalize cfg None)
    as (Hid' & Hoff & Hrest).
  split_and!.
  - exact Hid.
  - apply Hon. reflexivity.
  - etrans; [exact Hname | reflexivity].
  - etrans; [exact Hhost | reflexivity].
  - etrans; [exact Hwallet | reflexivity].
  - exact Hid'.
  - apply Hoff. right. split; reflexivity.
  - destruct Hrest as (_ & _ & _ & _ & _ & _ & _ & _ & _ & _ & _ & _ & Hnone).
    apply Hnone. reflexivity.
Defined.
